(** * AI-Powered Interview Platform: the Flask orchestration layer of [app.py]

    A shallow embedding of the request handlers, the session store, the text
    extractor and the Gemini client of [app.py], with the properties of the
    specification proved (or refuted) against it.

    Modelling conventions.
    - A Python [str] is a Rocq [string]; its characters are the code points
      below 256.  Whitespace is what [str.isspace] accepts in that range.
    - Every Python object that flows through the handlers is JSON-shaped and
      is a [value]; a [dict] is an association list in insertion order.
    - Python exceptions are explicit: a computation returns a [result].
    - The outside world is a parameter: [json.loads], the text of interpreter
      error messages, the Gemini model (the outcome of its k-th call), the
      PDF and DOCX readers (what they produce for the uploaded file), the
      clock and the uuid generator.
    - Serialising a reply or a profile can raise, and the interpreter
      converts between integers and text only up to a limit of digits: on
      which data the serialisers raise, and the limit, are parameters too.
    - The model is an arbitrary oracle, so the prompts are not built; what
      building them can raise is kept.  [print] is left out. *)

From Stdlib Require Import ZArith Bool Ascii String List Lia.
From Stdlib Require Import Floats.SpecFloat.
From Stdlib Require Import DecimalString.
From Stdlib Require Import DecimalPos.
From stdpp Require Import gmap strings.
From Equations Require Import Equations.
From Equations.Prop Require Import Logic.

Set Warnings "-register-all".

Local Open Scope Z_scope.

(** ** Python values *)

Inductive value :=
| VNone
| VBool (b : bool)
| VInt (z : Z)
| VFloat (f : spec_float)
| VStr (s : string)
| VList (l : list value)
| VDict (d : list (string * value)).

Abbreviation dict := (list (string * value)).

(** ** Exceptions *)

Inductive exn_kind :=
| KeyError | TypeError | AttributeError | ValueError | JSONDecodeError
| OverflowError | ZeroDivisionError | NameError | RecursionError.

(** [AppValueError msg] is a [ValueError(msg)] raised by [app.py] itself;
    [PyError k] is raised by the interpreter or a library. *)
Inductive exn :=
| AppValueError (msg : string)
| PyError (k : exn_kind).

Inductive result (A : Type) :=
| Ok (a : A)
| Raise (e : exn).
Arguments Ok {A} a.
Arguments Raise {A} e.

#[global] Instance result_ret : MRet result := fun _ a => Ok a.
#[global] Instance result_bind : MBind result := fun _ _ k m =>
  match m with
  | Ok a => k a
  | Raise e => Raise e
  end.

(** ** Strings *)

Module Str.

(** [str.isspace] on one character below code point 256: TAB..CR, FS..US,
    SPACE, NEL (0x85) and NBSP (0xA0). *)
Definition isspace (c : ascii) : bool :=
  let n := N_of_ascii c in
  ((9 <=? n) && (n <=? 13) || (28 <=? n) && (n <=? 32)
   || (n =? 133) || (n =? 160))%N.

Fixpoint lstrip (s : string) : string :=
  match s with
  | String c s' => if isspace c then lstrip s' else s
  | EmptyString => EmptyString
  end.

Fixpoint rstrip (s : string) : string :=
  match s with
  | String c s' =>
      match rstrip s' with
      | EmptyString => if isspace c then EmptyString else String c EmptyString
      | r => String c r
      end
  | EmptyString => EmptyString
  end.

(** [s.strip()] *)
Definition strip (s : string) : string := rstrip (lstrip s).

(** Python truthiness of a [str]: non-empty. *)
Definition nonempty (s : string) : bool :=
  match s with EmptyString => false | _ => true end.

(** [s.split(sep)] for a one-character separator. *)
Fixpoint split (sep : ascii) (s : string) : list string :=
  match s with
  | EmptyString => [EmptyString]
  | String c s' =>
      if Ascii.eqb c sep then EmptyString :: split sep s'
      else match split sep s' with
           | p :: ps => String c p :: ps
           | [] => [String c EmptyString]
           end
  end.

(** [c.lower()] below code point 256: A-Z and the Latin-1 capitals. *)
Definition lower_char (c : ascii) : ascii :=
  let n := N_of_ascii c in
  if ((65 <=? n) && (n <=? 90)
      || (192 <=? n) && (n <=? 222) && negb (n =? 215))%N
  then ascii_of_N (n + 32) else c.

Fixpoint lower (s : string) : string :=
  match s with
  | String c s' => String (lower_char c) (lower s')
  | EmptyString => EmptyString
  end.

Fixpoint rev_acc (s acc : string) : string :=
  match s with
  | String c s' => rev_acc s' (String c acc)
  | EmptyString => acc
  end.

(** [s.endswith(suffix)] *)
Definition endswith (s suffix : string) : bool :=
  String.prefix (rev_acc suffix EmptyString) (rev_acc s EmptyString).

(** [sep.join(parts)] *)
Definition join (sep : string) (parts : list string) : string :=
  String.concat sep parts.

(** Rewrites every apostrophe into a double quote, to write JSON text in
    examples. *)
Fixpoint dq (s : string) : string :=
  match s with
  | String c s' =>
      String (if Ascii.eqb c "'"%char then ascii_of_nat 34 else c) (dq s')
  | EmptyString => EmptyString
  end.

End Str.

(** ** Operations on values *)

Fixpoint dict_get (k : string) (d : dict) : option value :=
  match d with
  | [] => None
  | (k', v) :: d' => if String.eqb k' k then Some v else dict_get k d'
  end.

(** [d[k] = v]: an existing key keeps its place, a new key goes last. *)
Fixpoint dict_set (k : string) (v : value) (d : dict) : dict :=
  match d with
  | [] => [(k, v)]
  | (k', v') :: d' =>
      if String.eqb k' k then (k, v) :: d' else (k', v') :: dict_set k v d'
  end.

Definition float_is_zero (f : spec_float) : bool :=
  match f with S754_zero _ => true | _ => false end.

(** Python truthiness ([bool(v)]). *)
Definition py_truthy (v : value) : bool :=
  match v with
  | VNone => false
  | VBool b => b
  | VInt z => negb (z =? 0)
  | VFloat f => negb (float_is_zero f)
  | VStr s => Str.nonempty s
  | VList l => match l with [] => false | _ => true end
  | VDict d => match d with [] => false | _ => true end
  end.

(** [v.get(k, default)]: only a [dict] has the method. *)
Definition py_get (v : value) (k : string) (default : value) : result value :=
  match v with
  | VDict d => Ok (match dict_get k d with Some x => x | None => default end)
  | _ => Raise (PyError AttributeError)
  end.

(** [v[k]] for a string key [k]. *)
Definition py_getitem (v : value) (k : string) : result value :=
  match v with
  | VDict d =>
      match dict_get k d with
      | Some x => Ok x
      | None => Raise (PyError KeyError)
      end
  | _ => Raise (PyError TypeError)
  end.

(** [v[k] = x] for a string key [k]. *)
Definition py_setitem (v : value) (k : string) (x : value) : result value :=
  match v with
  | VDict d => Ok (VDict (dict_set k x d))
  | _ => Raise (PyError TypeError)
  end.

Fixpoint chars (s : string) : list value :=
  match s with
  | String c s' => VStr (String c EmptyString) :: chars s'
  | EmptyString => []
  end.

(** The items a [for] loop over [v] visits. *)
Definition py_iter (v : value) : result (list value) :=
  match v with
  | VList l => Ok l
  | VDict d => Ok (map (fun kv => VStr (fst kv)) d)
  | VStr s => Ok (chars s)
  | _ => Raise (PyError TypeError)
  end.

(** [sep.join(v)]: every item must be a [str]. *)
Fixpoint join_items (items : list value) : result (list string) :=
  match items with
  | [] => Ok []
  | VStr s :: rest => ss ← join_items rest; Ok (s :: ss)
  | _ :: _ => Raise (PyError TypeError)
  end.

Definition py_join (sep : string) (v : value) : result string :=
  items ← py_iter v; ss ← join_items items; Ok (Str.join sep ss).

(** ** Numbers: [int] is unbounded, [float] is IEEE 754 binary64 *)

Module Num.

Definition prec : Z := 53.
Definition emax : Z := 1024.

Inductive num := NInt (z : Z) | NFloat (f : spec_float).

(** [bool] is a subclass of [int]. *)
Definition as_num (v : value) : option num :=
  match v with
  | VBool b => Some (NInt (Z.b2z b))
  | VInt z => Some (NInt z)
  | VFloat f => Some (NFloat f)
  | _ => None
  end.

(** [float(z)]: the nearest binary64, ties to even; too large raises. *)
Definition float_of_int (z : Z) : result spec_float :=
  match binary_normalize prec emax z 0 false with
  | S754_infinity _ => Raise (PyError OverflowError)
  | f => Ok f
  end.

Definition to_float (n : num) : result spec_float :=
  match n with
  | NInt z => float_of_int z
  | NFloat f => Ok f
  end.

(** [a / b] on two [int]s: the correctly rounded quotient. *)
Definition int_truediv (a b : Z) : result spec_float :=
  if b =? 0 then Raise (PyError ZeroDivisionError)
  else if a =? 0 then Ok (S754_zero (b <? 0))
  else
    let '(q, e, l) := SFdiv_core_binary prec emax (Z.abs a) 0 (Z.abs b) 0 in
    match binary_round_aux prec emax (xorb (a <? 0) (b <? 0)) q e l with
    | S754_infinity _ => Raise (PyError OverflowError)
    | f => Ok f
    end.

(** [m * 2^e] rounded to an integer, ties to even ([m >= 0]). *)
Definition round_half_even (m e : Z) : Z :=
  if 0 <=? e then m * 2 ^ e
  else
    let d := 2 ^ (- e) in
    let q := m / d in
    let r := m mod d in
    match 2 * r ?= d with
    | Lt => q
    | Gt => q + 1
    | Eq => if Z.even q then q else q + 1
    end.

(** [round(f)] on a [float]. *)
Definition round_float (f : spec_float) : result Z :=
  match f with
  | S754_nan => Raise (PyError ValueError)
  | S754_infinity _ => Raise (PyError OverflowError)
  | S754_zero _ => Ok 0
  | S754_finite s m e => Ok (cond_Zopp s (round_half_even (Zpos m) e))
  end.

(** Exact comparison of two floats ([nan] equals nothing, [-0.0 == 0.0]). *)
Definition float_eqb (f g : spec_float) : bool :=
  match f, g with
  | S754_zero _, S754_zero _ => true
  | S754_infinity s, S754_infinity t => Bool.eqb s t
  | S754_finite s m e, S754_finite t n e' =>
      let e0 := Z.min e e' in
      Bool.eqb s t && (Zpos m * 2 ^ (e - e0) =? Zpos n * 2 ^ (e' - e0))
  | _, _ => false
  end.

(** Exact comparison of an [int] with a [float]. *)
Definition int_float_eqb (z : Z) (f : spec_float) : bool :=
  match f with
  | S754_zero _ => z =? 0
  | S754_finite s m e =>
      if 0 <=? e then z =? cond_Zopp s (Zpos m * 2 ^ e)
      else z * 2 ^ (- e) =? cond_Zopp s (Zpos m)
  | _ => false
  end.

Definition eqb (x y : num) : bool :=
  match x, y with
  | NInt a, NInt b => a =? b
  | NInt a, NFloat g => int_float_eqb a g
  | NFloat f, NInt b => int_float_eqb b f
  | NFloat f, NFloat g => float_eqb f g
  end.

End Num.

(** [a + b] *)
Definition py_add (a b : value) : result value :=
  match Num.as_num a, Num.as_num b with
  | Some (Num.NInt x), Some (Num.NInt y) => Ok (VInt (x + y))
  | Some x, Some y =>
      fx ← Num.to_float x; fy ← Num.to_float y;
      Ok (VFloat (SFadd Num.prec Num.emax fx fy))
  | _, _ =>
      match a, b with
      | VStr s, VStr t => Ok (VStr (s +:+ t))
      | VList l, VList m => Ok (VList (l ++ m))
      | _, _ => Raise (PyError TypeError)
      end
  end.

(** [a / b] for an [int] literal [b]. *)
Definition py_truediv (a : value) (b : Z) : result value :=
  match Num.as_num a with
  | Some (Num.NInt x) => f ← Num.int_truediv x b; Ok (VFloat f)
  | Some (Num.NFloat f) =>
      if b =? 0 then Raise (PyError ZeroDivisionError)
      else fb ← Num.float_of_int b; Ok (VFloat (SFdiv Num.prec Num.emax f fb))
  | None => Raise (PyError TypeError)
  end.

(** [round(v)] *)
Definition py_round (v : value) : result value :=
  match v with
  | VBool b => Ok (VInt (Z.b2z b))
  | VInt z => Ok (VInt z)
  | VFloat f => z ← Num.round_float f; Ok (VInt z)
  | _ => Raise (PyError TypeError)
  end.

(** [a == b] *)
Fixpoint py_eq (a b : value) {struct a} : bool :=
  match a, b with
  | VNone, VNone => true
  | VStr s, VStr t => String.eqb s t
  | VList l, VList m =>
      (fix all2 (l m : list value) : bool :=
         match l, m with
         | [], [] => true
         | x :: l', y :: m' => py_eq x y && all2 l' m'
         | _, _ => false
         end) l m
  | VDict d, VDict d' =>
      (length d =? length d')%nat &&
      (fix all_in (d : dict) : bool :=
         match d with
         | [] => true
         | (k, v) :: rest =>
             match dict_get k d' with
             | Some w => py_eq v w
             | None => false
             end && all_in rest
         end) d
  | _, _ =>
      match Num.as_num a, Num.as_num b with
      | Some x, Some y => Num.eqb x y
      | _, _ => false
      end
  end.

(** [int(s)] on a [str], base 10: optional surrounding whitespace, an
    optional sign, digits with single underscores between them. *)
Module IntLiteral.

(** The whitespace [int] skips: TAB..CR and SPACE, and NEL and NBSP, which
    are turned into spaces beforehand. *)
Definition is_space (c : ascii) : bool :=
  let n := N_of_ascii c in
  ((9 <=? n) && (n <=? 13) || (n =? 32) || (n =? 133) || (n =? 160))%N.

Definition digit (c : ascii) : option Z :=
  let n := N_of_ascii c in
  if ((48 <=? n) && (n <=? 57))%N then Some (Z.of_N n - 48) else None.

Fixpoint skip_space (s : string) : string :=
  match s with
  | String c s' => if is_space c then skip_space s' else s
  | EmptyString => EmptyString
  end.

Fixpoint only_space (s : string) : bool :=
  match s with
  | String c s' => is_space c && only_space s'
  | EmptyString => true
  end.

(** After a digit: more digits, one underscore followed by a digit, or
    trailing whitespace up to the end. *)
Fixpoint digits (acc : Z) (s : string) : option Z :=
  match s with
  | EmptyString => Some acc
  | String c s' =>
      match digit c with
      | Some d => digits (10 * acc + d) s'
      | None =>
          if Ascii.eqb c "_"%char then
            match s' with
            | String c' s'' =>
                match digit c' with
                | Some d => digits (10 * acc + d) s''
                | None => None
                end
            | EmptyString => None
            end
          else if only_space s then Some acc else None
      end
  end.

Definition unsigned (s : string) : option Z :=
  match s with
  | String c s' =>
      match digit c with
      | Some d => digits d s'
      | None => None
      end
  | EmptyString => None
  end.

Definition parse (s : string) : option Z :=
  match skip_space s with
  | String c s' =>
      if Ascii.eqb c "+"%char then unsigned s'
      else if Ascii.eqb c "-"%char then Z.opp <$> unsigned s'
      else unsigned (String c s')
  | EmptyString => None
  end.

(** The digits of a literal: what the interpreter counts against its
    limit (signs, underscores and whitespace do not count, leading zeros
    do). *)
Fixpoint count_digits (s : string) : Z :=
  match s with
  | String c s' =>
      match digit c with
      | Some _ => 1 + count_digits s'
      | None => count_digits s'
      end
  | EmptyString => 0
  end.

End IntLiteral.

(** The interpreter refuses to convert between [str] and [int] when more
    than [max_str_digits] digits are involved
    ([sys.get_int_max_str_digits()]: 4300 unless configured, 0 for no limit,
    as in interpreters older than the limit); conversions of at most 640
    digits are never refused. *)
Definition exceeds_limit (max_str_digits digits : Z) : bool :=
  (640 <? digits) && (0 <? max_str_digits) && (max_str_digits <? digits).

Definition py_int (max_str_digits : Z) (s : string) : result Z :=
  match IntLiteral.parse s with
  | Some z =>
      if exceeds_limit max_str_digits (IntLiteral.count_digits s)
      then Raise (PyError ValueError)
      else Ok z
  | None => Raise (PyError ValueError)
  end.

(** The decimal text of an [int]. *)
Definition decimal (z : Z) : string := NilZero.string_of_int (Z.to_int z).

(** [str(z)] for an [int], also as an f-string writes it. *)
Definition py_str_int (max_str_digits : Z) (z : Z) : result string :=
  if exceeds_limit max_str_digits (IntLiteral.count_digits (decimal z))
  then Raise (PyError ValueError)
  else Ok (decimal z).

(** ** A backtracking matcher for the regular expressions [app.py] uses

    Alternatives are tried in the order of Python's [re]: a greedy star takes
    as many characters as it can and gives them back one at a time, a lazy
    star takes as few as it can and asks for one more at a time. *)

Module Re.

Inductive regex :=
| Eps
| Chr (cls : ascii -> bool)
| Star (cls : ascii -> bool)        (* cls*  *)
| LazyStar (cls : ascii -> bool)    (* cls*? *)
| Group (r : regex)                 (* ( r ), group 1 *)
| Seq (r1 r2 : regex).

Fixpoint take (n : nat) (s : string) : string :=
  match n, s with
  | S n', String c s' => String c (take n' s')
  | _, _ => EmptyString
  end.

(** [cls*] before the continuation [k]: as many characters as possible, then
    one fewer, and so on. *)
Fixpoint greedy_star {A} (cls : ascii -> bool) (k : string -> option A)
    (s : string) : option A :=
  match s with
  | String c s' =>
      if cls c then
        match greedy_star cls k s' with
        | Some a => Some a
        | None => k s
        end
      else k s
  | EmptyString => k s
  end.

(** [cls*?] before the continuation [k]: no character, then one, and so on. *)
Fixpoint lazy_star {A} (cls : ascii -> bool) (k : string -> option A)
    (s : string) : option A :=
  match k s with
  | Some a => Some a
  | None =>
      match s with
      | String c s' => if cls c then lazy_star cls k s' else None
      | EmptyString => None
      end
  end.

(** [matches r s cap k]: match [r] at the start of [s]; [k] receives what
    is left of [s] and the text of group 1. *)
Fixpoint matches {A} (r : regex) (s : string) (cap : option string)
    (k : string -> option string -> option A) : option A :=
  match r with
  | Eps => k s cap
  | Chr cls =>
      match s with
      | String c s' => if cls c then k s' cap else None
      | EmptyString => None
      end
  | Star cls => greedy_star cls (fun rest => k rest cap) s
  | LazyStar cls => lazy_star cls (fun rest => k rest cap) s
  | Group r1 =>
      matches r1 s cap
        (fun rest _ =>
           k rest (Some (take (String.length s - String.length rest) s)))
  | Seq r1 r2 =>
      matches r1 s cap (fun rest cap' => matches r2 rest cap' k)
  end.

(** [re.search(r, s)]: the first position where [r] matches; the result is
    the text of group 1 ([None] inside: the group took no part). *)
Fixpoint search (r : regex) (s : string) : option (option string) :=
  match matches r s None (fun _ cap => Some cap) with
  | Some cap => Some cap
  | None =>
      match s with
      | String _ s' => search r s'
      | EmptyString => None
      end
  end.

Definition any (_ : ascii) : bool := true.            (* [.] with DOTALL *)
Definition lit (c : ascii) (x : ascii) : bool := Ascii.eqb x c.

(** A letter under IGNORECASE. *)
Definition lit_ci (c : ascii) (x : ascii) : bool :=
  Ascii.eqb (Str.lower_char x) (Str.lower_char c).

Fixpoint literal (cls : ascii -> ascii -> bool) (s : string) (r : regex)
    : regex :=
  match s with
  | String c s' => Seq (Chr (cls c)) (literal cls s' r)
  | EmptyString => r
  end.

End Re.

Definition fence_open : string := "```json".
Definition fence_close : string := "```".

(** [r"```json\s*(.*?)\s*```"] under [re.DOTALL | re.IGNORECASE], from its
    end: the closing [\s*```], the group before it, the [\s*] before the
    group, and the opening label. *)
Definition close_re : Re.regex :=
  Re.Seq (Re.Star Str.isspace) (Re.literal Re.lit fence_close Re.Eps).

Definition body_re : Re.regex :=
  Re.Seq (Re.Group (Re.LazyStar Re.any)) close_re.

Definition tail_re : Re.regex := Re.Seq (Re.Star Str.isspace) body_re.

Definition fence_re : Re.regex := Re.literal Re.lit_ci fence_open tail_re.

(** Lines 153-159.  [None] is Python's [None]. *)
Definition extract_json_from_gemini_response (text : string) : option string :=
  if negb (Str.nonempty text) then None
  else
    match Re.search fence_re text with
    | Some (Some g) => Some (Str.strip g)
    | Some None => None
    | None => Some (Str.strip text)
    end.

(** ** The text extractor *)

(** What [page.extract_text()] does for one page. *)
Inductive page_outcome :=
| PageRaises
| PageText (t : option string).

(** What [PdfReader] makes of the uploaded bytes. *)
Inductive pdf_reading :=
| PdfOpenRaises
| PdfPages (pages : list page_outcome).

(** What [python-docx] makes of the uploaded bytes: the paragraph texts. *)
Inductive docx_reading :=
| DocxRaises
| DocxParagraphs (paras : list string).

Record upload := {
  filename : option string;
  as_pdf : pdf_reading;
  as_docx : docx_reading
}.

(** The [for page in reader.pages] loop: an exception leaves the loop with
    the text gathered so far. *)
Fixpoint pdf_pages_loop (pages : list page_outcome) (text : string) : string :=
  match pages with
  | [] => text
  | PageRaises :: _ => text
  | PageText t :: rest =>
      pdf_pages_loop rest (text +:+ match t with Some x => x | None => EmptyString end)
  end.

(** Lines 89-97. *)
Definition extract_text_from_pdf (file_obj : pdf_reading) : string :=
  Str.strip
    match file_obj with
    | PdfOpenRaises => EmptyString
    | PdfPages pages => pdf_pages_loop pages EmptyString
    end.

Definition newline : string := String (ascii_of_nat 10) EmptyString.

(** Lines 99-111. *)
Definition extract_text_from_docx (DOCX_AVAILABLE : bool)
    (file_obj : docx_reading) : string :=
  if negb DOCX_AVAILABLE then EmptyString
  else
    match file_obj with
    | DocxRaises => EmptyString
    | DocxParagraphs paras =>
        Str.strip
          (Str.join newline
             (List.filter (fun p => Str.nonempty p && Str.nonempty (Str.strip p))
                paras))
    end.

Definition unsupported_file_type : string :=
  "Unsupported file type. Please upload a PDF or DOCX.".

(** Lines 113-119. *)
Definition extract_text_smart (DOCX_AVAILABLE : bool) (uploaded_file : upload)
    : result string :=
  let filename :=
    Str.lower (match filename uploaded_file with
               | Some f => f
               | None => EmptyString
               end) in
  if Str.endswith filename ".pdf" then
    Ok (extract_text_from_pdf (as_pdf uploaded_file))
  else if Str.endswith filename ".docx" then
    Ok (extract_text_from_docx DOCX_AVAILABLE (as_docx uploaded_file))
  else Raise (AppValueError unsupported_file_type).

(** ** The Gemini client *)

(** What one call [model.generate_content(...)] does, as far as the client
    can see: it raises (also when reading [resp.text] raises), it returns a
    falsy response, or it returns a response whose [text] attribute is
    absent/[None] or a string. *)
Inductive gen_outcome :=
| GenRaises
| GenFalsy
| GenResp (text : option string).

(** The three ways the body of the [try] in the retry loop ends. *)
Inductive attempt_result :=
| AttemptReturn (text : string)
| AttemptEmpty
| AttemptExcept.

Section AIClient.

(** [json.loads]: [None] when it raises. *)
Variable json_loads : string -> option value.

(** Lines 133-143: the call, the truthiness test and [json.loads]. *)
Definition attempt_body (o : gen_outcome) : attempt_result :=
  match o with
  | GenRaises => AttemptExcept
  | GenFalsy => AttemptEmpty
  | GenResp None => AttemptEmpty
  | GenResp (Some t) =>
      if Str.nonempty t then
        match json_loads t with
        | Some _ => AttemptReturn t
        | None => AttemptExcept
        end
      else AttemptEmpty
  end.

Section Loop.

(** [model k] is the outcome of the k-th call (from 0) made to the model
    during this invocation. *)
Variable model : nat -> gen_outcome.
Variable retries : Z.

(** The [while attempt < retries] loop.  The second component counts the
    calls made to the model. *)
Equations? gemini_loop (attempt : Z) (calls : nat) : option string * nat
  by wf (Z.to_nat (retries - attempt)) lt :=
  gemini_loop attempt calls with inspect (attempt <? retries) => {
    | exist _ true Hlt =>
        match attempt_body (model calls) with
        | AttemptReturn t => (Some t, S calls)
        | AttemptEmpty => gemini_loop (attempt + 1) (S calls)
        | AttemptExcept =>
            if attempt + 1 >=? retries then (None, S calls)
            else gemini_loop (attempt + 1) (S calls)
        end;
    | exist _ false Hge => (None, calls) }.
Proof. all: apply Z.ltb_lt in Hlt; lia. Qed.

Definition generate_content_with_gemini : option string * nat :=
  gemini_loop 0 0%nat.

End Loop.

(** An attempt succeeds with [t]: a non-empty text that [json.loads]
    accepts. *)
Definition attempt_succeeds (o : gen_outcome) (t : string) : Prop :=
  o = GenResp (Some t) /\ t <> EmptyString /\ json_loads t <> None.

End AIClient.

(** ** The session store and the request handlers *)

(** Of the conversions to text that the handlers make, those whose failure
    is followed are the two serialisers ([jsonify] and [json.dumps]) and the
    two integers of line 324, which are computed from a sum without bound.
    A value written into a prompt by an f-string is taken to be written
    without an exception: its integers were read by [json.loads] or made by
    [round], and such integers the interpreter writes. *)

(** A response of the application, or the exception that escaped the
    handler. *)
Inductive response :=
| Response (status : Z) (body : value)
| Unhandled (e : exn).

(** What a request leaves behind: the response, the session store and the
    number of calls made to the model. *)
Record outcome := {
  reply : response;
  store : gmap string dict;
  ai_calls : nat
}.

(** What the handler takes from the outside world during one request.
    Serialising can raise on the data it is given (a [RecursionError] on
    data nested too deeply): [jsonify_raises] and [dumps_raises] say on which
    data [jsonify] and [json.dumps(..., indent=2)] do, and with what. *)
Record env := {
  uuid4 : string;                (* [str(uuid.uuid4())] *)
  now : string;                  (* [datetime.now().isoformat()] *)
  ai : nat -> gen_outcome;       (* the k-th call to the model *)
  jsonify_raises : value -> option exn_kind;
  dumps_raises : value -> option exn_kind;
  max_str_digits : Z             (* [sys.get_int_max_str_digits()] *)
}.

(** Lines 65-71: the record of a new session. *)
Definition new_session : dict :=
  [ ("candidate_profile", VNone);
    ("interview_questions", VList []);
    ("interview_responses", VList []);
    ("interview_start_time", VNone);
    ("interview_end_time", VNone) ].

(** Lines 63-72: the record for [session_id] and the store afterwards. *)
Definition get_or_create_session (sessions : gmap string dict)
    (session_id : string) : dict * gmap string dict :=
  match sessions !! session_id with
  | Some session => (session, sessions)
  | None => (new_session, <[session_id := new_session]> sessions)
  end.

(** [jsonify(fields)]: the body of the response, unless serialising
    raises. *)
Definition jsonify (e : env) (fields : dict) : result value :=
  match jsonify_raises e (VDict fields) with
  | Some k => Raise (PyError k)
  | None => Ok (VDict fields)
  end.

(** [json.dumps(v, indent=2)], for what it can raise. *)
Definition json_dumps (e : env) (v : value) : result unit :=
  match dumps_raises e v with
  | Some k => Raise (PyError k)
  | None => Ok tt
  end.

(** [jsonify({"error": msg}), status]: an object of one text, which is
    always serialised. *)
Definition error_reply (status : Z) (msg : string) : response :=
  Response status (VDict [("error", VStr msg)]).

(** [request.get_json(silent=True) or {}] *)
Definition json_body (body : option value) : value :=
  match body with
  | Some v => if py_truthy v then v else VDict []
  | None => VDict []
  end.

(** The guard [not session_id or session_id not in sessions]. *)
Definition lookup_session (sessions : gmap string dict)
    (header : option string) : option (string * dict) :=
  match header with
  | Some session_id =>
      if Str.nonempty session_id then
        match sessions !! session_id with
        | Some session => Some (session_id, session)
        | None => None
        end
      else None
  | None => None
  end.

Definition invalid_session : response :=
  error_reply 400 "Invalid or missing session ID".

(** Lines 210-214: [key_skills] made a list. *)
Definition normalize_key_skills (profile : value) : result value :=
  ks ← py_get profile "key_skills" VNone;
  match ks with
  | VStr s =>
      py_setitem profile "key_skills"
        (VList (map (fun p => VStr (Str.strip p))
                  (List.filter (fun p => Str.nonempty (Str.strip p))
                     (Str.split "," s))))
  | VList _ => Ok profile
  | _ => py_setitem profile "key_skills" (VList [])
  end.

(** The first question whose [id] equals [question_id]
    ([next((q for q in ... if q.get("id") == question_id), None)]). *)
Fixpoint find_question (items : list value) (question_id : value)
    : result (option value) :=
  match items with
  | [] => Ok None
  | q :: rest =>
      qid ← py_get q "id" VNone;
      if py_eq qid question_id then Ok (Some q)
      else find_question rest question_id
  end.

(** Lines 286-287. *)
Definition overall_score (evaluation : value) : result value :=
  t ← py_get evaluation "technicalScore" (VInt 0);
  c ← py_get evaluation "communicationScore" (VInt 0);
  tc ← py_add t c;
  r ← py_get evaluation "relevanceScore" (VInt 0);
  total ← py_add tc r;
  overall_q_score ← py_truediv total 3;
  py_round overall_q_score.

(** Lines 312-316: the subscripts the summary line of one response reads. *)
Definition summary_entry (r : value) : result unit :=
  _ ← py_getitem r "question";
  _ ← py_getitem r "response";
  ev ← py_getitem r "evaluation";
  _ ← py_getitem ev "technicalScore";
  ev ← py_getitem r "evaluation";
  _ ← py_getitem ev "communicationScore";
  ev ← py_getitem r "evaluation";
  _ ← py_getitem ev "relevanceScore";
  ev ← py_getitem r "evaluation";
  _ ← py_getitem ev "feedback";
  Ok tt.

(** Lines 318-319: the body of the inner [try]. *)
Definition duration_seconds (max_str_digits : Z) (r : value) : result Z :=
  d ← py_get r "duration" VNone;
  match (if py_truthy d then d else VStr "0:0") with
  | VStr s =>
      match Str.split ":" s with
      | [mm; ss] =>
          mm ← py_int max_str_digits mm; ss ← py_int max_str_digits ss;
          Ok (mm * 60 + ss)
      | _ => Raise (PyError ValueError)
      end
  | _ => Raise (PyError AttributeError)
  end.

(** Lines 311-320: the loop over the responses; an exception of the inner
    [try] is swallowed, any other escapes. *)
Fixpoint sum_durations (max_str_digits : Z) (items : list value)
    (total_duration_seconds : Z) : result Z :=
  match items with
  | [] => Ok total_duration_seconds
  | r :: rest =>
      _ ← summary_entry r;
      sum_durations max_str_digits rest
        match duration_seconds max_str_digits r with
        | Ok secs => total_duration_seconds + secs
        | Raise _ => total_duration_seconds
        end
  end.

(** Lines 322-324. *)
Definition format_duration (max_str_digits : Z) (total_duration_seconds : Z)
    : result string :=
  total_minutes ← py_str_int max_str_digits (total_duration_seconds / 60);
  total_seconds ← py_str_int max_str_digits (total_duration_seconds mod 60);
  Ok (total_minutes +:+ "m " +:+ total_seconds +:+ "s").

Section App.

(** [json.loads]: [None] when it raises. *)
Variable json_loads : string -> option value.
(** [str(e)] for an exception the interpreter or a library raised. *)
Variable py_error_text : exn_kind -> string.
(** Whether [import docx] worked, and whether the four models loaded. *)
Variable DOCX_AVAILABLE : bool.
Variable models_loaded : bool.

Definition str_exn (e : exn) : string :=
  match e with
  | AppValueError msg => msg
  | PyError k => py_error_text k
  end.

Definition is_value_error (e : exn) : bool :=
  match e with
  | AppValueError _ => true
  | PyError ValueError | PyError JSONDecodeError => true
  | PyError _ => false
  end.

Definition unexpected_error (e : exn) : response :=
  error_reply 500 ("An unexpected error occurred: " +:+ str_exn e).

(** [return jsonify(fields), 200] as the last statement of a [try] whose
    [except Exception] answers 500: [sessions] is the store as the handler
    has left it by then, kept also when [jsonify] raises. *)
Definition reply_200 (e : env) (fields : dict) (sessions : gmap string dict)
    (calls : nat) : outcome :=
  match jsonify e fields with
  | Ok body => Build_outcome (Response 200 body) sessions calls
  | Raise ex => Build_outcome (unexpected_error ex) sessions calls
  end.

(** [generate_content_with_gemini(<model>, prompt)] as a handler calls it:
    naming a model that failed to load raises before any call. *)
Definition call_gemini (e : env) : result (option string) * nat :=
  if models_loaded then
    let '(ai_text, calls) := generate_content_with_gemini json_loads (ai e) 3 in
    (Ok ai_text, calls)
  else (Raise (PyError NameError), 0%nat).

(** [json.loads(extract_json_from_gemini_response(ai_text))] *)
Definition parse_ai_json (ai_text : string) : result value :=
  match extract_json_from_gemini_response ai_text with
  | None => Raise (PyError TypeError)
  | Some cleaned =>
      match json_loads cleaned with
      | Some v => Ok v
      | None => Raise (PyError JSONDecodeError)
      end
  end.

Definition ai_text_missing (ai_text : option string) : bool :=
  match ai_text with
  | Some t => negb (Str.nonempty t)
  | None => true
  end.

(** Lines 206-214. *)
Definition parse_profile (ai_text : string) : result value :=
  match extract_json_from_gemini_response ai_text with
  | Some cleaned =>
      if Str.nonempty cleaned then
        match json_loads cleaned with
        | Some profile => normalize_key_skills profile
        | None => Raise (PyError JSONDecodeError)
        end
      else Raise (AppValueError
             "Failed to extract JSON from Gemini response for resume analysis.")
  | None => Raise (AppValueError
             "Failed to extract JSON from Gemini response for resume analysis.")
  end.

(** Lines 168-219. *)
Definition upload_resume (sessions : gmap string dict)
    (header : option string) (resume : option upload) (e : env) : outcome :=
  let session_id := match header with Some h => h | None => uuid4 e end in
  let '(session, sessions) := get_or_create_session sessions session_id in
  match resume with
  | None => Build_outcome (error_reply 400 "No resume file provided") sessions 0
  | Some file =>
      if negb (match filename file with
               | Some f => Str.nonempty f
               | None => false
               end)
      then Build_outcome (error_reply 400 "No selected file") sessions 0
      else
        match extract_text_smart DOCX_AVAILABLE file with
        | Raise ex =>
            if is_value_error ex
            then Build_outcome (error_reply 400 (str_exn ex)) sessions 0
            else Build_outcome
                   (error_reply 400 "Failed to read the file. Try a PDF or DOCX.")
                   sessions 0
        | Ok resume_content =>
            if negb (Str.nonempty resume_content) then
              Build_outcome
                (error_reply 400
                   "Could not extract text. Ensure the PDF/DOCX contains selectable text.")
                sessions 0
            else
              match call_gemini e with
              | (Raise ex, calls) =>
                  Build_outcome (unexpected_error ex) sessions calls
              | (Ok ai_text, calls) =>
                  match ai_text with
                  | Some t =>
                      if negb (Str.nonempty t) then
                        Build_outcome
                          (error_reply 500
                             "AI failed to parse resume or returned empty response.")
                          sessions calls
                      else
                        match parse_profile t with
                        | Raise ex =>
                            Build_outcome (unexpected_error ex) sessions calls
                        | Ok profile =>
                            reply_200 e
                              [("message", VStr "Resume processed successfully");
                               ("candidate_profile", profile);
                               ("session_id", VStr session_id)]
                              (<[session_id :=
                                   dict_set "candidate_profile" profile session]>
                                 sessions)
                              calls
                        end
                  | None =>
                      Build_outcome
                        (error_reply 500
                           "AI failed to parse resume or returned empty response.")
                        sessions calls
                  end
              end
        end
  end.

(** Lines 246-257: the [try] of [setup_interview]. *)
Definition setup_interview_try (sessions : gmap string dict)
    (session_id : string) (session : dict) (e : env) : outcome :=
  match call_gemini e with
  | (Raise ex, calls) => Build_outcome (unexpected_error ex) sessions calls
  | (Ok ai_text, calls) =>
      match ai_text with
      | Some t =>
          if negb (Str.nonempty t) then
            Build_outcome (error_reply 500 "AI failed to generate questions.")
              sessions calls
          else
            match parse_ai_json t with
            | Raise ex => Build_outcome (unexpected_error ex) sessions calls
            | Ok questions =>
                reply_200 e
                  [("message", VStr "Interview questions generated");
                   ("questions", questions)]
                  (<[session_id :=
                       dict_set "interview_start_time" (VStr (now e))
                         (dict_set "interview_responses" (VList [])
                            (dict_set "interview_questions" questions session))]>
                     sessions)
                  calls
            end
      | None =>
          Build_outcome (error_reply 500 "AI failed to generate questions.")
            sessions calls
      end
  end.

(** Lines 221-257. *)
Definition setup_interview (sessions : gmap string dict)
    (header : option string) (body : option value) (e : env) : outcome :=
  match lookup_session sessions header with
  | None => Build_outcome invalid_session sessions 0
  | Some (session_id, session) =>
      match py_get (json_body body) "position_role" VNone with
      | Raise ex => Build_outcome (Unhandled ex) sessions 0
      | Ok position_role =>
          let candidate_profile :=
            match dict_get "candidate_profile" session with
            | Some p => p
            | None => VNone
            end in
          if negb (py_truthy position_role) || negb (py_truthy candidate_profile)
          then Build_outcome
                 (error_reply 400 "Position role and candidate profile are required")
                 sessions 0
          else
            match py_setitem candidate_profile "position" position_role with
            | Raise ex => Build_outcome (Unhandled ex) sessions 0
            | Ok candidate_profile =>
                let session :=
                  dict_set "candidate_profile" candidate_profile session in
                let sessions := <[session_id := session]> sessions in
                match
                  (ks ← py_get candidate_profile "key_skills" (VList []);
                   py_join ", " ks)
                with
                | Raise ex => Build_outcome (Unhandled ex) sessions 0
                | Ok skills => setup_interview_try sessions session_id session e
                end
            end
      end
  end.

(** Lines 285-293: after the model answered. *)
Definition record_answer (session : dict) (question_id question_obj
    response_text data : value) (ai_text : string) : result (value * dict) :=
  evaluation ← parse_ai_json ai_text;
  score ← overall_score evaluation;
  evaluation ← py_setitem evaluation "score" score;
  responses ← py_getitem (VDict session) "interview_responses";
  l ← match responses with
      | VList l => Ok l
      | _ => Raise (PyError AttributeError)
      end;
  question ← py_get question_obj "question" VNone;
  tags ← py_get question_obj "tags" (VList []);
  duration ← py_get data "duration" VNone;
  Ok (evaluation,
      dict_set "interview_responses"
        (VList (l ++ [VDict [("question_id", question_id);
                             ("question", question);
                             ("tags", tags);
                             ("response", response_text);
                             ("duration", duration);
                             ("evaluation", evaluation)]]))
        session).

(** Lines 281-296: the [try] of [submit_answer]. *)
Definition submit_answer_try (sessions : gmap string dict)
    (session_id : string) (session : dict) (question_id question_obj
    response_text data : value) (e : env) : outcome :=
  match call_gemini e with
  | (Raise ex, calls) => Build_outcome (unexpected_error ex) sessions calls
  | (Ok ai_text, calls) =>
      match ai_text with
      | Some t =>
          if negb (Str.nonempty t) then
            Build_outcome (error_reply 500 "AI failed to evaluate response.")
              sessions calls
          else
            match record_answer session question_id question_obj
                    response_text data t with
            | Raise ex => Build_outcome (unexpected_error ex) sessions calls
            | Ok (evaluation, session) =>
                reply_200 e
                  [("message", VStr "Answer evaluated");
                   ("evaluation", evaluation)]
                  (<[session_id := session]> sessions)
                  calls
            end
      | None =>
          Build_outcome (error_reply 500 "AI failed to evaluate response.")
            sessions calls
      end
  end.

(** Lines 266-272: the fields of the request and the question they name;
    [Ok None] stands for the 400 of line 269. *)
Definition answer_fields (data : value)
    : result (option (value * value)) :=
  question_id ← py_get data "question_id" VNone;
  response_text ← py_get data "response_text" VNone;
  if negb (py_truthy question_id) || negb (py_truthy response_text)
  then Ok None
  else Ok (Some (question_id, response_text)).

Definition lookup_question (session : dict) (question_id : value)
    : result (option value) :=
  questions ← py_getitem (VDict session) "interview_questions";
  items ← py_iter questions;
  find_question items question_id.

(** Lines 259-296. *)
Definition submit_answer (sessions : gmap string dict)
    (header : option string) (body : option value) (e : env) : outcome :=
  match lookup_session sessions header with
  | None => Build_outcome invalid_session sessions 0
  | Some (session_id, session) =>
      let data := json_body body in
      match answer_fields data with
      | Raise ex => Build_outcome (Unhandled ex) sessions 0
      | Ok None =>
          Build_outcome
            (error_reply 400 "Question ID and response text are required")
            sessions 0
      | Ok (Some (question_id, response_text)) =>
          match lookup_question session question_id with
          | Raise ex => Build_outcome (Unhandled ex) sessions 0
          | Ok question_obj =>
              match question_obj with
              | Some q =>
                  if py_truthy q then
                    submit_answer_try sessions session_id session question_id
                      q response_text data e
                  else Build_outcome (error_reply 404 "Question not found")
                         sessions 0
              | None =>
                  Build_outcome (error_reply 404 "Question not found") sessions 0
              end
          end
      end
  end.

(** Lines 343-355: the [try] of [get_assessment]. *)
Definition get_assessment_try (sessions : gmap string dict)
    (session_id : string) (session : dict) (interview_duration_str : string)
    (e : env) : outcome :=
  match call_gemini e with
  | (Raise ex, calls) => Build_outcome (unexpected_error ex) sessions calls
  | (Ok ai_text, calls) =>
      match ai_text with
      | Some t =>
          if negb (Str.nonempty t) then
            Build_outcome (error_reply 500 "AI failed to generate assessment.")
              sessions calls
          else
            match
              (assessment ← parse_ai_json t;
               py_setitem assessment "interviewDuration"
                 (VStr interview_duration_str))
            with
            | Raise ex => Build_outcome (unexpected_error ex) sessions calls
            | Ok assessment =>
                reply_200 e
                  [("message", VStr "Assessment generated");
                   ("assessment", assessment)]
                  (<[session_id :=
                       dict_set "interview_assessment" assessment session]>
                     sessions)
                  calls
            end
      | None =>
          Build_outcome (error_reply 500 "AI failed to generate assessment.")
            sessions calls
      end
  end.

(** Lines 298-355. *)
Definition get_assessment (sessions : gmap string dict)
    (header : option string) (e : env) : outcome :=
  match lookup_session sessions header with
  | None => Build_outcome invalid_session sessions 0
  | Some (session_id, session) =>
      match py_getitem (VDict session) "interview_responses" with
      | Raise ex => Build_outcome (Unhandled ex) sessions 0
      | Ok responses =>
          if negb (py_truthy responses) then
            Build_outcome (error_reply 400 "No interview responses to assess")
              sessions 0
          else
            let session := dict_set "interview_end_time" (VStr (now e)) session in
            let sessions := <[session_id := session]> sessions in
            match
              (items ← py_iter responses;
               total_duration_seconds ←
                 sum_durations (max_str_digits e) items 0;
               interview_duration_str ←
                 format_duration (max_str_digits e) total_duration_seconds;
               candidate_profile ← py_getitem (VDict session) "candidate_profile";
               _ ← json_dumps e candidate_profile;
               Ok interview_duration_str)
            with
            | Raise ex => Build_outcome (Unhandled ex) sessions 0
            | Ok interview_duration_str =>
                get_assessment_try sessions session_id session
                  interview_duration_str e
            end
      end
  end.

End App.

(** ** The routes *)

(** The four routes that take a request (lines 168, 221, 259 and 298), each
    with what Flask hands its handler. *)
Inductive request :=
| UploadResume (header : option string) (resume : option upload)
| SetupInterview (header : option string) (body : option value)
| SubmitAnswer (header : option string) (body : option value)
| GetAssessment (header : option string).

Section Routes.

Variable json_loads : string -> option value.
Variable py_error_text : exn_kind -> string.
Variable DOCX_AVAILABLE : bool.
Variable models_loaded : bool.

Definition handle (sessions : gmap string dict) (req : request) (e : env)
    : outcome :=
  match req with
  | UploadResume header resume =>
      upload_resume json_loads py_error_text DOCX_AVAILABLE models_loaded
        sessions header resume e
  | SetupInterview header body =>
      setup_interview json_loads py_error_text models_loaded sessions header
        body e
  | SubmitAnswer header body =>
      submit_answer json_loads py_error_text models_loaded sessions header
        body e
  | GetAssessment header =>
      get_assessment json_loads py_error_text models_loaded sessions header e
  end.

(** The store after a sequence of requests handled one after the other, each
    with what it takes from the outside world. *)
Fixpoint serve (sessions : gmap string dict) (reqs : list (request * env))
    : gmap string dict :=
  match reqs with
  | [] => sessions
  | (req, e) :: rest => serve (store (handle sessions req e)) rest
  end.

End Routes.

(** ** The API key *)

Definition no_api_key : string :=
  "No Gemini API key found. Set GOOGLE_API_KEY or GEMINI_API_KEY in your environment or .env file.".

(** Lines 41-50: the key the application starts with, from the two
    environment variables ([None]: not set). *)
Definition api_key (gemini_api_key google_api_key : option string)
    : result string :=
  let API_KEY :=
    match gemini_api_key with
    | Some k => if Str.nonempty k then Some k else google_api_key
    | None => google_api_key
    end in
  match API_KEY with
  | Some k =>
      if negb (Str.nonempty k) || String.eqb (Str.strip k) EmptyString
      then Raise (AppValueError no_api_key)
      else Ok k
  | None => Raise (AppValueError no_api_key)
  end.

(** ** Notions the properties are stated with *)

(** What is left of [s] after a word that matches [p] letter by letter. *)
Fixpoint strip_prefix (cls : ascii -> ascii -> bool) (p s : string) : option string :=
  match p with
  | EmptyString => Some s
  | String a p' =>
      match s with
      | String c s' => if cls a c then strip_prefix cls p' s' else None
      | EmptyString => None
      end
  end.

(** [w] matches [p] letter by letter. *)
Definition word_match (cls : ascii -> ascii -> bool) (p w : string) : bool :=
  match strip_prefix cls p w with
  | Some EmptyString => true
  | _ => false
  end.

(** The first place in [s] where a word matching [p] starts: the text
    before it and the text after it. *)
Fixpoint find_first (cls : ascii -> ascii -> bool) (p s : string) : option (string * string) :=
  match strip_prefix cls p s with
  | Some rest => Some (EmptyString, rest)
  | None =>
      match s with
      | String c s' =>
          match find_first cls p s' with
          | Some (pre, rest) => Some (String c pre, rest)
          | None => None
          end
      | EmptyString => None
      end
  end.

(** The text between the first opening label and the first closing fence
    after it. *)
Definition fenced_content (text : string) : option string :=
  match find_first Re.lit_ci fence_open text with
  | Some (_, rest) =>
      match find_first Re.lit fence_close rest with
      | Some (body, _) => Some body
      | None => None
      end
  | None => None
  end.

(** [s] is whitespace followed by the closing fence. *)
Definition closes (s : string) : bool :=
  match strip_prefix Re.lit fence_close (Str.lstrip s) with
  | Some _ => true
  | None => false
  end.

(** The shortest prefix of [s] after which [s] closes. *)
Fixpoint capture (s : string) : option string :=
  if closes s then Some EmptyString
  else match s with
       | String c s' => String c <$> capture s'
       | EmptyString => None
       end.

(** The first opening label and the first closing fence after it. *)
Definition first_fence (text pre label body post : string) : Prop :=
  text = pre +:+ label +:+ body +:+ fence_close +:+ post
  /\ Str.lower label = fence_open
  /\ (forall pre' label' rest',
        text = pre' +:+ label' +:+ rest' -> Str.lower label' = fence_open ->
        (String.length pre <= String.length pre')%nat)
  /\ (forall body' post',
        body +:+ fence_close +:+ post = body' +:+ fence_close +:+ post' ->
        (String.length body <= String.length body')%nat).

(** The text a page contributes: nothing when it yields [None]. *)
Definition page_text (p : page_outcome) : string :=
  match p with
  | PageText (Some t) => t
  | _ => EmptyString
  end.

(** The pages read before the first one whose extraction raises. *)
Fixpoint pages_before_failure (pages : list page_outcome) : list page_outcome :=
  match pages with
  | PageText t :: rest => PageText t :: pages_before_failure rest
  | _ => []
  end.

(** Reading the document fails somewhere. *)
Definition pdf_fails (r : pdf_reading) : Prop :=
  match r with
  | PdfOpenRaises => True
  | PdfPages pages => In PageRaises pages
  end.




(** The comma-separated items of [s], trimmed, the empty ones dropped. *)
Definition comma_items (s : string) : list string :=
  map Str.strip (List.filter (fun p => Str.nonempty (Str.strip p)) (Str.split "," s)).

(** No whitespace at either end. *)
Definition trimmed (s : string) : Prop :=
  Str.lstrip s = s /\ Str.rstrip s = s.

(** Whitespace by code point: TAB to CR, FS to US, SPACE, NEL and NBSP. *)
Definition whitespace_codes : list N :=
  [9; 10; 11; 12; 13; 28; 29; 30; 31; 32; 133; 160]%N.

Definition is_whitespace (c : ascii) : bool :=
  existsb (N.eqb (N_of_ascii c)) whitespace_codes.

(** Nothing but whitespace. *)
Fixpoint blank (s : string) : bool :=
  match s with
  | String c s' => is_whitespace c && blank s'
  | EmptyString => true
  end.

Fixpoint last_char (s : string) (c : ascii) : ascii :=
  match s with
  | String c' s' => last_char s' c'
  | EmptyString => c
  end.

(** Neither the first nor the last character is whitespace. *)
Definition bare (x : string) : bool :=
  match x with
  | String c x' =>
      negb (is_whitespace c) && negb (is_whitespace (last_char x' c))
  | EmptyString => true
  end.

(** [x] is [p] without the whitespace at its two ends. *)
Definition trim_of (p x : string) : Prop :=
  exists l r,
    p = l +:+ x +:+ r /\ blank l = true /\ blank r = true /\ bare x = true.

(** [items] are the pieces trimmed, in their order, a piece of nothing but
    whitespace left out. *)
Inductive skills_of : list string -> list string -> Prop :=
| skills_nil : skills_of [] []
| skills_skip p pieces items :
    blank p = true -> skills_of pieces items -> skills_of (p :: pieces) items
| skills_keep p x pieces items :
    x <> EmptyString -> trim_of p x -> skills_of pieces items ->
    skills_of (p :: pieces) (x :: items).

Fixpoint has_char (c : ascii) (s : string) : bool :=
  match s with
  | String x s' => Ascii.eqb x c || has_char c s'
  | EmptyString => false
  end.

(** [k] is an integer nearest to the float [f = (-1)^s * m * 2^e]:
    [|k - f| <= 1/2]. *)
Definition nearest_integer (f : spec_float) (k : Z) : Prop :=
  match f with
  | S754_zero _ => k = 0
  | S754_finite s m e =>
      if 0 <=? e then k = cond_Zopp s (Zpos m) * 2 ^ e
      else 2 * Z.abs (k * 2 ^ (- e) - cond_Zopp s (Zpos m)) <= 2 ^ (- e)
  | _ => False
  end.

(** [evaluation.get(key, 0)] *)
Definition sub_score (evaluation : dict) (key : string) : value :=
  match dict_get key evaluation with
  | Some v => v
  | None => VInt 0
  end.

(** The unweighted mean of three sub-scores, as Python computes
    [(t + c + r) / 3]. *)
Definition mean_of_three (t c r : value) : result value :=
  tc ← py_add t c; total ← py_add tc r; py_truediv total 3.

(** The record [submit_answer] appends. *)
Definition response_record (question_id question tags response_text duration
    evaluation : value) : value :=
  VDict [("question_id", question_id); ("question", question); ("tags", tags);
         ("response", response_text); ("duration", duration);
         ("evaluation", evaluation)].

(** Whether [round(n / 3)] is within 1/3 of the exact quotient of the
    integer [n] by 3. *)
Definition score_exact (n : Z) : bool :=
  match Num.int_truediv n 3 with
  | Ok f =>
      match Num.round_float f with
      | Ok k => Z.abs (3 * k - n) <=? 1
      | Raise _ => false
      end
  | Raise _ => false
  end.

(** The binary64 number equal to the integer [n]. *)
Definition float_of_Z (n : Z) : spec_float :=
  binary_normalize 53 1024 n 0 false.

(** [v] is the whole number [n], written as an [int] or as a [float]. *)
Definition whole (v : value) (n : Z) : Prop :=
  v = VInt n \/ v = VFloat (float_of_Z n).

Definition shape (as_float : bool) (n : Z) : value :=
  if as_float then VFloat (float_of_Z n) else VInt n.

Definition same_float (f g : spec_float) : bool :=
  match f, g with
  | S754_zero s, S754_zero t => Bool.eqb s t
  | S754_infinity s, S754_infinity t => Bool.eqb s t
  | S754_nan, S754_nan => true
  | S754_finite s m e, S754_finite t n e' =>
      Bool.eqb s t && (m =? n)%positive && (e =? e')
  | _, _ => false
  end.

(** Whether adding the whole numbers [a] and [b], in the given writings,
    gives their sum as a whole number, a [float] when one of them is. *)
Definition sum_exact (fa fb : bool) (a b : Z) : bool :=
  match py_add (shape fa a) (shape fb b) with
  | Ok (VInt z) => negb (fa || fb) && (z =? a + b)
  | Ok (VFloat f) => (fa || fb) && same_float f (float_of_Z (a + b))
  | _ => false
  end.

(** Whether dividing the whole number [n] by 3 and rounding gives an
    integer within 1/3 of the exact quotient. *)
Definition third_exact (fn : bool) (n : Z) : bool :=
  match py_truediv (shape fn n) 3 with
  | Ok q =>
      match py_round q with
      | Ok (VInt k) => Z.abs (3 * k - n) <=? 1
      | _ => false
      end
  | Raise _ => false
  end.

(** [k] is an integer nearest to the fraction [num / den], for a positive
    [den]. *)
Definition nearest_to (num den k : Z) : Prop :=
  2 * Z.abs (k * den - num) <= den.

(** A field of a duration: an integer literal with no more digits than
    the interpreter converts. *)
Definition duration_field (max_str_digits : Z) (s : string) : option Z :=
  if exceeds_limit max_str_digits (IntLiteral.count_digits s) then None
  else IntLiteral.parse s.

(** A duration read as [minutes:seconds]: two fields around one colon;
    [None] when it is malformed. *)
Definition minutes_seconds (max_str_digits : Z) (duration : value)
    : option (Z * Z) :=
  match duration with
  | VStr s =>
      match Str.split ":" s with
      | [mm; ss] =>
          match duration_field max_str_digits mm,
                duration_field max_str_digits ss with
          | Some m, Some s => Some (m, s)
          | _, _ => None
          end
      | _ => None
      end
  | _ => None
  end.

(** The seconds a response adds to the total: those of its duration, and
    nothing when the duration is missing, empty or malformed. *)
Definition response_seconds (max_str_digits : Z) (r : value) : Z :=
  match r with
  | VDict d =>
      match dict_get "duration" d with
      | Some duration =>
          match minutes_seconds max_str_digits duration with
          | Some (m, s) => m * 60 + s
          | None => 0
          end
      | None => 0
      end
  | _ => 0
  end.

Definition total_seconds (max_str_digits : Z) (items : list value) : Z :=
  fold_right Z.add 0 (map (response_seconds max_str_digits) items).

(** The session a request names: its header, or for an upload without one
    the fresh identifier. *)
Definition request_session (req : request) (e : env) : option string :=
  match req with
  | UploadResume header _ =>
      Some match header with Some h => h | None => uuid4 e end
  | SetupInterview header _ | SubmitAnswer header _ | GetAssessment header =>
      header
  end.

(** The status code of a reply; none when an exception escaped. *)
Definition status (r : response) : option Z :=
  match r with
  | Response s _ => Some s
  | Unhandled _ => None
  end.

(** A record as [submit_answer] appends it, its evaluation an object that
    carries an integer [score]. *)
Definition scored_record (r : value) : Prop :=
  exists question_id question tags response_text duration evaluation score,
    r = response_record question_id question tags response_text duration
          (VDict evaluation)
    /\ dict_get "score" evaluation = Some (VInt score).

(** What a field of a session record may hold: the profile is null or an
    object whose [key_skills] is a list, the responses are scored records,
    the two times are null or text. *)
Definition field_ok (k : string) (v : value) : Prop :=
  (k = "candidate_profile" ->
   v = VNone \/ exists d l, v = VDict d /\ dict_get "key_skills" d = Some (VList l))
  /\ (k = "interview_responses" ->
      exists l, v = VList l /\ Forall scored_record l)
  /\ (k = "interview_start_time" \/ k = "interview_end_time" ->
      v = VNone \/ exists t, v = VStr t).

(** Every key of a new session is there, with a value of its kind. *)
Definition well_formed (session : dict) : Prop :=
  forall k, In k (map fst new_session) ->
            exists v, dict_get k session = Some v /\ field_ok k v.

Definition store_ok (sessions : gmap string dict) : Prop :=
  map_Forall (fun _ session => well_formed session) sessions.

(** The keys of an evaluation that the summary of [get_assessment]
    subscripts (lines 314-315). *)
Definition summary_keys : list string :=
  ["technicalScore"; "communicationScore"; "relevanceScore"; "feedback"].

Definition has_keys (keys : list string) (d : dict) : bool :=
  forallb (fun k => match dict_get k d with
                    | Some _ => true
                    | None => false
                    end) keys.

(** The evaluation a recorded response carries. *)
Definition evaluation_of (r : value) : dict :=
  match r with
  | VDict d =>
      match dict_get "evaluation" d with
      | Some (VDict evaluation) => evaluation
      | _ => []
      end
  | _ => []
  end.

(** The evaluation of [r] has every key the summary reads. *)
Definition summarisable (r : value) : bool :=
  has_keys summary_keys (evaluation_of r).

(** The number the decimal digits [d] spell after the digits of [acc]. *)
Fixpoint uint_value (d : Decimal.uint) (acc : Z) : Z :=
  match d with
  | Decimal.Nil => acc
  | Decimal.D0 d => uint_value d (10 * acc)
  | Decimal.D1 d => uint_value d (10 * acc + 1)
  | Decimal.D2 d => uint_value d (10 * acc + 2)
  | Decimal.D3 d => uint_value d (10 * acc + 3)
  | Decimal.D4 d => uint_value d (10 * acc + 4)
  | Decimal.D5 d => uint_value d (10 * acc + 5)
  | Decimal.D6 d => uint_value d (10 * acc + 6)
  | Decimal.D7 d => uint_value d (10 * acc + 7)
  | Decimal.D8 d => uint_value d (10 * acc + 8)
  | Decimal.D9 d => uint_value d (10 * acc + 9)
  end.

(** ** Sample data for the examples *)

(** [json.loads] on the JSON texts the examples use (apostrophes stand for
    double quotes); any other text counts as one it rejects. *)
Definition json_samples : list (string * value) :=
  [ (Str.dq "{'a':1}", VDict [("a", VInt 1)]);
    (Str.dq "{'name':'Ada','key_skills':'Python, Go, Rust'}",
     VDict [("name", VStr "Ada"); ("key_skills", VStr "Python, Go, Rust")]);
    (Str.dq "{'technicalScore':80,'communicationScore':70,'relevanceScore':90,'feedback':'ok'}",
     VDict [("technicalScore", VInt 80); ("communicationScore", VInt 70);
            ("relevanceScore", VInt 90); ("feedback", VStr "ok")]);
    (Str.dq "{'overallScore':75,'interviewDuration':'40m 0s'}",
     VDict [("overallScore", VInt 75); ("interviewDuration", VStr "40m 0s")]) ].

Definition json_loads_sample (s : string) : option value :=
  snd <$> find (fun kv => String.eqb (fst kv) s) json_samples.

Definition error_text_sample (k : exn_kind) : string := "error".

(** A model that answers [texts] in turn and raises afterwards. *)
Definition stub (texts : list string) (k : nat) : gen_outcome :=
  match nth_error texts k with
  | Some t => GenResp (Some t)
  | None => GenRaises
  end.

(** The outside world of a request in the examples: serialising never
    raises, and the interpreter has its usual limit of 4300 digits. *)
Definition world (fresh time : string) (model : nat -> gen_outcome) : env :=
  {| uuid4 := fresh; now := time; ai := model;
     jsonify_raises := fun _ => None;
     dumps_raises := fun _ => None;
     max_str_digits := 4300 |}.

(** The binary64 number 1.5000000000000009, which is
    [6755399441055748 / 2^52], and an evaluation that holds it. *)
Definition just_above_one_and_a_half : spec_float :=
  S754_finite false 6755399441055748 (-52).

Definition inexact_evaluation_text : string :=
  Str.dq "{'technicalScore':80,'communicationScore':70,'relevanceScore':1.5000000000000009}".

Definition json_loads_inexact (s : string) : option value :=
  if String.eqb s inexact_evaluation_text
  then Some (VDict [("technicalScore", VInt 80);
                    ("communicationScore", VInt 70);
                    ("relevanceScore", VFloat just_above_one_and_a_half)])
  else None.

(** 4301 ones: one digit more than the usual limit. *)
Definition long_number : string :=
  String.concat EmptyString (List.repeat "1" 4301).

(** A recorded response with the given duration. *)
Definition sample_response (duration : value) : value :=
  response_record (VStr "q1") (VStr "Why?") (VList []) (VStr "Because.")
    duration
    (VDict [("technicalScore", VInt 80); ("communicationScore", VInt 70);
            ("relevanceScore", VInt 90); ("feedback", VStr "ok");
            ("score", VInt 80)]).

(** The answers of the model during a whole interview: a profile, a list
    of questions, an evaluation without [feedback] and a complete one. *)
Definition profile_text : string :=
  Str.dq "{'name':'Ada','key_skills':['Go']}".

Definition questions_text : string :=
  Str.dq "[{'id':'q1','question':'Why?','tags':[]}]".

Definition incomplete_evaluation_text : string :=
  Str.dq "{'technicalScore':80,'communicationScore':70,'relevanceScore':90}".

Definition complete_evaluation_text : string :=
  Str.dq "{'technicalScore':80,'communicationScore':70,'relevanceScore':90,'feedback':'ok'}".

(** [json.loads] on these texts; any other text counts as one it
    rejects. *)
Definition interview_samples : list (string * value) :=
  [ (profile_text,
     VDict [("name", VStr "Ada"); ("key_skills", VList [VStr "Go"])]);
    (questions_text,
     VList [VDict [("id", VStr "q1"); ("question", VStr "Why?");
                   ("tags", VList [])]]);
    (incomplete_evaluation_text,
     VDict [("technicalScore", VInt 80); ("communicationScore", VInt 70);
            ("relevanceScore", VInt 90)]);
    (complete_evaluation_text,
     VDict [("technicalScore", VInt 80); ("communicationScore", VInt 70);
            ("relevanceScore", VInt 90); ("feedback", VStr "ok")]) ].

Definition json_loads_interview (s : string) : option value :=
  snd <$> find (fun kv => String.eqb (fst kv) s) interview_samples.

(** A request's surroundings: the model answers [texts] in turn. *)
Definition sample_env (texts : list string) : env :=
  world "u" "t" (stub texts).

Definition sample_cv : upload :=
  {| filename := Some "cv.pdf";
     as_pdf := PdfPages [PageText (Some "Ada, engineer")];
     as_docx := DocxRaises |}.

(** A resume upload and an interview setup for session [s1]. *)
Definition interview_requests : list (request * env) :=
  [ (UploadResume (Some "s1") (Some sample_cv),
     sample_env [profile_text]);
    (SetupInterview (Some "s1")
       (Some (VDict [("position_role", VStr "Backend Engineer")])),
     sample_env [questions_text]) ].

(** The answer to question [q1]. *)
Definition sample_answer : option value :=
  Some (VDict [("question_id", VStr "q1"); ("response_text", VStr "Because.");
               ("duration", VStr "1:30")]).

Definition interview_store : gmap string dict :=
  serve json_loads_interview error_text_sample true true ∅ interview_requests.

(** The record of session [s1] after the upload and the setup. *)
Definition interview_session : dict :=
  [ ("candidate_profile",
     VDict [("name", VStr "Ada"); ("key_skills", VList [VStr "Go"]);
            ("position", VStr "Backend Engineer")]);
    ("interview_questions",
     VList [VDict [("id", VStr "q1"); ("question", VStr "Why?");
                   ("tags", VList [])]]);
    ("interview_responses", VList []);
    ("interview_start_time", VStr "t");
    ("interview_end_time", VNone) ].

(** The interview with an answer whose evaluation came without
    [feedback], and the record of session [s1] after it. *)
Definition flawed_requests : list (request * env) :=
  interview_requests
  ++ [(SubmitAnswer (Some "s1") sample_answer,
       sample_env [incomplete_evaluation_text])].

Definition flawed_session : dict :=
  dict_set "interview_responses"
    (VList [response_record (VStr "q1") (VStr "Why?") (VList [])
              (VStr "Because.") (VStr "1:30")
              (VDict [("technicalScore", VInt 80);
                      ("communicationScore", VInt 70);
                      ("relevanceScore", VInt 90); ("score", VInt 80)])])
    interview_session.

(** The interview on an interpreter set to convert no more than 640 digits,
    the least limit it takes, with an answer that took 640 nines of minutes
    and as many seconds: each field is as long as [int] still reads, and the
    minutes of the total have one digit more. *)
Definition strict_env (texts : list string) : env :=
  {| uuid4 := "u"; now := "t"; ai := stub texts;
     jsonify_raises := fun _ => None;
     dumps_raises := fun _ => None;
     max_str_digits := 640 |}.

Definition many_nines : string :=
  String.concat EmptyString (List.repeat "9" 640).

Definition long_requests : list (request * env) :=
  [ (UploadResume (Some "s1") (Some sample_cv),
     strict_env [profile_text]);
    (SetupInterview (Some "s1")
       (Some (VDict [("position_role", VStr "Backend Engineer")])),
     strict_env [questions_text]);
    (SubmitAnswer (Some "s1")
       (Some (VDict [("question_id", VStr "q1");
                     ("response_text", VStr "Because.");
                     ("duration", VStr (many_nines +:+ ":" +:+ many_nines))])),
     strict_env [complete_evaluation_text]) ].

Definition long_session : dict :=
  dict_set "interview_responses"
    (VList [response_record (VStr "q1") (VStr "Why?") (VList [])
              (VStr "Because.") (VStr (many_nines +:+ ":" +:+ many_nines))
              (VDict [("technicalScore", VInt 80);
                      ("communicationScore", VInt 70);
                      ("relevanceScore", VInt 90); ("feedback", VStr "ok");
                      ("score", VInt 80)])])
    interview_session.





(** ** A proof step *)

(** Equations between results: the value of two equal [Ok]s or [Raise]s,
    and the end of a case where an [Ok] equals a [Raise]. *)
Ltac ok_inj :=
  repeat match goal with
         | H : Ok _ = Ok _ |- _ => injection H as <-
         | H : Raise _ = Raise _ |- _ => injection H as <-
         | H : Ok _ = Raise _ |- _ => discriminate H
         | H : Raise _ = Ok _ |- _ => discriminate H
         end.

(** * Properties *)

(** ** Strings: basic facts *)

Lemma str_app_cons c s t : String c s +:+ t = String c (s +:+ t).
Proof. reflexivity. Qed.

Lemma str_app_nil_l s : EmptyString +:+ s = s.
Proof. reflexivity. Qed.

Lemma str_app_nil_r s : s +:+ EmptyString = s.
Proof. induction s as [|c s IH]; [reflexivity|]. rewrite str_app_cons, IH. reflexivity. Qed.

Lemma str_app_assoc s t u : (s +:+ t) +:+ u = s +:+ (t +:+ u).
Proof.
  induction s as [|c s IH]; [reflexivity|]. rewrite !str_app_cons, IH. reflexivity.
Qed.

Lemma str_length_app s t :
  String.length (s +:+ t) = (String.length s + String.length t)%nat.
Proof.
  induction s as [|c s IH]; [reflexivity|]. rewrite str_app_cons. simpl. rewrite IH.
  reflexivity.
Qed.

Lemma nonempty_true s : Str.nonempty s = true <-> s <> EmptyString.
Proof. destruct s; simpl; split; congruence. Qed.

(** ** Strings: trimming and splitting *)

Lemma lstrip_head s :
  Str.lstrip s = EmptyString
  \/ exists c u, Str.lstrip s = String c u /\ Str.isspace c = false.
Proof.
  induction s as [|c s IH]; simpl; [left; reflexivity|].
  destruct (Str.isspace c) eqn:E; [exact IH|].
  right. exists c, s. split; [reflexivity|exact E].
Qed.

Lemma lstrip_fixed c u :
  Str.isspace c = false -> Str.lstrip (String c u) = String c u.
Proof. intros H. simpl. rewrite H. reflexivity. Qed.

Lemma rstrip_head c u :
  Str.isspace c = false -> exists u', Str.rstrip (String c u) = String c u'.
Proof.
  intros H. simpl. destruct (Str.rstrip u); [rewrite H|]; eexists; reflexivity.
Qed.

Lemma rstrip_idem s : Str.rstrip (Str.rstrip s) = Str.rstrip s.
Proof.
  induction s as [|c s IH]; [reflexivity|]. simpl.
  destruct (Str.rstrip s) as [|c' r] eqn:E.
  - destruct (Str.isspace c) eqn:Ec; [reflexivity|]. simpl. rewrite Ec. reflexivity.
  - change (Str.rstrip (String c (String c' r)))
      with (match Str.rstrip (String c' r) with
            | EmptyString =>
                if Str.isspace c then EmptyString else String c EmptyString
            | r0 => String c r0
            end).
    rewrite IH. reflexivity.
Qed.

Lemma strip_trimmed s : trimmed (Str.strip s).
Proof.
  unfold trimmed, Str.strip. split; [|apply rstrip_idem].
  destruct (lstrip_head s) as [->|(c & u & -> & Hc)]; [reflexivity|].
  destruct (rstrip_head c u Hc) as [u' ->]. apply lstrip_fixed. exact Hc.
Qed.

Lemma strip_idem s : Str.strip (Str.strip s) = Str.strip s.
Proof.
  destruct (strip_trimmed s) as [Hl Hr]. unfold Str.strip at 1.
  rewrite Hl. exact Hr.
Qed.

Lemma split_nonnil sep s : Str.split sep s <> [].
Proof.
  destruct s as [|c s]; simpl; [discriminate|].
  destruct (Ascii.eqb c sep); [discriminate|].
  destruct (Str.split sep s); discriminate.
Qed.

(** Joining the pieces with the separator gives the string back, and no
    piece holds the separator. *)
Lemma join_split sep s :
  String.concat (String sep EmptyString) (Str.split sep s) = s.
Proof.
  induction s as [|c s IH]; [reflexivity|]. simpl.
  destruct (Ascii.eqb_spec c sep) as [->|Hne].
  - simpl. destruct (Str.split sep s) as [|p ps] eqn:E.
    + exfalso. eapply split_nonnil. exact E.
    + rewrite str_app_nil_l, str_app_cons, str_app_nil_l, IH. reflexivity.
  - destruct (Str.split sep s) as [|p ps] eqn:E.
    + exfalso. eapply split_nonnil. exact E.
    + simpl in *. destruct ps; [congruence|].
      rewrite str_app_cons. f_equal. exact IH.
Qed.

Lemma split_pieces sep s :
  Forall (fun p => has_char sep p = false) (Str.split sep s).
Proof.
  induction s as [|c s IH]; simpl; [repeat constructor|].
  destruct (Ascii.eqb_spec c sep) as [->|Hne].
  - constructor; [reflexivity|exact IH].
  - destruct (Str.split sep s) as [|p ps]; simpl.
    + repeat constructor. simpl.
      destruct (Ascii.eqb_spec c sep); [contradiction|reflexivity].
    + inversion IH; subst. constructor; [|assumption]. simpl.
      destruct (Ascii.eqb_spec c sep); [contradiction|assumption].
Qed.

Lemma comma_items_trimmed s :
  Forall (fun x => x <> EmptyString /\ trimmed x) (comma_items s).
Proof.
  unfold comma_items.
  induction (Str.split "," s) as [|p ps IH]; simpl; [constructor|].
  destruct (Str.nonempty (Str.strip p)) eqn:E; [|exact IH].
  simpl. constructor; [|exact IH].
  split; [apply nonempty_true; exact E|apply strip_trimmed].
Qed.

(** Trimming, said without the functions that trim. *)
Lemma isspace_whitespace c : Str.isspace c = is_whitespace c.
Proof. destruct c as [[|] [|] [|] [|] [|] [|] [|] [|]]; reflexivity. Qed.

Lemma lstrip_blank_prefix s :
  exists a, s = a +:+ Str.lstrip s /\ blank a = true.
Proof.
  induction s as [|c s (a & Ha & Hb)]; [exists EmptyString; split; reflexivity|].
  simpl. destruct (Str.isspace c) eqn:E.
  - exists (String c a). rewrite str_app_cons, <- Ha. split; [reflexivity|].
    simpl. rewrite <- isspace_whitespace, E. exact Hb.
  - exists EmptyString. split; reflexivity.
Qed.

Lemma rstrip_blank_suffix s :
  exists b, s = Str.rstrip s +:+ b /\ blank b = true.
Proof.
  induction s as [|c s (b & Hb & Hblank)];
    [exists EmptyString; split; reflexivity|].
  simpl. destruct (Str.rstrip s) as [|c' r].
  - rewrite str_app_nil_l in Hb. subst b. destruct (Str.isspace c) eqn:E.
    + exists (String c s). split; [reflexivity|].
      simpl. rewrite <- isspace_whitespace, E. exact Hblank.
    + exists s. split; [reflexivity|exact Hblank].
  - exists b. rewrite str_app_cons, <- Hb. split; [reflexivity|exact Hblank].
Qed.

Lemma rstrip_last s : forall c,
  Str.rstrip (String c s) = String c s -> Str.isspace (last_char s c) = false.
Proof.
  induction s as [|c' s IH]; intros c H.
  - simpl in *. destruct (Str.isspace c); [discriminate|reflexivity].
  - cbn [last_char].
    change (Str.rstrip (String c (String c' s)))
      with (match Str.rstrip (String c' s) with
            | EmptyString =>
                if Str.isspace c then EmptyString else String c EmptyString
            | r => String c r
            end) in H.
    destruct (Str.rstrip (String c' s)) as [|c0 r] eqn:E.
    + destruct (Str.isspace c); discriminate.
    + injection H as -> ->. apply IH. exact E.
Qed.

Lemma trimmed_bare x : trimmed x -> bare x = true.
Proof.
  intros [Hl Hr]. destruct x as [|c x]; [reflexivity|].
  cbn [bare]. rewrite <- !isspace_whitespace, (rstrip_last _ _ Hr).
  simpl in Hl. destruct (Str.isspace c); [|reflexivity].
  exfalso. destruct (lstrip_blank_prefix x) as (a & Ha & _).
  apply (f_equal String.length) in Hl, Ha.
  rewrite str_length_app in Ha. simpl in Hl. lia.
Qed.

Lemma strip_trim_of p : trim_of p (Str.strip p).
Proof.
  destruct (lstrip_blank_prefix p) as (a & Ha & Hablank).
  destruct (rstrip_blank_suffix (Str.lstrip p)) as (b & Hb & Hbblank).
  exists a, b. unfold Str.strip. rewrite <- Hb.
  split; [exact Ha|]. split; [exact Hablank|]. split; [exact Hbblank|].
  apply trimmed_bare. apply strip_trimmed.
Qed.

Lemma strip_empty_blank p : Str.strip p = EmptyString -> blank p = true.
Proof.
  intros H. destruct (strip_trim_of p) as (l & r & Hp & Hl & Hr & _).
  rewrite H, str_app_nil_l in Hp. subst p. clear H.
  induction l as [|c l IH]; [exact Hr|].
  rewrite str_app_cons. simpl in *.
  apply andb_true_iff in Hl as [Hc Hl]. rewrite Hc. exact (IH Hl).
Qed.

Lemma comma_items_skills s : skills_of (Str.split "," s) (comma_items s).
Proof.
  unfold comma_items.
  induction (Str.split "," s) as [|p ps IH]; [constructor|].
  cbn [List.filter]. destruct (Str.nonempty (Str.strip p)) eqn:E.
  - cbn [map]. apply skills_keep; [|apply strip_trim_of|exact IH].
    apply nonempty_true. exact E.
  - apply skills_skip; [|exact IH]. apply strip_empty_blank.
    destruct (Str.strip p); [reflexivity|discriminate].
Qed.

(** ** Dictionaries: basic facts *)

Lemma dict_get_set_eq k v d : dict_get k (dict_set k v d) = Some v.
Proof.
  induction d as [|[k' v'] d IH]; simpl.
  - rewrite String.eqb_refl. reflexivity.
  - destruct (String.eqb k' k) eqn:E; simpl.
    + rewrite String.eqb_refl. reflexivity.
    + rewrite E. exact IH.
Qed.

Lemma dict_get_set_ne k k' v d :
  k <> k' -> dict_get k' (dict_set k v d) = dict_get k' d.
Proof.
  intros Hne. induction d as [|[k0 v0] d IH]; simpl.
  - destruct (String.eqb_spec k k'); [contradiction|reflexivity].
  - destruct (String.eqb_spec k0 k) as [->|Hk]; simpl.
    + destruct (String.eqb_spec k k'); [contradiction|reflexivity].
    + destruct (String.eqb_spec k0 k'); [reflexivity|exact IH].
Qed.

(** ** The handlers: shared facts *)

Lemma bind_ok {A B} (m : result A) (k : A -> result B) b :
  m ≫= k = Ok b -> exists a, m = Ok a /\ k a = Ok b.
Proof. destruct m as [a|ex]; [|discriminate]. intros H. exists a. split; [reflexivity|exact H]. Qed.

Lemma lookup_session_some (sessions : gmap string dict) session_id session :
  session_id <> EmptyString ->
  sessions !! session_id = Some session ->
  lookup_session sessions (Some session_id) = Some (session_id, session).
Proof.
  intros Hne Hs. unfold lookup_session.
  apply nonempty_true in Hne. rewrite Hne, Hs. reflexivity.
Qed.

Lemma get_or_create_session_facts (sessions : gmap string dict)
    (session_id : string) :
  let session := fst (get_or_create_session sessions session_id) in
  let sessions' := snd (get_or_create_session sessions session_id) in
  (forall s, sessions !! session_id = Some s -> session = s /\ sessions' = sessions)
  /\ (sessions !! session_id = None ->
      session = new_session /\ sessions' = <[session_id := new_session]> sessions)
  /\ sessions' !! session_id = Some session
  /\ (forall other, other <> session_id -> sessions' !! other = sessions !! other)
  /\ get_or_create_session sessions' session_id = (session, sessions').
Proof.
  unfold get_or_create_session.
  destruct (sessions !! session_id) as [s|] eqn:E; simpl.
  - repeat apply conj; try reflexivity.
    + intros s' [= <-]. split; reflexivity.
    + discriminate.
    + exact E.
    + rewrite E. reflexivity.
  - repeat apply conj; try reflexivity.
    + discriminate.
    + intros _. split; reflexivity.
    + apply lookup_insert_eq.
    + intros other Hne. apply lookup_insert_ne. congruence.
    + rewrite lookup_insert_eq. reflexivity.
Qed.

Lemma insert_keeps (sessions : gmap string dict) k v id :
  is_Some (sessions !! id) -> is_Some (<[k := v]> sessions !! id).
Proof.
  intros H. destruct (decide (k = id)) as [->|Hne].
  - rewrite lookup_insert_eq. eauto.
  - rewrite lookup_insert_ne by exact Hne. exact H.
Qed.

Section GeminiCall.

Variable json_loads : string -> option value.
Variable models_loaded : bool.

Lemma call_gemini_ok e ai_text calls :
  call_gemini json_loads models_loaded e = (Ok ai_text, calls) ->
  generate_content_with_gemini json_loads (ai e) 3 = (ai_text, calls).
Proof.
  unfold call_gemini. destruct models_loaded; [|discriminate].
  destruct (generate_content_with_gemini json_loads (ai e) 3) as [t c].
  intros [= <- <-]. reflexivity.
Qed.

End GeminiCall.

(** ** C1: the Gemini client *)

Section AIClientFacts.

Variable json_loads : string -> option value.
Variable model : nat -> gen_outcome.
Variable retries : Z.

Lemma gemini_loop_step attempt calls :
  gemini_loop json_loads model retries attempt calls =
  if attempt <? retries then
    match attempt_body json_loads (model calls) with
    | AttemptReturn t => (Some t, S calls)
    | AttemptEmpty => gemini_loop json_loads model retries (attempt + 1) (S calls)
    | AttemptExcept =>
        if attempt + 1 >=? retries then (None, S calls)
        else gemini_loop json_loads model retries (attempt + 1) (S calls)
    end
  else (None, calls).
Proof.
  funelim (gemini_loop json_loads model retries attempt calls).
  - rewrite Hlt. reflexivity.
  - rewrite Hge. reflexivity.
Qed.

Lemma attempt_body_return o t :
  attempt_body json_loads o = AttemptReturn t <->
  attempt_succeeds json_loads o t.
Proof.
  unfold attempt_succeeds. split.
  - destruct o as [| |[t'|]]; simpl; try discriminate.
    destruct t' as [|c t']; simpl; try discriminate.
    destruct (json_loads (String c t')) eqn:E; try discriminate.
    intros [= <-]. rewrite E. repeat split; congruence.
  - intros (-> & Hne & Hj). simpl.
    destruct t as [|c t]; [congruence|]. simpl.
    destruct (json_loads (String c t)); congruence.
Qed.

(** No attempt among the next [n] succeeds: the loop gives up after
    exactly the attempts that are left. *)
Lemma gemini_loop_exhausted n : forall attempt calls,
  Z.to_nat (retries - attempt) = n ->
  (forall k t, (calls <= k < calls + n)%nat ->
               ~ attempt_succeeds json_loads (model k) t) ->
  gemini_loop json_loads model retries attempt calls = (None, (calls + n)%nat).
Proof.
  induction n as [|n IH]; intros attempt calls Hn Hfail;
    rewrite gemini_loop_step.
  - destruct (Z.ltb_spec attempt retries); [lia|].
    f_equal. lia.
  - destruct (Z.ltb_spec attempt retries); [|lia].
    assert (Hrec : gemini_loop json_loads model retries (attempt + 1) (S calls)
                   = (None, (calls + S n)%nat)).
    { replace (calls + S n)%nat with (S calls + n)%nat by lia.
      apply IH; [lia|]. intros k t Hk. apply Hfail. lia. }
    destruct (attempt_body json_loads (model calls)) eqn:E.
    + apply attempt_body_return in E. exfalso. eapply Hfail; [|exact E]. lia.
    + exact Hrec.
    + destruct (Z.geb_spec (attempt + 1) retries) as [Hge|Hlt']; [|exact Hrec].
      f_equal. lia.
Qed.

(** The first successful attempt, [k] attempts from now, is returned. *)
Lemma gemini_loop_first k : forall attempt calls t,
  (k < Z.to_nat (retries - attempt))%nat ->
  attempt_succeeds json_loads (model (calls + k)%nat) t ->
  (forall j t', (j < k)%nat ->
                ~ attempt_succeeds json_loads (model (calls + j)%nat) t') ->
  gemini_loop json_loads model retries attempt calls
  = (Some t, S (calls + k)).
Proof.
  induction k as [|k IH]; intros attempt calls t Hk Hok Hfail;
    rewrite gemini_loop_step;
    (destruct (Z.ltb_spec attempt retries); [|lia]).
  - rewrite Nat.add_0_r in *.
    apply attempt_body_return in Hok. rewrite Hok. reflexivity.
  - assert (Hrec : gemini_loop json_loads model retries (attempt + 1) (S calls)
                   = (Some t, S (calls + S k))).
    { replace (calls + S k)%nat with (S calls + k)%nat by lia.
      apply IH; [lia| |].
      - replace (S calls + k)%nat with (calls + S k)%nat by lia. exact Hok.
      - intros j t' Hj. replace (S calls + j)%nat with (calls + S j)%nat by lia.
        apply Hfail. lia. }
    destruct (attempt_body json_loads (model calls)) eqn:E.
    + apply attempt_body_return in E. exfalso.
      apply (Hfail 0%nat text); [lia|]. rewrite Nat.add_0_r. exact E.
    + exact Hrec.
    + destruct (Z.geb_spec (attempt + 1) retries) as [Hge|Hlt']; [lia|exact Hrec].
Qed.

End AIClientFacts.

(** C1.  [generate_content_with_gemini] returns the raw text of the first
    attempt that yields a non-empty text accepted by [json.loads]; every
    attempt before it (empty response, exception, text that does not parse)
    is consumed, one call each; and when none of the [retries] attempts
    succeeds the result is [None] after exactly [retries] calls.  The
    function is total: no exception leaves it. *)
Theorem generate_content_with_gemini_spec
    (json_loads : string -> option value) (model : nat -> gen_outcome)
    (retries : Z) :
  (forall k t,
      (k < Z.to_nat retries)%nat ->
      attempt_succeeds json_loads (model k) t ->
      (forall j t', (j < k)%nat -> ~ attempt_succeeds json_loads (model j) t') ->
      generate_content_with_gemini json_loads model retries = (Some t, S k))
  /\ ((forall k t, (k < Z.to_nat retries)%nat ->
                   ~ attempt_succeeds json_loads (model k) t) ->
      generate_content_with_gemini json_loads model retries
      = (None, Z.to_nat retries)).
Proof.
  unfold generate_content_with_gemini. split.
  - intros k t Hk Hok Hfail.
    apply (gemini_loop_first json_loads model retries k 0 0%nat t).
    + rewrite Z.sub_0_r. exact Hk.
    + exact Hok.
    + intros j t' Hj. apply Hfail. exact Hj.
  - intros Hfail.
    apply (gemini_loop_exhausted json_loads model retries (Z.to_nat retries) 0 0%nat).
    + rewrite Z.sub_0_r. reflexivity.
    + intros k t Hk. apply Hfail. lia.
Qed.

(** With [retries = 3]: a model that answers invalid JSON twice and valid
    JSON the third time gives the third payload after three calls; one that
    always answers invalid JSON gives [None] after exactly three calls. *)
Lemma generate_content_with_gemini_witness :
  generate_content_with_gemini json_loads_sample
    (stub ["oops"; "{not json"; Str.dq "{'a':1}"]) 3
  = (Some (Str.dq "{'a':1}"), 3%nat)
  /\ generate_content_with_gemini json_loads_sample (fun _ => GenResp (Some "oops")) 3
     = (None, 3%nat).
Proof.
  split.
  - apply (proj1 (generate_content_with_gemini_spec json_loads_sample
                    (stub ["oops"; "{not json"; Str.dq "{'a':1}"]) 3) 2%nat).
    + simpl. lia.
    + unfold attempt_succeeds. simpl. repeat split; discriminate.
    + intros j t' Hj (Hm & _ & Hp).
      destruct j as [|[|j]]; [| |lia]; simpl in Hm; injection Hm as <-;
        apply Hp; reflexivity.
  - apply (proj2 (generate_content_with_gemini_spec json_loads_sample
                    (fun _ => GenResp (Some "oops")) 3)).
    intros k t _ (Hm & _ & Hp). injection Hm as <-. apply Hp. reflexivity.
Defined.

(** ** C2: PDF text extraction *)

Lemma pdf_pages_loop_spec pages : forall text,
  pdf_pages_loop pages text
  = text +:+ String.concat EmptyString (map page_text (pages_before_failure pages)).
Proof.
  induction pages as [|p pages IH]; intros text; simpl.
  - rewrite str_app_nil_r. reflexivity.
  - destruct p as [|t]; simpl.
    + rewrite str_app_nil_r. reflexivity.
    + rewrite IH, str_app_assoc. f_equal.
      destruct (pages_before_failure pages) as [|q qs] eqn:E; simpl.
      * rewrite str_app_nil_r. destruct t; reflexivity.
      * destruct t; reflexivity.
Qed.

Lemma pages_before_failure_all pages :
  ~ In PageRaises pages -> pages_before_failure pages = pages.
Proof.
  induction pages as [|p pages IH]; intros Hno; [reflexivity|].
  destruct p as [|t]; simpl.
  - exfalso. apply Hno. left. reflexivity.
  - f_equal. apply IH. intros Hin. apply Hno. right. exact Hin.
Qed.

Lemma concat_all_empty (l : list string) :
  Forall (fun x => x = EmptyString) l -> String.concat EmptyString l = EmptyString.
Proof.
  induction 1 as [|x l Hx Hl IH]; [reflexivity|]. subst x. simpl.
  destruct l; [reflexivity|]. rewrite str_app_nil_l. exact IH.
Qed.

(** C2, as the code has it.  PDF extraction is a total function (no
    exception leaves it).  A page that yields no text contributes nothing and
    the next pages are still read; when opening the document raises the
    result is empty; when a page raises, the pages after it are not read and
    the result is the trimmed text of the pages before it; without a failure
    the result is the trimmed concatenation of all the pages; and a document
    whose pages hold no text gives the empty string. *)
Theorem extract_text_from_pdf_spec :
  extract_text_from_pdf PdfOpenRaises = EmptyString
  /\ (forall pages,
        extract_text_from_pdf (PdfPages pages)
        = Str.strip (String.concat EmptyString
                       (map page_text (pages_before_failure pages))))
  /\ (forall pages,
        ~ In PageRaises pages ->
        extract_text_from_pdf (PdfPages pages)
        = Str.strip (String.concat EmptyString (map page_text pages)))
  /\ (forall pages,
        Forall (fun p => page_text p = EmptyString) pages ->
        extract_text_from_pdf (PdfPages pages) = EmptyString).
Proof.
  assert (Hgen : forall pages,
             extract_text_from_pdf (PdfPages pages)
             = Str.strip (String.concat EmptyString
                            (map page_text (pages_before_failure pages)))).
  { intros pages. unfold extract_text_from_pdf.
    rewrite pdf_pages_loop_spec, str_app_nil_l. reflexivity. }
  split; [reflexivity|]. split; [exact Hgen|]. split.
  - intros pages Hno. rewrite Hgen, pages_before_failure_all by exact Hno.
    reflexivity.
  - intros pages Hall. rewrite Hgen, concat_all_empty; [reflexivity|].
    induction Hall as [|p pages Hp Hall IH]; simpl; [constructor|].
    destruct p as [|t]; simpl; [constructor|].
    constructor; [exact Hp|exact IH].
Qed.

Lemma extract_text_from_pdf_witness :
  extract_text_from_pdf
    (PdfPages [PageText (Some " Ada "); PageText None; PageText (Some "Lovelace ")])
  = "Ada Lovelace"
  /\ extract_text_from_pdf (PdfPages [PageText None; PageText (Some "")]) = "".
Proof.
  split.
  - rewrite (proj1 (proj2 (proj2 extract_text_from_pdf_spec))).
    + reflexivity.
    + simpl. intros [H|[H|[H|[]]]]; discriminate.
  - apply (proj2 (proj2 (proj2 extract_text_from_pdf_spec))).
    repeat constructor.
Defined.

(** Against C2 as stated.  Where a page raises after text was gathered, the
    result is that text, not the empty string, and the page after the failing
    one is not read. *)
Lemma extract_text_from_pdf_partial :
  pdf_fails (PdfPages [PageText (Some "Hello"); PageRaises; PageText (Some " World")])
  /\ extract_text_from_pdf
       (PdfPages [PageText (Some "Hello"); PageRaises; PageText (Some " World")])
     = "Hello"
  /\ extract_text_from_pdf
       (PdfPages [PageText (Some "Hello"); PageRaises; PageText (Some " World")])
     <> EmptyString.
Proof.
  split; [simpl; tauto|]. split; [reflexivity|discriminate].
Qed.

(** ** C3: the JSON fragment of a model answer *)

Lemma matches_literal {A} cls p r s cap (k : string -> option string -> option A) :
  Re.matches (Re.literal cls p r) s cap k
  = match strip_prefix cls p s with
    | Some rest => Re.matches r rest cap k
    | None => None
    end.
Proof.
  revert s. induction p as [|a p IH]; intros s; simpl; [reflexivity|].
  destruct s as [|c s]; [reflexivity|].
  destruct (cls a c); [apply IH|reflexivity].
Qed.

Lemma strip_prefix_space c s :
  Str.isspace c = true -> strip_prefix Re.lit fence_close (String c s) = None.
Proof.
  intros H. simpl. unfold Re.lit. destruct (Ascii.eqb_spec c "`"%char) as [->|]; [|reflexivity].
  discriminate H.
Qed.

Lemma matches_close {A} s cap (k : option string -> option A) :
  Re.matches close_re s cap (fun _ cap' => k cap')
  = if closes s then k cap else None.
Proof.
  unfold close_re. cbn [Re.matches]. induction s as [|c s IH].
  - reflexivity.
  - unfold closes. cbn [Str.lstrip Re.greedy_star].
    destruct (Str.isspace c) eqn:Hc.
    + rewrite IH. unfold closes.
      rewrite matches_literal, (strip_prefix_space c s Hc).
      destruct (strip_prefix Re.lit fence_close (Str.lstrip s)); [|reflexivity].
      destruct (k cap); reflexivity.
    + rewrite matches_literal. destruct (strip_prefix _ _ _); reflexivity.
Qed.

Lemma take_app p s : Re.take (String.length p) (p +:+ s) = p.
Proof.
  induction p as [|c p IH].
  - destruct s; reflexivity.
  - rewrite str_app_cons. simpl. rewrite IH. reflexivity.
Qed.

Lemma take_suffix p s :
  Re.take (String.length (p +:+ s) - String.length s) (p +:+ s) = p.
Proof.
  rewrite str_length_app, Nat.add_sub. apply take_app.
Qed.

Lemma lazy_capture v : forall p s,
  v = p +:+ s ->
  Re.lazy_star Re.any
    (fun rest =>
       if closes rest
       then Some (Some (Re.take (String.length v - String.length rest) v))
       else None) s
  = (fun g => Some (p +:+ g)) <$> capture s.
Proof.
  intros p s. revert p. induction s as [|c s IH]; intros p Hv.
  - cbn [Re.lazy_star capture]. destruct (closes "") eqn:E; [|reflexivity].
    rewrite Hv, take_suffix. cbn [fmap option_fmap option_map].
    rewrite str_app_nil_r. reflexivity.
  - cbn [Re.lazy_star capture]. destruct (closes (String c s)) eqn:E.
    + rewrite Hv, take_suffix. cbn [fmap option_fmap option_map].
      rewrite str_app_nil_r. reflexivity.
    + unfold Re.any at 1. rewrite (IH (p +:+ String c EmptyString)).
      * destruct (capture s) as [g|]; simpl; [|reflexivity].
        rewrite str_app_assoc. reflexivity.
      * rewrite Hv, str_app_assoc. reflexivity.
Qed.

Lemma lazy_star_ext {A} cls (k1 k2 : string -> option A) s :
  (forall x, k1 x = k2 x) -> Re.lazy_star cls k1 s = Re.lazy_star cls k2 s.
Proof.
  intros H. induction s as [|c s IH]; cbn [Re.lazy_star]; rewrite H; [reflexivity|].
  rewrite IH. reflexivity.
Qed.

Lemma greedy_star_ext {A} cls (k1 k2 : string -> option A) s :
  (forall x, k1 x = k2 x) -> Re.greedy_star cls k1 s = Re.greedy_star cls k2 s.
Proof.
  intros H. induction s as [|c s IH]; cbn [Re.greedy_star]; rewrite H; [reflexivity|].
  rewrite IH. reflexivity.
Qed.

Lemma matches_body v cap :
  Re.matches body_re v cap (fun _ cap' => Some cap') = Some <$> capture v.
Proof.
  unfold body_re. cbn [Re.matches].
  erewrite lazy_star_ext; [|intros x; apply matches_close].
  rewrite (lazy_capture v EmptyString v eq_refl).
  destruct (capture v); reflexivity.
Qed.

Lemma closes_lstrip s : closes (Str.lstrip s) = closes s.
Proof.
  unfold closes. f_equal.
  destruct (lstrip_head s) as [->|(c & u & -> & Hc)]; [reflexivity|].
  rewrite (lstrip_fixed c u Hc). reflexivity.
Qed.

Lemma capture_unfold s :
  capture s
  = if closes s then Some EmptyString
    else match s with
         | String c s' => String c <$> capture s'
         | EmptyString => None
         end.
Proof. destruct s; reflexivity. Qed.

Lemma closes_space c s : Str.isspace c = true -> closes (String c s) = closes s.
Proof. intros H. unfold closes. cbn [Str.lstrip]. rewrite H. reflexivity. Qed.

Lemma capture_lstrip_none s : capture (Str.lstrip s) = None -> capture s = None.
Proof.
  induction s as [|c s IH]; [trivial|]. cbn [Str.lstrip].
  destruct (Str.isspace c) eqn:Hc; [|trivial].
  intros H. specialize (IH H). rewrite capture_unfold, (closes_space c s Hc).
  destruct (closes s) eqn:Ecl.
  - rewrite capture_unfold, Ecl in IH. discriminate.
  - rewrite IH. reflexivity.
Qed.

Lemma matches_tail u cap :
  Re.matches tail_re u cap (fun _ cap' => Some cap')
  = Some <$> capture (Str.lstrip u).
Proof.
  unfold tail_re. cbn [Re.matches].
  erewrite greedy_star_ext; [|intros x; apply matches_body].
  induction u as [|c u IH]; [reflexivity|].
  cbn [Re.greedy_star Str.lstrip]. destruct (Str.isspace c) eqn:Hc; [|reflexivity].
  rewrite IH. destruct (capture (Str.lstrip u)) eqn:E; [reflexivity|].
  cbn [fmap option_fmap option_map].
  rewrite (capture_lstrip_none (String c u)); [reflexivity|].
  cbn [Str.lstrip]. rewrite Hc. exact E.
Qed.

Lemma matches_fence s :
  Re.matches fence_re s None (fun _ cap => Some cap)
  = match strip_prefix Re.lit_ci fence_open s with
    | Some u => Some <$> capture (Str.lstrip u)
    | None => None
    end.
Proof.
  unfold fence_re. rewrite matches_literal.
  destruct (strip_prefix Re.lit_ci fence_open s); [apply matches_tail|reflexivity].
Qed.

Lemma strip_prefix_split cls p : forall s rest,
  strip_prefix cls p s = Some rest ->
  exists w, s = w +:+ rest /\ word_match cls p w = true
            /\ String.length w = String.length p.
Proof.
  induction p as [|a p IH]; intros s rest H.
  - injection H as <-. exists EmptyString. repeat split.
  - destruct s as [|c s]; [discriminate|]. simpl in H.
    destruct (cls a c) eqn:E; [|discriminate].
    destruct (IH s rest H) as (w & -> & Hw & Hl).
    exists (String c w). split; [reflexivity|]. split; [|simpl; lia].
    unfold word_match in *. simpl. rewrite E. exact Hw.
Qed.

Lemma strip_prefix_app cls p : forall w rest,
  word_match cls p w = true -> strip_prefix cls p (w +:+ rest) = Some rest.
Proof.
  unfold word_match. induction p as [|a p IH]; intros w rest H.
  - simpl in H. destruct w; [reflexivity|discriminate].
  - destruct w as [|c w]; [discriminate|]. rewrite str_app_cons. simpl in *.
    destruct (cls a c); [apply IH; exact H|discriminate].
Qed.

Lemma find_first_split cls p : forall s pre rest,
  find_first cls p s = Some (pre, rest) ->
  exists w, s = pre +:+ w +:+ rest /\ word_match cls p w = true
            /\ String.length w = String.length p.
Proof.
  induction s as [|c s IH]; intros pre rest; cbn [find_first].
  - destruct (strip_prefix cls p "") as [u|] eqn:E; [|discriminate].
    intros [= <- <-]. apply strip_prefix_split in E as (w & Hs & Hw & Hl).
    exists w. rewrite str_app_nil_l. repeat split; assumption.
  - destruct (strip_prefix cls p (String c s)) as [u|] eqn:E.
    + intros [= <- <-]. apply strip_prefix_split in E as (w & Hs & Hw & Hl).
      exists w. rewrite str_app_nil_l. repeat split; assumption.
    + destruct (find_first cls p s) as [[pre0 rest0]|]; [|discriminate].
      intros [= <- <-]. destruct (IH pre0 rest0 eq_refl) as (w & Hs & Hw & Hl).
      exists w. rewrite str_app_cons, <- Hs. repeat split; assumption.
Qed.

Lemma find_first_first cls p : forall s pre rest,
  find_first cls p s = Some (pre, rest) ->
  forall pre' w' rest',
    s = pre' +:+ w' +:+ rest' -> word_match cls p w' = true ->
    (String.length pre <= String.length pre')%nat.
Proof.
  induction s as [|c s IH]; intros pre rest; cbn [find_first].
  - destruct (strip_prefix cls p ""); [|discriminate].
    intros [= <- <-] pre' w' rest' _ _. simpl. lia.
  - destruct (strip_prefix cls p (String c s)) as [u|] eqn:E.
    + intros [= <- <-] pre' w' rest' _ _. simpl. lia.
    + destruct (find_first cls p s) as [[pre0 rest0]|] eqn:F; [|discriminate].
      intros [= <- <-] pre' w' rest' Hs Hw.
      destruct pre' as [|c' pre'].
      * rewrite str_app_nil_l in Hs. rewrite Hs, (strip_prefix_app _ _ _ _ Hw) in E.
        discriminate.
      * rewrite str_app_cons in Hs. injection Hs as -> ->. simpl.
        apply le_n_S. eapply IH; [reflexivity| |exact Hw]. reflexivity.
Qed.

Lemma find_first_none cls p : forall s,
  find_first cls p s = None ->
  forall pre' w' rest',
    word_match cls p w' = true -> s <> pre' +:+ w' +:+ rest'.
Proof.
  induction s as [|c s IH]; cbn [find_first].
  - destruct (strip_prefix cls p "") eqn:E; [discriminate|].
    intros _ pre' w' rest' Hw Hs.
    destruct pre' as [|c' pre']; [|discriminate].
    rewrite str_app_nil_l in Hs. rewrite Hs, (strip_prefix_app _ _ _ _ Hw) in E.
    discriminate.
  - destruct (strip_prefix cls p (String c s)) as [u|] eqn:E; [discriminate|].
    destruct (find_first cls p s) as [[pre0 rest0]|] eqn:F; [discriminate|].
    intros _ pre' w' rest' Hw Hs.
    destruct pre' as [|c' pre'].
    + rewrite str_app_nil_l in Hs. rewrite Hs, (strip_prefix_app _ _ _ _ Hw) in E.
      discriminate.
    + rewrite str_app_cons in Hs. injection Hs as -> ->.
      eapply IH; [reflexivity|exact Hw|reflexivity].
Qed.

Lemma find_first_suffix_none cls p x s :
  find_first cls p (x +:+ s) = None -> find_first cls p s = None.
Proof.
  intros H. destruct (find_first cls p s) as [[pre rest]|] eqn:F; [|reflexivity].
  destruct (find_first_split _ _ _ _ _ F) as (w & -> & Hw & _).
  exfalso. eapply (find_first_none _ _ _ H (x +:+ pre) w rest Hw).
  rewrite str_app_assoc. reflexivity.
Qed.

Lemma rstrip_empty c b :
  Str.rstrip (String c b) = EmptyString ->
  Str.isspace c = true /\ Str.rstrip b = EmptyString.
Proof.
  simpl. destruct (Str.rstrip b); [|discriminate].
  destruct (Str.isspace c); [split; reflexivity|discriminate].
Qed.

Lemma rstrip_empty_lstrip b w :
  Str.rstrip b = EmptyString -> Str.lstrip (b +:+ w) = Str.lstrip w.
Proof.
  induction b as [|c b IH]; intros H; [reflexivity|].
  apply rstrip_empty in H as [Hc Hb]. rewrite str_app_cons. cbn [Str.lstrip].
  rewrite Hc. apply IH. exact Hb.
Qed.

Lemma close_prefix_lstrip x rest :
  strip_prefix Re.lit fence_close x = Some rest -> Str.lstrip x = x.
Proof.
  destruct x as [|c x]; [discriminate|]. simpl. unfold Re.lit at 1.
  destruct (Ascii.eqb_spec c "`"%char) as [->|]; [|discriminate].
  reflexivity.
Qed.

Lemma find_close_closes s b rest :
  find_first Re.lit fence_close s = Some (b, rest) ->
  Str.rstrip b = EmptyString -> closes s = true.
Proof.
  intros F Hb. destruct (find_first_split _ _ _ _ _ F) as (w & -> & Hw & _).
  unfold closes. rewrite (rstrip_empty_lstrip _ _ Hb).
  pose proof (strip_prefix_app _ _ _ rest Hw) as E.
  rewrite (close_prefix_lstrip _ _ E), E. reflexivity.
Qed.

Lemma rstrip_cons c b :
  Str.isspace c = false \/ Str.rstrip b <> EmptyString ->
  Str.rstrip (String c b) = String c (Str.rstrip b).
Proof.
  intros H. simpl. destruct (Str.rstrip b) eqn:E; [|reflexivity].
  destruct H as [->|H]; [reflexivity|congruence].
Qed.

(** [capture] stops where the closing fence first occurs, less the
    whitespace before it. *)
Lemma capture_find s :
  capture s
  = (fun br => Str.rstrip (fst br)) <$> find_first Re.lit fence_close s.
Proof.
  induction s as [|c s IH]; [reflexivity|].
  rewrite capture_unfold. cbn [find_first].
  destruct (strip_prefix Re.lit fence_close (String c s)) as [u|] eqn:E.
  - unfold closes. rewrite (close_prefix_lstrip _ _ E), E. reflexivity.
  - destruct (Str.isspace c) eqn:Hc.
    + rewrite (closes_space c s Hc).
      destruct (closes s) eqn:Ecl.
      * rewrite capture_unfold, Ecl in IH.
        destruct (find_first Re.lit fence_close s) as [[b rest]|]; [|discriminate].
        simpl in IH. injection IH as IH. simpl. rewrite <- IH, Hc. reflexivity.
      * rewrite IH.
        destruct (find_first Re.lit fence_close s) as [[b rest]|] eqn:F;
          [|reflexivity].
        cbn [fmap option_fmap option_map fst]. rewrite rstrip_cons; [reflexivity|].
        right. intros Hb. rewrite (find_close_closes _ _ _ F Hb) in Ecl.
        discriminate.
    + unfold closes. cbn [Str.lstrip]. rewrite Hc, E, IH.
      destruct (find_first Re.lit fence_close s) as [[b rest]|]; [|reflexivity].
      cbn [fmap option_fmap option_map fst]. rewrite rstrip_cons; [reflexivity|].
      left. exact Hc.
Qed.

Lemma capture_lstrip_find u :
  capture (Str.lstrip u)
  = (fun br => Str.strip (fst br)) <$> find_first Re.lit fence_close u.
Proof.
  induction u as [|c u IH]; [reflexivity|]. cbn [Str.lstrip].
  destruct (Str.isspace c) eqn:Hc.
  - rewrite IH. cbn [find_first]. rewrite (strip_prefix_space c u Hc).
    destruct (find_first Re.lit fence_close u) as [[b rest]|]; [|reflexivity].
    cbn [fmap option_fmap option_map fst]. unfold Str.strip. cbn [Str.lstrip].
    rewrite Hc. reflexivity.
  - rewrite capture_find. cbn [find_first].
    destruct (strip_prefix Re.lit fence_close (String c u)); [reflexivity|].
    destruct (find_first Re.lit fence_close u) as [[b rest]|]; [|reflexivity].
    cbn [fmap option_fmap option_map fst]. unfold Str.strip.
    rewrite (lstrip_fixed c b Hc). reflexivity.
Qed.

Lemma str_app_split a : forall b c d,
  a +:+ b = c +:+ d -> (String.length a <= String.length c)%nat ->
  exists m, c = a +:+ m /\ b = m +:+ d.
Proof.
  induction a as [|x a IH]; intros b c d H Hl.
  - exists c. split; [reflexivity|exact H].
  - destruct c as [|y c]; [simpl in Hl; lia|].
    rewrite !str_app_cons in H. injection H as <- H.
    destruct (IH b c d H) as (m & -> & ->); [simpl in Hl; lia|].
    exists m. split; reflexivity.
Qed.

Lemma str_app_inv a : forall b c d,
  a +:+ b = c +:+ d -> String.length a = String.length c -> a = c /\ b = d.
Proof.
  induction a as [|x a IH]; intros b c d H Hl.
  - destruct c; [split; [reflexivity|exact H]|discriminate].
  - destruct c as [|y c]; [discriminate|].
    rewrite !str_app_cons in H. injection H as <- H.
    destruct (IH b c d H) as [-> ->]; [simpl in Hl; lia|].
    split; reflexivity.
Qed.

Lemma word_match_length cls p : forall w,
  word_match cls p w = true -> String.length w = String.length p.
Proof.
  unfold word_match. induction p as [|a p IH]; intros w H.
  - simpl in H. destruct w; [reflexivity|discriminate].
  - destruct w as [|c w]; [discriminate|]. simpl in *.
    destruct (cls a c); [|discriminate]. f_equal. apply IH. exact H.
Qed.

Lemma word_match_lit p : forall w, word_match Re.lit p w = true <-> w = p.
Proof.
  unfold word_match. induction p as [|a p IH]; intros w.
  - simpl. destruct w; split; congruence.
  - destruct w as [|c w]; [split; discriminate|]. simpl. unfold Re.lit at 1.
    destruct (Ascii.eqb_spec c a) as [->|Hne].
    + rewrite IH. split; congruence.
    + split; congruence.
Qed.

Lemma word_match_ci p : forall w,
  word_match Re.lit_ci p w = true <-> Str.lower w = Str.lower p.
Proof.
  unfold word_match. induction p as [|a p IH]; intros w.
  - simpl. destruct w; split; simpl; congruence.
  - destruct w as [|c w]; [split; discriminate|]. simpl. unfold Re.lit_ci at 1.
    destruct (Ascii.eqb_spec (Str.lower_char c) (Str.lower_char a)) as [->|Hne].
    + rewrite IH. split; congruence.
    + split; congruence.
Qed.

Lemma search_fence text :
  Re.search fence_re text
  = (fun body => Some (Str.strip body)) <$> fenced_content text.
Proof.
  induction text as [|c t IH].
  - reflexivity.
  - cbn [Re.search]. rewrite matches_fence. unfold fenced_content.
    cbn [find_first].
    destruct (strip_prefix Re.lit_ci fence_open (String c t)) as [u|] eqn:E.
    + rewrite capture_lstrip_find.
      destruct (find_first Re.lit fence_close u) as [[b rest]|] eqn:F;
        [reflexivity|].
      cbn [fmap option_fmap option_map]. rewrite IH. unfold fenced_content.
      destruct (find_first Re.lit_ci fence_open t) as [[pre rest']|] eqn:G;
        [|reflexivity].
      apply strip_prefix_split in E as (w & Hs & _ & Hw).
      destruct (find_first_split _ _ _ _ _ G) as (w' & Ht & _ & Hw').
      assert (Hm : exists m, u = m +:+ rest').
      { destruct (str_app_split w u (String c pre +:+ w') rest') as (m & _ & Hm).
        - rewrite <- Hs, Ht, str_app_assoc, str_app_cons. reflexivity.
        - rewrite str_length_app, Hw, Hw'. simpl. lia.
        - exists m. exact Hm. }
      destruct Hm as [m ->].
      rewrite (find_first_suffix_none _ _ _ _ F). reflexivity.
    + rewrite IH. unfold fenced_content.
      destruct (find_first Re.lit_ci fence_open t) as [[pre rest]|]; reflexivity.
Qed.

Lemma extract_fenced text :
  text <> EmptyString ->
  extract_json_from_gemini_response text
  = Some (Str.strip match fenced_content text with
                    | Some body => body
                    | None => text
                    end).
Proof.
  intros Hne. unfold extract_json_from_gemini_response.
  apply nonempty_true in Hne. rewrite Hne. cbn [negb].
  rewrite search_fence. destruct (fenced_content text) as [body|]; [|reflexivity].
  cbn [fmap option_fmap option_map]. rewrite strip_idem. reflexivity.
Qed.

Lemma fenced_content_first text pre label body post :
  first_fence text pre label body post -> fenced_content text = Some body.
Proof.
  intros (Ht & Hl & Hfirst & Hclose). unfold fenced_content.
  assert (Hlab : word_match Re.lit_ci fence_open label = true)
    by (apply word_match_ci; exact Hl).
  destruct (find_first Re.lit_ci fence_open text) as [[pre1 rest1]|] eqn:F.
  - destruct (find_first_split _ _ _ _ _ F) as (w1 & Ht1 & Hw1 & Hlen1).
    pose proof (find_first_first _ _ _ _ _ F pre label _ Ht Hlab) as Hle.
    pose proof (Hfirst pre1 w1 rest1 Ht1 (proj1 (word_match_ci _ _) Hw1)) as Hge.
    rewrite Ht in Ht1.
    destruct (str_app_inv _ _ _ _ Ht1 ltac:(lia)) as [<- Hrest].
    destruct (str_app_inv _ _ _ _ Hrest) as [<- <-].
    { rewrite Hlen1. apply word_match_length with (cls := Re.lit_ci). exact Hlab. }
    assert (Hcl : word_match Re.lit fence_close fence_close = true) by reflexivity.
    destruct (find_first Re.lit fence_close (body +:+ fence_close +:+ post))
      as [[b1 p1]|] eqn:G.
    + destruct (find_first_split _ _ _ _ _ G) as (w & Hb & Hw & _).
      apply word_match_lit in Hw. subst w.
      pose proof (find_first_first _ _ _ _ _ G body fence_close post eq_refl Hcl)
        as Hle1.
      pose proof (Hclose b1 p1 Hb) as Hge1.
      destruct (str_app_inv _ _ _ _ Hb ltac:(lia)) as [<- _]. reflexivity.
    + exfalso. eapply (find_first_none _ _ _ G body fence_close post Hcl).
      reflexivity.
  - exfalso. eapply (find_first_none _ _ _ F pre label _ Hlab). exact Ht.
Qed.

Lemma fenced_content_none text :
  (forall pre label body post,
      Str.lower label = fence_open ->
      text <> pre +:+ label +:+ body +:+ fence_close +:+ post) ->
  fenced_content text = None.
Proof.
  intros Hno. unfold fenced_content.
  destruct (find_first Re.lit_ci fence_open text) as [[pre rest]|] eqn:F;
    [|reflexivity].
  destruct (find_first Re.lit fence_close rest) as [[body post]|] eqn:G;
    [|reflexivity].
  destruct (find_first_split _ _ _ _ _ F) as (label & Ht & Hl & _).
  destruct (find_first_split _ _ _ _ _ G) as (w & Hr & Hw & _).
  apply word_match_lit in Hw. subst w. apply word_match_ci in Hl.
  exfalso. apply (Hno pre label body post Hl). rewrite Ht, Hr. reflexivity.
Qed.

Lemma first_fence_exists text :
  (exists pre label body post,
      Str.lower label = fence_open
      /\ text = pre +:+ label +:+ body +:+ fence_close +:+ post) ->
  exists pre label body post, first_fence text pre label body post.
Proof.
  intros (pre & label & body & post & Hl & Ht).
  assert (Hlab : word_match Re.lit_ci fence_open label = true)
    by (apply word_match_ci; exact Hl).
  assert (Hcl : word_match Re.lit fence_close fence_close = true) by reflexivity.
  destruct (find_first Re.lit_ci fence_open text) as [[pre1 rest1]|] eqn:F.
  2:{ exfalso. eapply (find_first_none _ _ _ F pre label _ Hlab). exact Ht. }
  destruct (find_first_split _ _ _ _ _ F) as (w1 & Ht1 & Hw1 & Hlen1).
  pose proof (find_first_first _ _ _ _ _ F pre label _ Ht Hlab) as Hle.
  assert (Hm : exists m, rest1 = m +:+ body +:+ fence_close +:+ post).
  { destruct (str_app_split (pre1 +:+ w1) rest1 (pre +:+ label)
                (body +:+ fence_close +:+ post)) as (m & _ & Hm).
    - rewrite !str_app_assoc, <- Ht1, <- Ht. reflexivity.
    - rewrite !str_length_app, Hlen1.
      rewrite (word_match_length _ _ _ Hlab). lia.
    - exists m. exact Hm. }
  destruct Hm as [m Hm].
  destruct (find_first Re.lit fence_close rest1) as [[b1 p1]|] eqn:G.
  2:{ exfalso. eapply (find_first_none _ _ _ G (m +:+ body) fence_close post Hcl).
      rewrite Hm, str_app_assoc. reflexivity. }
  destruct (find_first_split _ _ _ _ _ G) as (w & Hb & Hw & _).
  apply word_match_lit in Hw. subst w.
  exists pre1, w1, b1, p1. split; [rewrite Ht1, Hb; reflexivity|].
  split; [exact (proj1 (word_match_ci fence_open w1) Hw1)|]. split.
  - intros pre' label' rest' Ht' Hl'.
    eapply (find_first_first _ _ _ _ _ F); [exact Ht'|].
    apply word_match_ci. exact Hl'.
  - intros body' post' Heq.
    eapply (find_first_first _ _ _ _ _ G); [|exact Hcl].
    rewrite Hb. exact Heq.
Qed.

Lemma first_fence_computed text pre rest body post :
  find_first Re.lit_ci fence_open text = Some (pre, rest) ->
  find_first Re.lit fence_close rest = Some (body, post) ->
  exists label, first_fence text pre label body post.
Proof.
  intros F G.
  destruct (find_first_split _ _ _ _ _ F) as (label & Ht & Hl & _).
  destruct (find_first_split _ _ _ _ _ G) as (w & Hr & Hw & _).
  apply word_match_lit in Hw. subst w.
  exists label. split; [rewrite Ht, Hr; reflexivity|].
  split; [exact (proj1 (word_match_ci fence_open label) Hl)|]. split.
  - intros pre' label' rest' Ht' Hl'.
    eapply (find_first_first _ _ _ _ _ F); [exact Ht'|].
    apply word_match_ci. exact Hl'.
  - intros body' post' Heq.
    apply (find_first_first _ _ _ _ _ G body' fence_close post');
      [rewrite Hr; exact Heq|reflexivity].
Qed.

Lemma no_fence_computed text :
  fenced_content text = None ->
  forall pre label body post,
    Str.lower label = fence_open ->
    text <> pre +:+ label +:+ body +:+ fence_close +:+ post.
Proof.
  intros Hnone pre label body post Hl Ht.
  destruct (first_fence_exists text) as (pre1 & label1 & body1 & post1 & Hf).
  { exists pre, label, body, post. split; assumption. }
  rewrite (fenced_content_first _ _ _ _ _ Hf) in Hnone. discriminate.
Qed.

(** C3, as the code has it.  The empty input gives [None].  For any other
    input: when it holds a fenced block labelled JSON, that is the label
    (three backquotes and the letters json in either case) followed somewhere
    by three backquotes, the result is the text between the first such label
    and the first three backquotes after it, trimmed; when it holds none, the
    result is the whole input trimmed.  An input that holds such a block has
    a first label and a first closing fence. *)
Theorem extract_json_from_gemini_response_spec (text : string) :
  (text = EmptyString -> extract_json_from_gemini_response text = None)
  /\ (forall pre label body post,
        first_fence text pre label body post ->
        extract_json_from_gemini_response text = Some (Str.strip body))
  /\ (text <> EmptyString ->
      (forall pre label body post,
          Str.lower label = fence_open ->
          text <> pre +:+ label +:+ body +:+ fence_close +:+ post) ->
      extract_json_from_gemini_response text = Some (Str.strip text))
  /\ ((exists pre label body post,
          Str.lower label = fence_open
          /\ text = pre +:+ label +:+ body +:+ fence_close +:+ post) ->
      exists pre label body post, first_fence text pre label body post).
Proof.
  split; [intros ->; reflexivity|]. split; [|split].
  - intros pre label body post Hf.
    assert (Hne : text <> EmptyString).
    { destruct Hf as (-> & Hl & _). destruct pre; [|discriminate].
      destruct label; [discriminate Hl|discriminate]. }
    rewrite (extract_fenced text Hne), (fenced_content_first _ _ _ _ _ Hf).
    reflexivity.
  - intros Hne Hno. rewrite (extract_fenced text Hne), (fenced_content_none _ Hno).
    reflexivity.
  - apply first_fence_exists.
Qed.

(** A fenced answer gives the JSON inside the fence; an answer without a
    fence is returned as it is. *)
Lemma extract_json_from_gemini_response_witness :
  extract_json_from_gemini_response
    ("```json" +:+ newline +:+ Str.dq "{'a':1}" +:+ newline +:+ "```")
  = Some (Str.dq "{'a':1}")
  /\ extract_json_from_gemini_response (Str.dq "{'a':1}")
     = Some (Str.dq "{'a':1}").
Proof.
  split.
  - destruct (first_fence_computed
                ("```json" +:+ newline +:+ Str.dq "{'a':1}" +:+ newline +:+ "```")
                EmptyString
                (newline +:+ Str.dq "{'a':1}" +:+ newline +:+ "```")
                (newline +:+ Str.dq "{'a':1}" +:+ newline)
                EmptyString eq_refl eq_refl) as [label Hf].
    apply (proj1 (proj2 (extract_json_from_gemini_response_spec _))
             _ _ _ _ Hf).
  - apply (proj1 (proj2 (proj2 (extract_json_from_gemini_response_spec
                                  (Str.dq "{'a':1}"))))).
    + discriminate.
    + apply no_fence_computed. reflexivity.
Defined.

(** Against C3 as stated.  For the empty input the result is [None], not the
    (empty) trimmed input. *)
Lemma extract_json_from_gemini_response_empty :
  extract_json_from_gemini_response EmptyString = None
  /\ extract_json_from_gemini_response EmptyString
     <> Some (Str.strip EmptyString).
Proof. split; [reflexivity|discriminate]. Qed.

(** ** C4: [key_skills] is a list in the stored profile *)

Lemma normalize_key_skills_spec returned profile :
  normalize_key_skills returned = Ok profile ->
  exists d d',
    returned = VDict d /\ profile = VDict d'
    /\ (forall k, k <> "key_skills" -> dict_get k d' = dict_get k d)
    /\ match dict_get "key_skills" d with
       | Some (VStr s) =>
           dict_get "key_skills" d' = Some (VList (map VStr (comma_items s)))
       | Some (VList l) =>
           d' = d /\ dict_get "key_skills" d' = Some (VList l)
       | _ => dict_get "key_skills" d' = Some (VList [])
       end.
Proof.
  unfold normalize_key_skills.
  destruct returned as [| | | | |l|d]; try discriminate.
  cbn [py_get mbind result_bind].
  intros H. exists d.
  destruct (dict_get "key_skills" d) as [ks|] eqn:E.
  - destruct ks; cbn [py_setitem] in H; injection H as <-; eexists;
      (split; [reflexivity|]); (split; [reflexivity|]);
      try (split; [intros k Hk; apply dict_get_set_ne; congruence
                  |apply dict_get_set_eq]).
    + split; [intros k Hk; apply dict_get_set_ne; congruence|].
      rewrite dict_get_set_eq. unfold comma_items.
      rewrite map_map. reflexivity.
    + split; [reflexivity|]. split; [reflexivity|exact E].
  - cbn [py_setitem] in H. injection H as <-. eexists.
    split; [reflexivity|]. split; [reflexivity|].
    split; [intros k Hk; apply dict_get_set_ne; congruence
           |apply dict_get_set_eq].
Qed.

Section ProfileFacts.

Variable json_loads : string -> option value.
Variable py_error_text : exn_kind -> string.
Variable DOCX_AVAILABLE : bool.
Variable models_loaded : bool.

Lemma parse_profile_ok ai_text profile :
  parse_profile json_loads ai_text = Ok profile ->
  exists cleaned returned,
    extract_json_from_gemini_response ai_text = Some cleaned
    /\ json_loads cleaned = Some returned
    /\ normalize_key_skills returned = Ok profile.
Proof.
  unfold parse_profile. intros H.
  destruct (extract_json_from_gemini_response ai_text) as [cleaned|];
    [|discriminate].
  destruct (Str.nonempty cleaned); [|discriminate].
  destruct (json_loads cleaned) as [returned|] eqn:E; [|discriminate].
  exists cleaned, returned. repeat split; assumption.
Qed.

Lemma upload_resume_ok (sessions : gmap string dict)
    (header : option string) (resume : option upload) (e : env) body :
  let session_id := match header with Some h => h | None => uuid4 e end in
  reply (upload_resume json_loads py_error_text DOCX_AVAILABLE models_loaded
           sessions header resume e) = Response 200 body ->
  exists ai_text calls profile,
    generate_content_with_gemini json_loads (ai e) 3 = (Some ai_text, calls)
    /\ parse_profile json_loads ai_text = Ok profile
    /\ upload_resume json_loads py_error_text DOCX_AVAILABLE models_loaded
         sessions header resume e
       = {| reply :=
              Response 200
                (VDict [("message", VStr "Resume processed successfully");
                          ("candidate_profile", profile);
                          ("session_id", VStr session_id)]);
            store :=
              <[session_id :=
                  dict_set "candidate_profile" profile
                    (fst (get_or_create_session sessions session_id))]>
                (snd (get_or_create_session sessions session_id));
            ai_calls := calls |}.
Proof.
  intros session_id. unfold upload_resume, reply_200, jsonify.
  fold session_id.
  destruct (get_or_create_session sessions session_id) as [session sessions'].
  repeat case_match; simpl; try discriminate.
  all: intros _; ok_inj; eexists _, _, _;
    (split; [eapply call_gemini_ok; eassumption|]);
    (split; [eassumption|reflexivity]).
Qed.

(** C4.  When resume intake succeeds, the profile stored in the session (and
    returned in the reply) is the object the model returned with [key_skills]
    made a list and every other field untouched: a string is split on commas
    into its trimmed, non-empty items; a list is kept as it is; anything
    else, also a missing field, becomes the empty list.  For a string the
    items are what is left of the pieces between the commas (no piece holds
    a comma, and the pieces joined by commas are the string) once the
    whitespace at the two ends of each piece is taken off, a piece of nothing
    but whitespace giving no item. *)
Theorem upload_resume_key_skills_list (sessions : gmap string dict)
    (header : option string) (resume : option upload) (e : env) (body : value) :
  let session_id := match header with Some h => h | None => uuid4 e end in
  let out := upload_resume json_loads py_error_text DOCX_AVAILABLE
               models_loaded sessions header resume e in
  reply out = Response 200 body ->
  exists ai_text cleaned returned stored session,
    fst (generate_content_with_gemini json_loads (ai e) 3) = Some ai_text
    /\ extract_json_from_gemini_response ai_text = Some cleaned
    /\ json_loads cleaned = Some (VDict returned)
    /\ store out !! session_id = Some session
    /\ dict_get "candidate_profile" session = Some (VDict stored)
    /\ dict_get "candidate_profile"
         match body with VDict fields => fields | _ => [] end
       = Some (VDict stored)
    /\ (exists l, dict_get "key_skills" stored = Some (VList l))
    /\ (forall k, k <> "key_skills" ->
                  dict_get k stored = dict_get k returned)
    /\ match dict_get "key_skills" returned with
       | Some (VStr s) =>
           dict_get "key_skills" stored = Some (VList (map VStr (comma_items s)))
           /\ String.concat "," (Str.split "," s) = s
           /\ Forall (fun p => has_char "," p = false) (Str.split "," s)
           /\ Forall (fun x => x <> EmptyString /\ trimmed x) (comma_items s)
           /\ skills_of (Str.split "," s) (comma_items s)
       | Some (VList l) => stored = returned
       | _ => dict_get "key_skills" stored = Some (VList [])
       end.
Proof.
  intros session_id out Hok. subst out.
  destruct (upload_resume_ok sessions header resume e body Hok)
    as (ai_text & calls & profile & Hgen & Hparse & Hout).
  fold session_id in Hout.
  destruct (parse_profile_ok _ _ Hparse) as (cleaned & returned & Hex & Hj & Hn).
  destruct (normalize_key_skills_spec _ _ Hn) as (d & d' & -> & -> & Hother & Hks).
  rewrite Hout in Hok. simpl in Hok. injection Hok as <-.
  exists ai_text, cleaned, d, d',
    (dict_set "candidate_profile" (VDict d')
       (fst (get_or_create_session sessions session_id))).
  rewrite Hgen, Hout. simpl.
  split; [reflexivity|]. split; [exact Hex|]. split; [exact Hj|].
  split; [apply lookup_insert_eq|]. split; [apply dict_get_set_eq|].
  split; [reflexivity|].
  split.
  { destruct (dict_get "key_skills" d) as [[| | | | | |]|];
      try (eexists; exact Hks); try (eexists; apply Hks). }
  split; [exact Hother|].
  destruct (dict_get "key_skills" d) as [[| | | | s | l |]|]; try exact Hks.
  - split; [exact Hks|]. split; [apply (join_split "," s)|].
    split; [apply split_pieces|].
    split; [apply comma_items_trimmed|apply comma_items_skills].
  - apply Hks.
Qed.

End ProfileFacts.

Lemma upload_resume_key_skills_list_witness :
  let file := {| filename := Some "cv.PDF";
                 as_pdf := PdfPages [PageText (Some "Ada Lovelace, engineer")];
                 as_docx := DocxRaises |} in
  let e :=
    world "u1" "t"
      (stub [Str.dq "{'name':'Ada','key_skills':'Python, Go, Rust'}"]) in
  let out := upload_resume json_loads_sample error_text_sample true true
               ∅ None (Some file) e in
  exists session,
    store out !! "u1" = Some session
    /\ dict_get "candidate_profile" session
       = Some (VDict [("name", VStr "Ada");
                      ("key_skills", VList [VStr "Python"; VStr "Go"; VStr "Rust"])]).
Proof.
  intros file e out.
  assert (Hok : reply out
                = Response 200
                    (VDict [("message", VStr "Resume processed successfully");
                              ("candidate_profile",
                               VDict [("name", VStr "Ada");
                                      ("key_skills",
                                       VList [VStr "Python"; VStr "Go"; VStr "Rust"])]);
                              ("session_id", VStr "u1")]))
    by reflexivity.
  destruct (upload_resume_key_skills_list json_loads_sample error_text_sample
              true true ∅ None (Some file) e _ Hok)
    as (ai_text & cleaned & returned & stored & session
        & _ & _ & _ & Hs & Hp & Hbody & _).
  exists session. split; [exact Hs|].
  rewrite Hp. simpl in Hbody. symmetry. exact Hbody.
Defined.

(** The three shapes of the specification: a comma-separated string, a list
    and a number. *)
Example normalize_key_skills_examples :
  normalize_key_skills (VDict [("key_skills", VStr "Python, Go, Rust")])
  = Ok (VDict [("key_skills", VList [VStr "Python"; VStr "Go"; VStr "Rust"])])
  /\ normalize_key_skills (VDict [("key_skills", VList [VStr "Python"])])
     = Ok (VDict [("key_skills", VList [VStr "Python"])])
  /\ normalize_key_skills (VDict [("key_skills", VInt 42)])
     = Ok (VDict [("key_skills", VList [])]).
Proof. repeat split. Qed.

(** ** C5: the derived score *)

Lemma round_half_even_nearest m e :
  0 < m -> e < 0 ->
  2 * Z.abs (Num.round_half_even m e * 2 ^ (- e) - m) <= 2 ^ (- e).
Proof.
  intros Hm He. unfold Num.round_half_even.
  destruct (Z.leb_spec 0 e) as [|_]; [lia|].
  assert (Hd : 0 < 2 ^ (- e)) by (apply Z.pow_pos_nonneg; lia).
  set (d := 2 ^ (- e)) in *.
  pose proof (Z.div_mod m d ltac:(lia)) as Hdm.
  pose proof (Z.mod_pos_bound m d Hd) as Hr.
  destruct (Z.compare_spec (2 * (m mod d)) d) as [Heq|Hlt|Hgt].
  - destruct (Z.even (m / d)); nia.
  - nia.
  - nia.
Qed.

Lemma round_float_nearest f k :
  Num.round_float f = Ok k -> nearest_integer f k.
Proof.
  destruct f as [s|s| |s m e]; simpl; try discriminate.
  - intros [= <-]. reflexivity.
  - intros [= <-]. destruct (Z.leb_spec 0 e) as [Hle|Hlt].
    + unfold Num.round_half_even.
      destruct (Z.leb_spec 0 e) as [_|]; [|lia]. destruct s; simpl; lia.
    + pose proof (round_half_even_nearest (Zpos m) e ltac:(lia) Hlt) as H.
      destruct s; unfold cond_Zopp; [|exact H].
      revert H. generalize (Num.round_half_even (Z.pos m) e).
      generalize (2 ^ (- e)). intros d k' H. lia.
Qed.

Lemma score_exact_upto_300 :
  forallb (fun i => score_exact (Z.of_nat i)) (seq 0 301) = true.
Proof. vm_compute. reflexivity. Qed.

Lemma score_exact_range n : 0 <= n <= 300 -> score_exact n = true.
Proof.
  intros Hn. pose proof score_exact_upto_300 as H.
  rewrite forallb_forall in H.
  rewrite <- (Z2Nat.id n) by lia. apply H. apply in_seq. lia.
Qed.

Lemma mean_of_three_ints t c r mean score :
  0 <= t <= 100 -> 0 <= c <= 100 -> 0 <= r <= 100 ->
  mean_of_three (VInt t) (VInt c) (VInt r) = Ok (VFloat mean) ->
  Num.round_float mean = Ok score ->
  Z.abs (3 * score - (t + c + r)) <= 1.
Proof.
  intros Ht Hc Hr. unfold mean_of_three. cbn [py_add Num.as_num mbind result_bind].
  unfold py_truediv. cbn [Num.as_num].
  pose proof (score_exact_range (t + c + r) ltac:(lia)) as Hex.
  unfold score_exact in Hex.
  destruct (Num.int_truediv (t + c + r) 3) as [f|]; [|discriminate].
  cbn [mbind result_bind]. intros [= <-] Hround. rewrite Hround in Hex.
  apply Z.leb_le. exact Hex.
Qed.

Lemma same_float_eq f g : same_float f g = true -> f = g.
Proof.
  destruct f as [s|s| |s m e], g as [t|t| |t n e']; simpl; try discriminate;
    try reflexivity.
  - intros H. apply Bool.eqb_prop in H. congruence.
  - intros H. apply Bool.eqb_prop in H. congruence.
  - intros H. apply andb_true_iff in H as [H He].
    apply andb_true_iff in H as [Hs Hm].
    apply Bool.eqb_prop in Hs. apply Pos.eqb_eq in Hm. apply Z.eqb_eq in He.
    congruence.
Qed.

Lemma sum_exact_upto :
  forallb (fun a =>
    forallb (fun b =>
      sum_exact false true (Z.of_nat a) (Z.of_nat b)
      && sum_exact true false (Z.of_nat a) (Z.of_nat b)
      && sum_exact true true (Z.of_nat a) (Z.of_nat b))
      (seq 0 101)) (seq 0 201) = true.
Proof. vm_compute. reflexivity. Qed.

Lemma py_add_whole fa fb a b :
  0 <= a <= 200 -> 0 <= b <= 100 ->
  py_add (shape fa a) (shape fb b) = Ok (shape (fa || fb) (a + b)).
Proof.
  intros Ha Hb.
  destruct (fa || fb) eqn:Hf;
    [|destruct fa, fb; try discriminate; reflexivity].
  pose proof sum_exact_upto as H.
  rewrite forallb_forall in H.
  specialize (H (Z.to_nat a) ltac:(apply in_seq; lia)).
  rewrite forallb_forall in H.
  specialize (H (Z.to_nat b) ltac:(apply in_seq; lia)).
  rewrite !Z2Nat.id in H by lia.
  apply andb_true_iff in H as [H H3]. apply andb_true_iff in H as [H1 H2].
  assert (Hsum : sum_exact fa fb a b = true)
    by (destruct fa, fb; first [assumption|discriminate]).
  unfold sum_exact in Hsum. rewrite Hf in Hsum.
  destruct (py_add (shape fa a) (shape fb b)) as [[| | z | f | | |]|];
    try discriminate.
  apply same_float_eq in Hsum. subst f. reflexivity.
Qed.

Lemma third_exact_upto :
  forallb (fun n => third_exact false (Z.of_nat n)
                    && third_exact true (Z.of_nat n)) (seq 0 301) = true.
Proof. vm_compute. reflexivity. Qed.

Lemma third_exact_range fn n : 0 <= n <= 300 -> third_exact fn n = true.
Proof.
  intros Hn. pose proof third_exact_upto as H.
  rewrite forallb_forall in H.
  specialize (H (Z.to_nat n) ltac:(apply in_seq; lia)).
  rewrite Z2Nat.id in H by lia.
  apply andb_true_iff in H as [H1 H2]. destruct fn; assumption.
Qed.

Lemma whole_shape v n : whole v n -> exists as_float, v = shape as_float n.
Proof. intros [->| ->]; [exists false|exists true]; reflexivity. Qed.

(** Whole sub-scores between 0 and 100, however written: the score is the
    integer nearest to their exact mean. *)
Lemma mean_of_three_whole t c r ti ci ri mean score :
  whole t ti -> whole c ci -> whole r ri ->
  0 <= ti <= 100 -> 0 <= ci <= 100 -> 0 <= ri <= 100 ->
  mean_of_three t c r = Ok (VFloat mean) ->
  Num.round_float mean = Ok score ->
  Z.abs (3 * score - (ti + ci + ri)) <= 1.
Proof.
  intros Ht Hc Hr Hti Hci Hri.
  apply whole_shape in Ht as [ft ->]. apply whole_shape in Hc as [fc ->].
  apply whole_shape in Hr as [fr ->].
  unfold mean_of_three.
  rewrite (py_add_whole ft fc ti ci) by lia. cbn [mbind result_bind].
  rewrite (py_add_whole (ft || fc) fr (ti + ci) ri) by lia.
  cbn [mbind result_bind].
  pose proof (third_exact_range (ft || fc || fr) (ti + ci + ri) ltac:(lia))
    as Hex.
  unfold third_exact in Hex. intros Hq Hround. rewrite Hq in Hex.
  cbn [py_round] in Hex. rewrite Hround in Hex. cbn [mbind result_bind] in Hex.
  apply Z.leb_le. exact Hex.
Qed.

Lemma py_truediv_float a b v :
  py_truediv a b = Ok v -> exists f, v = VFloat f.
Proof.
  unfold py_truediv. destruct (Num.as_num a) as [[x|f]|]; [| |discriminate].
  - destruct (Num.int_truediv x b); [|discriminate]. intros [= <-]. eexists. reflexivity.
  - destruct (b =? 0); [discriminate|].
    destruct (Num.float_of_int b); [|discriminate]. intros [= <-]. eexists. reflexivity.
Qed.

Lemma overall_score_ok evaluation score :
  overall_score evaluation = Ok score ->
  exists d mean k,
    evaluation = VDict d
    /\ mean_of_three (sub_score d "technicalScore")
         (sub_score d "communicationScore") (sub_score d "relevanceScore")
       = Ok (VFloat mean)
    /\ Num.round_float mean = Ok k
    /\ score = VInt k.
Proof.
  unfold overall_score.
  destruct evaluation as [| | | | | |d]; try discriminate.
  cbn [py_get mbind result_bind]. fold (sub_score d "technicalScore").
  fold (sub_score d "communicationScore"). fold (sub_score d "relevanceScore").
  intros H.
  apply bind_ok in H as (tc & Htc & H).
  cbn [py_get mbind result_bind] in H. fold (sub_score d "relevanceScore") in H.
  apply bind_ok in H as (total & Htotal & H).
  apply bind_ok in H as (q & Hq & H).
  destruct (py_truediv_float _ _ _ Hq) as [mean ->].
  cbn [py_round] in H. apply bind_ok in H as (k & Hk & [= <-]).
  exists d, mean, k. split; [reflexivity|]. split; [|split; [exact Hk|reflexivity]].
  unfold mean_of_three. rewrite Htc. cbn [mbind result_bind].
  rewrite Htotal. exact Hq.
Qed.

Section AnswerFacts.

Variable json_loads : string -> option value.
Variable py_error_text : exn_kind -> string.
Variable models_loaded : bool.

Lemma record_answer_ok session question_id question_obj response_text data
    ai_text evaluation session' :
  record_answer json_loads session question_id question_obj response_text
    data ai_text = Ok (evaluation, session') ->
  exists returned score l question tags duration,
    parse_ai_json json_loads ai_text = Ok returned
    /\ overall_score returned = Ok score
    /\ py_setitem returned "score" score = Ok evaluation
    /\ dict_get "interview_responses" session = Some (VList l)
    /\ session'
       = dict_set "interview_responses"
           (VList (l ++ [response_record question_id question tags
                           response_text duration evaluation]))
           session.
Proof.
  unfold record_answer. intros H.
  apply bind_ok in H as (returned & Hparse & H).
  apply bind_ok in H as (score & Hscore & H).
  apply bind_ok in H as (ev & Hset & H).
  apply bind_ok in H as (responses & Hresp & H).
  apply bind_ok in H as (l & Hl & H).
  apply bind_ok in H as (question & _ & H).
  apply bind_ok in H as (tags & _ & H).
  apply bind_ok in H as (duration & _ & H).
  injection H as <- <-.
  destruct responses; try discriminate. injection Hl as ->.
  simpl in Hresp.
  destruct (dict_get "interview_responses" session) as [x|] eqn:E;
    [|discriminate].
  injection Hresp as ->.
  exists returned, score, l, question, tags, duration.
  repeat split; assumption.
Qed.

Lemma submit_answer_ok (sessions : gmap string dict) (header : option string)
    (body : option value) (e : env) (reply_body : value) :
  reply (submit_answer json_loads py_error_text models_loaded sessions header
           body e) = Response 200 reply_body ->
  exists session_id session question_id question_obj response_text ai_text
         calls evaluation session',
    lookup_session sessions header = Some (session_id, session)
    /\ generate_content_with_gemini json_loads (ai e) 3 = (Some ai_text, calls)
    /\ record_answer json_loads session question_id question_obj
         response_text (json_body body) ai_text = Ok (evaluation, session')
    /\ submit_answer json_loads py_error_text models_loaded sessions header
         body e
       = {| reply := Response 200
                       (VDict [("message", VStr "Answer evaluated");
                                 ("evaluation", evaluation)]);
            store := <[session_id := session']> sessions;
            ai_calls := calls |}.
Proof.
  unfold submit_answer, submit_answer_try, reply_200, jsonify.
  repeat case_match; simpl; try discriminate.
  all: intros _; ok_inj; subst; eexists _, _, _, _, _, _, _, _, _;
    (split; [reflexivity|]);
    (split; [apply (call_gemini_ok json_loads models_loaded); eassumption|]);
    (split; [eassumption|reflexivity]).
Qed.

(** C5, as the code has it.  When an answer is accepted, the evaluation
    stored with the response (and returned in the reply) is the object the
    model returned with [score] added.  When the three sub-scores, a missing
    one counting as 0, are whole numbers between 0 and 100, written as
    integers or as floats, [score] is the integer nearest to their exact
    mean.  For other sub-scores it is what [round] makes of the binary64
    number Python computes for [(t + c + r) / 3], an integer nearest to that
    number and not always to the exact mean. *)
Theorem submit_answer_score (sessions : gmap string dict)
    (header : option string) (body : option value) (e : env)
    (reply_body : value) :
  let out := submit_answer json_loads py_error_text models_loaded sessions
               header body e in
  reply out = Response 200 reply_body ->
  exists session_id session ai_text returned mean score l session'
         question_id question tags response_text duration,
    let t := sub_score returned "technicalScore" in
    let c := sub_score returned "communicationScore" in
    let r := sub_score returned "relevanceScore" in
    let evaluation := VDict (dict_set "score" (VInt score) returned) in
    lookup_session sessions header = Some (session_id, session)
    /\ fst (generate_content_with_gemini json_loads (ai e) 3) = Some ai_text
    /\ parse_ai_json json_loads ai_text = Ok (VDict returned)
    /\ mean_of_three t c r = Ok (VFloat mean)
    /\ nearest_integer mean score
    /\ (forall ti ci ri,
          whole t ti -> whole c ci -> whole r ri ->
          0 <= ti <= 100 -> 0 <= ci <= 100 -> 0 <= ri <= 100 ->
          nearest_to (ti + ci + ri) 3 score
          /\ Z.abs (3 * score - (ti + ci + ri)) <= 1)
    /\ reply_body = VDict [("message", VStr "Answer evaluated");
                             ("evaluation", evaluation)]
    /\ dict_get "interview_responses" session = Some (VList l)
    /\ store out !! session_id = Some session'
    /\ dict_get "interview_responses" session'
       = Some (VList (l ++ [response_record question_id question tags
                              response_text duration evaluation])).
Proof.
  intros out Hok. subst out.
  destruct (submit_answer_ok sessions header body e reply_body Hok)
    as (session_id & session & question_id & question_obj & response_text
        & ai_text & calls & evaluation & session' & Hlook & Hgen & Hrec & Hout).
  destruct (record_answer_ok _ _ _ _ _ _ _ _ Hrec)
    as (returned & score & l & question & tags & duration
        & Hparse & Hscore & Hset & Hl & ->).
  destruct (overall_score_ok _ _ Hscore) as (d & mean & k & -> & Hmean & Hk & ->).
  cbn [py_setitem] in Hset. injection Hset as <-.
  rewrite Hout in Hok. simpl in Hok. injection Hok as <-.
  exists session_id, session, ai_text, d, mean, k, l,
    (dict_set "interview_responses"
       (VList (l ++ [response_record question_id question tags response_text
                       duration (VDict (dict_set "score" (VInt k) d))]))
       session),
    question_id, question, tags, response_text, duration.
  rewrite Hgen, Hout. simpl.
  split; [exact Hlook|]. split; [reflexivity|]. split; [exact Hparse|].
  split; [exact Hmean|]. split; [apply round_float_nearest; exact Hk|].
  split.
  { intros ti ci ri Ht Hc Hr Hti Hci Hri.
    pose proof (mean_of_three_whole _ _ _ _ _ _ _ _ Ht Hc Hr Hti Hci Hri
                  Hmean Hk) as Hexact.
    split; [unfold nearest_to; lia|exact Hexact]. }
  split; [reflexivity|]. split; [exact Hl|].
  split; [apply lookup_insert_eq|apply dict_get_set_eq].
Qed.

End AnswerFacts.

Lemma submit_answer_score_witness :
  let questions := VList [VDict [("id", VStr "q1"); ("question", VStr "Why?")]] in
  let sessions : gmap string dict :=
    <["s1" := dict_set "interview_questions" questions new_session]> ∅ in
  let e := world "u" "t" (stub [complete_evaluation_text]) in
  let out := submit_answer json_loads_sample error_text_sample true sessions
               (Some "s1")
               (Some (VDict [("question_id", VStr "q1");
                             ("response_text", VStr "Because.");
                             ("duration", VStr "1:30")])) e in
  exists evaluation,
    reply out = Response 200 (VDict [("message", VStr "Answer evaluated");
                                       ("evaluation", VDict evaluation)])
    /\ dict_get "score" evaluation = Some (VInt 80).
Proof.
  intros questions sessions e out.
  assert (Hok : reply out
                = Response 200
                    (VDict [("message", VStr "Answer evaluated");
                              ("evaluation",
                               VDict [("technicalScore", VInt 80);
                                      ("communicationScore", VInt 70);
                                      ("relevanceScore", VInt 90);
                                      ("feedback", VStr "ok");
                                      ("score", VInt 80)])]))
    by reflexivity.
  destruct (submit_answer_score json_loads_sample error_text_sample true
              sessions (Some "s1") _ e _ Hok)
    as (session_id & session & ai_text & returned & mean & score & l & session'
        & question_id & question & tags & response_text & duration
        & _ & _ & _ & _ & _ & _ & Hbody & _).
  exists (dict_set "score" (VInt score) returned).
  split; [rewrite Hok, Hbody; reflexivity|].
  injection Hbody as Hbody. rewrite <- Hbody. reflexivity.
Defined.

(** Against C5 as stated.  For the sub-scores 80, 70 and
    1.5000000000000009 the exact mean is
    [(150 * 2^52 + 6755399441055748) / (3 * 2^52)], a little above 50.5, so
    the nearest integer is 51; the score stored is 50, because the sum is
    rounded to 151.5 before it is divided and 50.5 is rounded to the even
    neighbour. *)
Lemma submit_answer_score_inexact :
  let questions := VList [VDict [("id", VStr "q1"); ("question", VStr "Why?")]] in
  let sessions : gmap string dict :=
    <["s1" := dict_set "interview_questions" questions new_session]> ∅ in
  let out := submit_answer json_loads_inexact error_text_sample true sessions
               (Some "s1")
               (Some (VDict [("question_id", VStr "q1");
                             ("response_text", VStr "Because.")]))
               (world "u" "t" (stub [inexact_evaluation_text])) in
  reply out
  = Response 200
      (VDict [("message", VStr "Answer evaluated");
              ("evaluation",
               VDict [("technicalScore", VInt 80);
                      ("communicationScore", VInt 70);
                      ("relevanceScore", VFloat just_above_one_and_a_half);
                      ("score", VInt 50)])])
  /\ ~ nearest_to (150 * 2 ^ 52 + 6755399441055748) (3 * 2 ^ 52) 50
  /\ nearest_to (150 * 2 ^ 52 + 6755399441055748) (3 * 2 ^ 52) 51.
Proof.
  intros questions sessions out. split; [reflexivity|].
  unfold nearest_to. split; [intros H; vm_compute in H; apply H|vm_compute];
    discriminate + reflexivity.
Qed.

(** ** C6: the interview duration of the assessment *)

Lemma split_one sep a : has_char sep a = false -> Str.split sep a = [a].
Proof.
  induction a as [|c a IH]; simpl; [reflexivity|].
  destruct (Ascii.eqb c sep); simpl; [discriminate|].
  intros H. rewrite (IH H). reflexivity.
Qed.

Lemma split_two sep a b :
  has_char sep a = false -> has_char sep b = false ->
  Str.split sep (a +:+ String sep b) = [a; b].
Proof.
  intros Ha Hb. induction a as [|c a IH].
  - rewrite str_app_nil_l. simpl. rewrite Ascii.eqb_refl, (split_one sep b Hb).
    reflexivity.
  - rewrite str_app_cons. simpl in *.
    destruct (Ascii.eqb c sep); simpl in Ha; [discriminate|].
    rewrite (IH Ha). reflexivity.
Qed.

Lemma duration_seconds_spec limit r :
  match duration_seconds limit r with
  | Ok secs => secs
  | Raise _ => 0
  end = response_seconds limit r.
Proof.
  unfold duration_seconds, response_seconds.
  destruct r as [| | | | | |d]; try reflexivity.
  cbn [py_get mbind result_bind].
  destruct (dict_get "duration" d) as [duration|]; [|reflexivity].
  destruct (py_truthy duration) eqn:Ht.
  - destruct duration as [| | | |s| |]; try reflexivity.
    unfold minutes_seconds.
    destruct (Str.split ":" s) as [|mm [|ss [|x rest]]]; try reflexivity.
    unfold py_int, duration_field.
    destruct (IntLiteral.parse mm);
      destruct (exceeds_limit limit (IntLiteral.count_digits mm));
      try reflexivity;
      destruct (IntLiteral.parse ss);
      destruct (exceeds_limit limit (IntLiteral.count_digits ss));
      reflexivity.
  - destruct duration as [|b|z|f|s|l|d']; try reflexivity; simpl in Ht.
    + destruct s; [reflexivity|discriminate].
Qed.

Lemma sum_durations_ok limit items : forall acc total,
  sum_durations limit items acc = Ok total ->
  total = acc + total_seconds limit items.
Proof.
  induction items as [|r items IH]; intros acc total; simpl.
  - intros [= <-]. unfold total_seconds. simpl. lia.
  - intros H. apply bind_ok in H as (u & _ & H). apply IH in H.
    rewrite H. pose proof (duration_seconds_spec limit r) as Hr.
    unfold total_seconds. simpl. fold (total_seconds limit items).
    destruct (duration_seconds limit r); lia.
Qed.

(** The text of a duration, when both numbers can be written. *)
Lemma format_duration_ok limit total text :
  format_duration limit total = Ok text ->
  text = decimal (total / 60) +:+ "m " +:+ decimal (total mod 60) +:+ "s"
  /\ exceeds_limit limit (IntLiteral.count_digits (decimal (total / 60)))
     = false.
Proof.
  unfold format_duration, py_str_int. intros H.
  destruct (exceeds_limit limit (IntLiteral.count_digits (decimal (total / 60))));
    [discriminate|].
  cbn [mbind result_bind] in H.
  destruct (exceeds_limit limit
              (IntLiteral.count_digits (decimal (total mod 60))));
    [discriminate|].
  injection H as <-. split; reflexivity.
Qed.

Section AssessmentFacts.

Variable json_loads : string -> option value.
Variable py_error_text : exn_kind -> string.
Variable models_loaded : bool.

Lemma get_assessment_ok (sessions : gmap string dict) (header : option string)
    (e : env) (reply_body : value) :
  reply (get_assessment json_loads py_error_text models_loaded sessions header e)
  = Response 200 reply_body ->
  exists session_id session responses items total text ai_text calls returned
         assessment,
    lookup_session sessions header = Some (session_id, session)
    /\ dict_get "interview_responses" session = Some responses
    /\ py_truthy responses = true
    /\ py_iter responses = Ok items
    /\ sum_durations (max_str_digits e) items 0 = Ok total
    /\ format_duration (max_str_digits e) total = Ok text
    /\ generate_content_with_gemini json_loads (ai e) 3 = (Some ai_text, calls)
    /\ parse_ai_json json_loads ai_text = Ok returned
    /\ py_setitem returned "interviewDuration" (VStr text) = Ok assessment
    /\ get_assessment json_loads py_error_text models_loaded sessions header e
       = {| reply := Response 200
                       (VDict [("message", VStr "Assessment generated");
                               ("assessment", assessment)]);
            store :=
              <[session_id :=
                  dict_set "interview_assessment" assessment
                    (dict_set "interview_end_time" (VStr (now e)) session)]>
                (<[session_id :=
                     dict_set "interview_end_time" (VStr (now e)) session]>
                   sessions);
            ai_calls := calls |}.
Proof.
  unfold get_assessment.
  destruct (lookup_session sessions header) as [[session_id session]|];
    [|discriminate].
  cbn [py_getitem].
  destruct (dict_get "interview_responses" session) as [responses|] eqn:Hresp;
    [|discriminate].
  destruct (py_truthy responses) eqn:Ht; [|discriminate]. cbn [negb].
  destruct (py_iter responses) as [items|] eqn:Hit; [|discriminate].
  cbn [mbind result_bind].
  destruct (sum_durations (max_str_digits e) items 0) as [total|] eqn:Hsum;
    [|discriminate].
  cbn [mbind result_bind].
  destruct (format_duration (max_str_digits e) total) as [text|] eqn:Hfmt;
    [|discriminate].
  cbn [mbind result_bind].
  destruct (dict_get "candidate_profile" _); [|discriminate].
  cbn [mbind result_bind].
  destruct (json_dumps e v); [|discriminate].
  cbn [mbind result_bind]. unfold get_assessment_try, reply_200, jsonify.
  destruct (call_gemini json_loads models_loaded e) as [[[ai_text|]|] calls]
    eqn:Hcall; try discriminate.
  destruct (Str.nonempty ai_text); [|discriminate]. cbn [negb].
  destruct (parse_ai_json json_loads ai_text) as [returned|] eqn:Hparse;
    [|discriminate].
  cbn [mbind result_bind].
  destruct (py_setitem returned _ _) as [assessment|] eqn:Hset; [|discriminate].
  destruct (jsonify_raises e _); [discriminate|].
  intros _. exists session_id, session, responses, items, total, text, ai_text,
    calls, returned, assessment.
  repeat (split; [first [reflexivity | assumption
                        | apply (call_gemini_ok _ _ _ _ _ Hcall)]|]).
  reflexivity.
Qed.

(** C6, as the code has it.  When assessment generation succeeds, the stored
    assessment (also returned in the reply) is the object the model returned
    with [interviewDuration] replaced by the computed one and every other
    field untouched.  The computed duration formats, as minutes and seconds,
    the sum over the responses of [60 * minutes + seconds] for a duration
    that reads as [minutes:seconds], and of nothing for any other.  A
    duration reads so when it is two integer literals around one colon and
    neither has more digits than the interpreter converts between text and
    integers (4300 unless configured, never fewer than 640); with more
    digits it counts for nothing, like a malformed one. *)
Theorem get_assessment_duration (sessions : gmap string dict)
    (header : option string) (e : env) (reply_body : value) :
  let out := get_assessment json_loads py_error_text models_loaded sessions
               header e in
  let limit := max_str_digits e in
  reply out = Response 200 reply_body ->
  exists session_id session responses items ai_text returned session',
    let total := total_seconds limit items in
    let interview_duration :=
      decimal (total / 60) +:+ "m " +:+ decimal (total mod 60) +:+ "s" in
    let assessment :=
      dict_set "interviewDuration" (VStr interview_duration) returned in
    lookup_session sessions header = Some (session_id, session)
    /\ dict_get "interview_responses" session = Some responses
    /\ py_truthy responses = true
    /\ py_iter responses = Ok items
    /\ fst (generate_content_with_gemini json_loads (ai e) 3) = Some ai_text
    /\ parse_ai_json json_loads ai_text = Ok (VDict returned)
    /\ reply_body = VDict [("message", VStr "Assessment generated");
                           ("assessment", VDict assessment)]
    /\ store out !! session_id = Some session'
    /\ dict_get "interview_assessment" session' = Some (VDict assessment)
    /\ dict_get "interviewDuration" assessment = Some (VStr interview_duration)
    /\ (forall k, k <> "interviewDuration" ->
                  dict_get k assessment = dict_get k returned)
    /\ (forall mm ss m s,
          has_char ":" mm = false -> has_char ":" ss = false ->
          IntLiteral.parse mm = Some m -> IntLiteral.parse ss = Some s ->
          minutes_seconds limit (VStr (mm +:+ ":" +:+ ss))
          = if exceeds_limit limit (IntLiteral.count_digits mm)
               || exceeds_limit limit (IntLiteral.count_digits ss)
            then None else Some (m, s))
    /\ (forall digits,
          exceeds_limit limit digits = true
          <-> 640 < digits /\ 0 < limit < digits).
Proof.
  intros out limit Hok. subst out.
  destruct (get_assessment_ok sessions header e reply_body Hok)
    as (session_id & session & responses & items & total & text & ai_text
        & calls & returned & assessment & Hlook & Hresp & Ht & Hit & Hsum
        & Hfmt & Hgen & Hparse & Hset & Hout).
  apply sum_durations_ok in Hsum. rewrite Z.add_0_l in Hsum. subst total.
  apply format_duration_ok in Hfmt as [-> _].
  destruct returned as [| | | | | |returned]; try discriminate.
  cbn [py_setitem] in Hset. injection Hset as <-.
  rewrite Hout in Hok. simpl in Hok. injection Hok as <-.
  eexists session_id, session, responses, items, ai_text, returned, _.
  rewrite Hgen, Hout. simpl.
  split; [exact Hlook|]. split; [exact Hresp|]. split; [exact Ht|].
  split; [exact Hit|]. split; [reflexivity|]. split; [exact Hparse|].
  split; [reflexivity|]. split; [apply lookup_insert_eq|].
  split; [apply dict_get_set_eq|]. split; [apply dict_get_set_eq|].
  split; [intros k Hk; apply dict_get_set_ne; congruence|].
  split.
  - intros mm ss m s Hmm Hss Hm Hs. unfold minutes_seconds, duration_field.
    change (mm +:+ ":" +:+ ss) with (mm +:+ String ":"%char ss).
    rewrite (split_two _ _ _ Hmm Hss), Hm, Hs.
    destruct (exceeds_limit limit (IntLiteral.count_digits mm));
      destruct (exceeds_limit limit (IntLiteral.count_digits ss)); reflexivity.
  - intros digits. unfold exceeds_limit.
    rewrite !andb_true_iff, !Z.ltb_lt. lia.
Qed.

End AssessmentFacts.

(** Durations 1:30, 0:45 and a malformed one add up to 135 seconds; the
    duration the model proposed is replaced by "2m 15s" and its other field
    is kept. *)
Lemma get_assessment_duration_witness :
  let session :=
    dict_set "interview_responses"
      (VList [sample_response (VStr "1:30"); sample_response (VStr "0:45");
              sample_response (VStr "bad")])
      new_session in
  let sessions : gmap string dict := <["s1" := session]> ∅ in
  let e := world "u" "t"
             (stub [Str.dq "{'overallScore':75,'interviewDuration':'40m 0s'}"]) in
  let out := get_assessment json_loads_sample error_text_sample true sessions
               (Some "s1") e in
  exists session',
    store out !! "s1" = Some session'
    /\ dict_get "interview_assessment" session'
       = Some (VDict [("overallScore", VInt 75);
                      ("interviewDuration", VStr "2m 15s")]).
Proof.
  intros session sessions e out.
  assert (Hok : reply out
                = Response 200
                    (VDict [("message", VStr "Assessment generated");
                            ("assessment",
                             VDict [("overallScore", VInt 75);
                                    ("interviewDuration", VStr "2m 15s")])]))
    by reflexivity.
  destruct (get_assessment_duration json_loads_sample error_text_sample true
              sessions (Some "s1") e _ Hok)
    as (session_id & session0 & responses & items & ai_text & returned
        & session' & Hlook & _ & _ & _ & _ & _ & Hbody & Hs & Ha & _).
  injection Hlook as <- _.
  exists session'. split; [exact Hs|].
  rewrite Ha. injection Hbody as Hbody. do 2 f_equal. symmetry. exact Hbody.
Defined.

(** Against C6 as stated.  A duration of 4301 ones, a colon and 30 is
    minutes and seconds, two integer literals around one colon; yet with the
    usual limit of 4300 digits [int] refuses the minutes, the inner [try]
    swallows the [ValueError], and the assessment answers 200 with a total
    of "0m 0s". *)
Lemma get_assessment_duration_long_field :
  let session :=
    dict_set "interview_responses"
      (VList [sample_response (VStr (long_number +:+ ":30"))]) new_session in
  let sessions : gmap string dict := <["s1" := session]> ∅ in
  let e := world "u" "t"
             (stub [Str.dq "{'overallScore':75,'interviewDuration':'40m 0s'}"]) in
  let out := get_assessment json_loads_sample error_text_sample true sessions
               (Some "s1") e in
  has_char ":" long_number = false
  /\ (exists m, IntLiteral.parse long_number = Some m /\ 0 < m)
  /\ IntLiteral.parse "30" = Some 30
  /\ reply out
     = Response 200
         (VDict [("message", VStr "Assessment generated");
                 ("assessment",
                  VDict [("overallScore", VInt 75);
                         ("interviewDuration", VStr "0m 0s")])]).
Proof.
  intros session sessions e out.
  split; [vm_compute; reflexivity|].
  split; [|split; [reflexivity|vm_compute; reflexivity]].
  assert (H : match IntLiteral.parse long_number with
              | Some z => 0 <? z
              | None => false
              end = true) by (vm_compute; reflexivity).
  destruct (IntLiteral.parse long_number) as [m|]; [|discriminate H].
  exists m. split; [reflexivity|]. apply Z.ltb_lt. exact H.
Qed.

(** ** C7: the session store *)

Section StoreFacts.

Variable json_loads : string -> option value.
Variable py_error_text : exn_kind -> string.
Variable DOCX_AVAILABLE : bool.
Variable models_loaded : bool.

(** No handler removes a session. *)
Lemma handlers_keep_sessions (sessions : gmap string dict)
    (header : option string) (resume : option upload) (body : option value)
    (e : env) (id : string) :
  is_Some (sessions !! id) ->
  is_Some (store (upload_resume json_loads py_error_text DOCX_AVAILABLE
                    models_loaded sessions header resume e) !! id)
  /\ is_Some (store (setup_interview json_loads py_error_text models_loaded
                       sessions header body e) !! id)
  /\ is_Some (store (submit_answer json_loads py_error_text models_loaded
                       sessions header body e) !! id)
  /\ is_Some (store (get_assessment json_loads py_error_text models_loaded
                       sessions header e) !! id).
Proof.
  intros H. repeat apply conj.
  - unfold upload_resume, get_or_create_session, reply_200, jsonify.
    repeat case_match; simpl;
      repeat match goal with
             | Heq : (_, _) = (_, _) |- _ => injection Heq as <- <-
             end;
      repeat apply insert_keeps; exact H.
  - unfold setup_interview, setup_interview_try, reply_200, jsonify.
    repeat case_match; simpl; repeat apply insert_keeps; exact H.
  - unfold submit_answer, submit_answer_try, reply_200, jsonify.
    repeat case_match; simpl; repeat apply insert_keeps; exact H.
  - unfold get_assessment, get_assessment_try, reply_200, jsonify.
    repeat case_match; simpl; repeat apply insert_keeps; exact H.
Qed.

(** C7, as the code has it.  [get_or_create_session] returns the stored
    record when there is one and leaves the store alone; otherwise it stores
    and returns a new record with [candidate_profile] null, no questions, no
    responses, and null start and end times, and with no
    [interview_assessment] entry at all.  The record is in the store
    afterwards, the other sessions are untouched, asking again returns the
    same record without allocating, and no request handler ever removes a
    session from the store. *)
Theorem get_or_create_session_spec (sessions : gmap string dict)
    (session_id : string) :
  let session := fst (get_or_create_session sessions session_id) in
  let sessions' := snd (get_or_create_session sessions session_id) in
  (forall s, sessions !! session_id = Some s -> session = s /\ sessions' = sessions)
  /\ (sessions !! session_id = None ->
      session = new_session /\ sessions' = <[session_id := new_session]> sessions)
  /\ sessions' !! session_id = Some session
  /\ (forall other, other <> session_id -> sessions' !! other = sessions !! other)
  /\ get_or_create_session sessions' session_id = (session, sessions')
  /\ new_session
     = [ ("candidate_profile", VNone); ("interview_questions", VList []);
         ("interview_responses", VList []); ("interview_start_time", VNone);
         ("interview_end_time", VNone) ]
  /\ dict_get "interview_assessment" new_session = None
  /\ (forall sessions0 header resume body e,
        is_Some (sessions0 !! session_id) ->
        is_Some (store
                   (upload_resume json_loads py_error_text DOCX_AVAILABLE
                      models_loaded sessions0 header resume e) !! session_id)
        /\ is_Some (store
                      (setup_interview json_loads py_error_text models_loaded
                         sessions0 header body e) !! session_id)
        /\ is_Some (store
                      (submit_answer json_loads py_error_text models_loaded
                         sessions0 header body e) !! session_id)
        /\ is_Some (store
                      (get_assessment json_loads py_error_text models_loaded
                         sessions0 header e) !! session_id)).
Proof.
  intros session sessions'.
  destruct (get_or_create_session_facts sessions session_id)
    as (H1 & H2 & H3 & H4 & H5).
  repeat apply conj; try assumption; try reflexivity.
  intros sessions0 header resume body e Hin.
  apply handlers_keep_sessions. exact Hin.
Qed.

End StoreFacts.

Lemma get_or_create_session_witness :
  fst (get_or_create_session (∅ : gmap string dict) "s1") = new_session
  /\ snd (get_or_create_session (∅ : gmap string dict) "s1")
     = <["s1" := new_session]> ∅.
Proof.
  apply (proj1 (proj2 (get_or_create_session_spec json_loads_sample
                         error_text_sample true true ∅ "s1"))).
  apply lookup_empty.
Defined.

(** Against C7 as stated, on the last field it lists: the record of a new
    session has no [interview_assessment] entry, so the field is absent
    rather than null. *)
Lemma new_session_lacks_assessment :
  dict_get "interview_assessment"
    (fst (get_or_create_session (∅ : gmap string dict) "s1")) = None
  /\ dict_get "interview_assessment"
       (fst (get_or_create_session (∅ : gmap string dict) "s1")) <> Some VNone
  /\ map fst (fst (get_or_create_session (∅ : gmap string dict) "s1"))
     = ["candidate_profile"; "interview_questions"; "interview_responses";
        "interview_start_time"; "interview_end_time"].
Proof.
  unfold get_or_create_session. rewrite lookup_empty. simpl.
  split; [reflexivity|]. split; [discriminate|reflexivity].
Qed.

(** ** C8: an answer for an unknown question *)

Section UnknownQuestion.

Variable json_loads : string -> option value.
Variable py_error_text : exn_kind -> string.
Variable models_loaded : bool.



End UnknownQuestion.



(** ** C9: resume intake creates the session before it validates *)

Section UploadFacts.

Variable json_loads : string -> option value.
Variable py_error_text : exn_kind -> string.
Variable DOCX_AVAILABLE : bool.
Variable models_loaded : bool.

(** What [upload_resume] does to the store: the session of the request is
    there afterwards and no other session is touched.  Unless the reply is
    a 200 the store is the one [get_or_create_session] left, but for one
    case: the profile was obtained and stored, and then the reply could not
    be serialised. *)
Lemma upload_resume_store (sessions : gmap string dict)
    (header : option string) (resume : option upload) (e : env) :
  let session_id := match header with Some h => h | None => uuid4 e end in
  let out := upload_resume json_loads py_error_text DOCX_AVAILABLE
               models_loaded sessions header resume e in
  let created := get_or_create_session sessions session_id in
  (exists session, store out !! session_id = Some session)
  /\ (forall other, other <> session_id ->
                    store out !! other = sessions !! other)
  /\ ((forall body, reply out <> Response 200 body) ->
      store out = snd created
      \/ exists profile k,
           jsonify_raises e
             (VDict [("message", VStr "Resume processed successfully");
                     ("candidate_profile", profile);
                     ("session_id", VStr session_id)]) = Some k
           /\ reply out = unexpected_error py_error_text (PyError k)
           /\ store out
              = <[session_id :=
                    dict_set "candidate_profile" profile (fst created)]>
                  (snd created))
  /\ (status (reply out) = Some 400 -> store out = snd created).
Proof.
  intros session_id out created. subst out created.
  unfold upload_resume, reply_200, jsonify. fold session_id.
  pose proof (get_or_create_session_facts sessions session_id) as Hg.
  destruct (get_or_create_session sessions session_id) as [session sessions'].
  simpl in Hg. destruct Hg as (_ & _ & Hin & Hother & _).
  repeat case_match; ok_inj; simpl;
    (split; [|split; [|split]]);
    try (eexists; first [exact Hin | apply lookup_insert_eq]);
    try (intros other Hne; rewrite ?lookup_insert_ne by congruence;
         apply Hother; exact Hne);
    try (intros _; left; reflexivity);
    try (intros _; reflexivity);
    try discriminate.
  all: intros Hfail;
    first [ right; eexists _, _; split; [eassumption|split; reflexivity]
          | exfalso; eapply Hfail; reflexivity ].
Qed.

(** C9, as the code has it.  Whatever becomes of a resume upload, the
    session named by the header (or by the fresh uuid) is in the store when
    the call returns.  A request that is refused with a 400 (no file, no
    file name, unsupported format, no text) changes nothing else, and
    neither does one that ends in a 500 because the model gave no usable
    profile; what such a request created is a new session without a
    profile.  The one failure that leaves more is a reply that cannot be
    serialised: by then the profile is stored, and the request ends in a
    500.  When the identifier is not the empty string, a later
    [setup_interview] with it gets past the session check; if the session
    has no candidate profile the setup leaves the store alone and, for a
    body that is a JSON object or absent, is refused for the missing
    profile. *)
Theorem upload_resume_creates_session (sessions : gmap string dict)
    (header : option string) (resume : option upload) (e : env) :
  let session_id := match header with Some h => h | None => uuid4 e end in
  let out := upload_resume json_loads py_error_text DOCX_AVAILABLE
               models_loaded sessions header resume e in
  let created := get_or_create_session sessions session_id in
  let serialising_failed profile :=
    exists k,
      jsonify_raises e
        (VDict [("message", VStr "Resume processed successfully");
                ("candidate_profile", profile);
                ("session_id", VStr session_id)]) = Some k
      /\ reply out = unexpected_error py_error_text (PyError k) in
  (exists session, store out !! session_id = Some session)
  /\ (status (reply out) = Some 400 -> store out = snd created)
  /\ ((forall body, reply out <> Response 200 body) ->
      store out = snd created
      \/ exists profile,
           serialising_failed profile
           /\ store out
              = <[session_id :=
                    dict_set "candidate_profile" profile (fst created)]>
                  (snd created))
  /\ ((forall body, reply out <> Response 200 body) ->
      sessions !! session_id = None ->
      store out !! session_id = Some new_session
      \/ exists profile,
           serialising_failed profile
           /\ store out !! session_id
              = Some (dict_set "candidate_profile" profile new_session))
  /\ (forall session body e',
        session_id <> EmptyString ->
        store out !! session_id = Some session ->
        py_truthy (match dict_get "candidate_profile" session with
                   | Some p => p
                   | None => VNone
                   end) = false ->
        let later := setup_interview json_loads py_error_text models_loaded
                       (store out) (Some session_id) body e' in
        reply later <> invalid_session
        /\ store later = store out
        /\ ai_calls later = 0%nat
        /\ ((exists d, json_body body = VDict d) ->
            reply later
            = error_reply 400 "Position role and candidate profile are required")).
Proof.
  intros session_id out created serialising_failed.
  destruct (upload_resume_store sessions header resume e)
    as (Hin & _ & Hfail & H400).
  fold session_id in Hin, Hfail, H400. fold out in Hin, Hfail, H400.
  fold created in Hfail, H400.
  split; [exact Hin|]. split; [exact H400|].
  assert (Hcases : (forall body, reply out <> Response 200 body) ->
                   store out = snd created
                   \/ exists profile,
                        serialising_failed profile
                        /\ store out
                           = <[session_id :=
                                 dict_set "candidate_profile" profile
                                   (fst created)]> (snd created)).
  { intros Hno. destruct (Hfail Hno) as [Hsame|(profile & k & Hk & Hr & Hst)];
      [left; exact Hsame|].
    right. exists profile. split; [exists k; split; assumption|exact Hst]. }
  split; [exact Hcases|]. split.
  - intros Hno Hnew.
    destruct (get_or_create_session_facts sessions session_id)
      as (_ & Hc & Hl & _).
    destruct (Hc Hnew) as [Hfst Hsnd]. fold created in Hl, Hfst, Hsnd.
    destruct (Hcases Hno) as [Hsame|(profile & Hser & Hst)].
    + left. rewrite Hsame, Hl. f_equal. exact Hfst.
    + right. exists profile. split; [exact Hser|].
      rewrite Hst, lookup_insert_eq, Hfst. reflexivity.
  - intros session body e' Hid Hs Hprofile later. subst later.
    unfold setup_interview.
    rewrite (lookup_session_some _ _ _ Hid Hs).
    destruct (py_get (json_body body) "position_role" VNone)
      as [position_role|ex] eqn:Hget.
    + rewrite Hprofile, orb_true_r. simpl.
      repeat split; try reflexivity. discriminate.
    + simpl. repeat split; try reflexivity; try discriminate.
      intros [d Hd]. rewrite Hd in Hget. discriminate.
Qed.

End UploadFacts.

Lemma upload_resume_creates_session_witness :
  let out := upload_resume json_loads_sample error_text_sample true true
               ∅ (Some "s1") None
               (world "u" "t" (stub [])) in
  store out !! "s1" = Some new_session
  /\ reply (setup_interview json_loads_sample error_text_sample true
              (store out) (Some "s1")
              (Some (VDict [("position_role", VStr "Backend Engineer")]))
              (world "u" "t" (stub [])))
     = error_reply 400 "Position role and candidate profile are required".
Proof.
  intros out.
  pose proof (upload_resume_creates_session json_loads_sample error_text_sample
                true true ∅ (Some "s1") None
                (world "u" "t" (stub [])))
    as (_ & H400 & _ & _ & Hlater).
  assert (Hs : store out !! "s1" = Some new_session).
  { pose proof (H400 eq_refl) as Hst. unfold out. rewrite Hst.
    apply lookup_insert_eq. }
  split; [exact Hs|].
  assert (Hid : "s1" <> EmptyString) by discriminate.
  destruct (Hlater new_session
              (Some (VDict [("position_role", VStr "Backend Engineer")]))
              (world "u" "t" (stub [])) Hid Hs eq_refl)
    as (_ & _ & _ & Hreply).
  apply Hreply. eexists. reflexivity.
Defined.

(** Against C9 as stated, for the empty identifier: a request with an empty
    [X-User-Session-Id] header and no file leaves a session stored under the
    empty string, and a later [setup_interview] with that identifier is
    stopped by the session check, not by the missing profile. *)
Lemma upload_resume_empty_session_id :
  let out := upload_resume json_loads_sample error_text_sample true true
               ∅ (Some "") None
               (world "u" "t" (stub [])) in
  reply out = error_reply 400 "No resume file provided"
  /\ store out !! "" = Some new_session
  /\ reply (setup_interview json_loads_sample error_text_sample true
              (store out) (Some "")
              (Some (VDict [("position_role", VStr "Backend Engineer")]))
              (world "u" "t" (stub [])))
     = error_reply 400 "Invalid or missing session ID"
  /\ reply (setup_interview json_loads_sample error_text_sample true
              (store out) (Some "")
              (Some (VDict [("position_role", VStr "Backend Engineer")]))
              (world "u" "t" (stub [])))
     <> error_reply 400 "Position role and candidate profile are required".
Proof.
  intros out. split; [reflexivity|]. split; [apply lookup_insert_eq|].
  split; [reflexivity|discriminate].
Qed.

(** ** C10: the position survives a failed interview setup *)

Section SetupFacts.

Variable json_loads : string -> option value.
Variable py_error_text : exn_kind -> string.
Variable models_loaded : bool.

(** C10.  In a valid session whose [candidate_profile] is a non-empty
    record, a setup request with a position role that does not end in a 200
    ends in a 500 error or in an exception that escapes the handler, and
    either way the profile of this session has [position] set to the
    supplied role afterwards: the mutation is not rolled back.  When the
    model was of no use (it gave no text, or none that parses) the store
    differs from the one before in nothing else: [interview_questions],
    [interview_responses] and [interview_start_time] are as they were.  The
    one other failure is a reply that cannot be serialised; by then the
    questions, the responses and the start time have been overwritten. *)
Theorem setup_interview_position_persists (sessions : gmap string dict)
    (session_id : string) (session profile data : dict)
    (position_role : value) (e : env) :
  session_id <> EmptyString ->
  sessions !! session_id = Some session ->
  dict_get "candidate_profile" session = Some (VDict profile) ->
  profile <> [] ->
  dict_get "position_role" data = Some position_role ->
  py_truthy position_role = true ->
  (forall body,
      reply (setup_interview json_loads py_error_text models_loaded sessions
               (Some session_id) (Some (VDict data)) e) <> Response 200 body) ->
  let out := setup_interview json_loads py_error_text models_loaded sessions
               (Some session_id) (Some (VDict data)) e in
  let session' :=
    dict_set "candidate_profile"
      (VDict (dict_set "position" position_role profile)) session in
  let ai_failed :=
    forall t questions,
      fst (call_gemini json_loads models_loaded e) = Ok (Some t) ->
      parse_ai_json json_loads t <> Ok questions in
  ((exists ex, reply out = Unhandled ex)
   \/ (exists msg, reply out = error_reply 500 msg))
  /\ (exists stored,
        store out = <[session_id := stored]> sessions
        /\ dict_get "candidate_profile" stored
           = Some (VDict (dict_set "position" position_role profile)))
  /\ dict_get "position" (dict_set "position" position_role profile)
     = Some position_role
  /\ (store out = <[session_id := session']> sessions
      \/ exists questions k,
           jsonify_raises e
             (VDict [("message", VStr "Interview questions generated");
                     ("questions", questions)]) = Some k
           /\ reply out = unexpected_error py_error_text (PyError k)
           /\ store out
              = <[session_id :=
                    dict_set "interview_start_time" (VStr (now e))
                      (dict_set "interview_responses" (VList [])
                         (dict_set "interview_questions" questions session'))]>
                  sessions)
  /\ (ai_failed -> store out = <[session_id := session']> sessions)
  /\ ((forall v, jsonify_raises e v = None) ->
      store out = <[session_id := session']> sessions)
  /\ dict_get "candidate_profile" session'
     = Some (VDict (dict_set "position" position_role profile))
  /\ dict_get "interview_questions" session'
     = dict_get "interview_questions" session
  /\ dict_get "interview_responses" session'
     = dict_get "interview_responses" session
  /\ dict_get "interview_start_time" session'
     = dict_get "interview_start_time" session.
Proof.
  intros Hid Hs Hp Hpne Hrole Htrue Hfail out session' ai_failed.
  assert (Hout : ((exists ex, reply out = Unhandled ex)
                  \/ (exists msg, reply out = error_reply 500 msg))
                 /\ (store out = <[session_id := session']> sessions
                     \/ exists questions k t,
                          fst (call_gemini json_loads models_loaded e)
                          = Ok (Some t)
                          /\ parse_ai_json json_loads t = Ok questions
                          /\ jsonify_raises e
                               (VDict [("message",
                                        VStr "Interview questions generated");
                                       ("questions", questions)]) = Some k
                          /\ reply out
                             = unexpected_error py_error_text (PyError k)
                          /\ store out
                             = <[session_id :=
                                   dict_set "interview_start_time"
                                     (VStr (now e))
                                     (dict_set "interview_responses" (VList [])
                                        (dict_set "interview_questions"
                                           questions session'))]> sessions)).
  { assert (Htp : py_truthy (VDict profile) = true).
    { destruct profile; [congruence|reflexivity]. }
    assert (Hbody : json_body (Some (VDict data)) = VDict data).
    { destruct data; [discriminate|reflexivity]. }
    subst out. revert Hfail. unfold setup_interview.
    rewrite (lookup_session_some _ _ _ Hid Hs), Hbody.
    cbn [py_get]. rewrite Hrole, Hp, Htrue, Htp.
    cbn [negb orb py_setitem]. fold session'.
    match goal with
    | |- context [match ?x with Ok _ => _ | Raise _ => _ end] =>
        destruct x as [skills|ex]
    end.
    - unfold setup_interview_try, reply_200, jsonify.
      destruct (call_gemini json_loads models_loaded e) as [[[t|]|ex] calls].
      + destruct (Str.nonempty t); cbn [negb].
        * destruct (parse_ai_json json_loads t) as [questions|ex] eqn:Hparse.
          -- destruct (jsonify_raises e _) as [k|] eqn:Hk.
             ++ intros _. split; [right; eexists; reflexivity|].
                right. exists questions, k, t.
                split; [reflexivity|]. split; [exact Hparse|].
                split; [exact Hk|]. split; [reflexivity|].
                apply insert_insert_eq.
             ++ intros Hfail. exfalso. eapply Hfail. reflexivity.
          -- intros _. split; [right; eexists; reflexivity|left; reflexivity].
        * intros _. split; [right; eexists; reflexivity|left; reflexivity].
      + intros _. split; [right; eexists; reflexivity|left; reflexivity].
      + intros _. split; [right; eexists; reflexivity|left; reflexivity].
    - intros _. split; [left; eexists; reflexivity|left; reflexivity]. }
  destruct Hout as [Hreply Hstore].
  assert (Hposition : dict_get "candidate_profile" session'
                      = Some (VDict (dict_set "position" position_role profile)))
    by apply dict_get_set_eq.
  split; [exact Hreply|]. split.
  { destruct Hstore as [Hst|(questions & k & t & _ & _ & _ & _ & Hst)];
      eexists; (split; [exact Hst|]); [exact Hposition|].
    rewrite !dict_get_set_ne by discriminate. exact Hposition. }
  split; [apply dict_get_set_eq|]. split.
  { destruct Hstore as [Hst|(questions & k & t & _ & _ & Hk & Hr & Hst)];
      [left; exact Hst|].
    right. exists questions, k. repeat split; assumption. }
  split.
  { intros Hai.
    destruct Hstore as [Hst|(questions & k & t & Ht & Hparse & _)];
      [exact Hst|].
    exfalso. exact (Hai t questions Ht Hparse). }
  split.
  { intros Hser.
    destruct Hstore as [Hst|(questions & k & t & _ & _ & Hk & _)];
      [exact Hst|].
    rewrite Hser in Hk. discriminate. }
  split; [exact Hposition|].
  subst session'. repeat split; apply dict_get_set_ne; discriminate.
Qed.

End SetupFacts.

Lemma setup_interview_position_persists_witness :
  let sessions : gmap string dict :=
    <["s1" := dict_set "candidate_profile"
                (VDict [("name", VStr "Ada"); ("key_skills", VList [VStr "Go"])])
                new_session]> ∅ in
  let out := setup_interview json_loads_sample error_text_sample true sessions
               (Some "s1")
               (Some (VDict [("position_role", VStr "Backend Engineer")]))
               (world "u" "t" (fun _ => GenRaises)) in
  reply out = error_reply 500 "AI failed to generate questions."
  /\ ai_calls out = 3%nat
  /\ store out
     = <["s1" := dict_set "candidate_profile"
                   (VDict [("name", VStr "Ada"); ("key_skills", VList [VStr "Go"]);
                           ("position", VStr "Backend Engineer")])
                   new_session]> sessions.
Proof.
  intros sessions out.
  split; [reflexivity|]. split; [reflexivity|].
  destruct (setup_interview_position_persists json_loads_sample
              error_text_sample true sessions "s1"
              (dict_set "candidate_profile"
                 (VDict [("name", VStr "Ada"); ("key_skills", VList [VStr "Go"])])
                 new_session)
              [("name", VStr "Ada"); ("key_skills", VList [VStr "Go"])]
              [("position_role", VStr "Backend Engineer")]
              (VStr "Backend Engineer")
              (world "u" "t" (fun _ => GenRaises)))
    as (_ & _ & _ & _ & Hai & _).
  - discriminate.
  - apply lookup_insert_eq.
  - reflexivity.
  - discriminate.
  - reflexivity.
  - reflexivity.
  - intros body. discriminate.
  - apply Hai. intros t questions Ht. discriminate Ht.
Defined.

(** * Further properties *)

(** ** The Gemini client: what a result tells *)

Section ClientSound.

Variable json_loads : string -> option value.
Variable model : nat -> gen_outcome.

(** Among the first [n] attempts either none succeeds or there is a first
    one that does. *)
Lemma first_success (n : nat) :
  (forall k t, (k < n)%nat -> ~ attempt_succeeds json_loads (model k) t)
  \/ (exists k t, (k < n)%nat /\ attempt_succeeds json_loads (model k) t
                  /\ forall j t', (j < k)%nat ->
                                  ~ attempt_succeeds json_loads (model j) t').
Proof.
  induction n as [|n IH].
  - left. intros k t Hk. lia.
  - destruct IH as [Hnone|(k & t & Hk & Hok & Hfirst)].
    + destruct (attempt_body json_loads (model n)) eqn:E.
      * right. exists n, text. split; [lia|]. split.
        -- apply attempt_body_return. exact E.
        -- intros j t' Hj. apply Hnone. exact Hj.
      * left. intros k t Hk Hok. apply attempt_body_return in Hok.
        destruct (Nat.eq_dec k n) as [->|Hne]; [congruence|].
        apply attempt_body_return in Hok. eapply Hnone; [|exact Hok]. lia.
      * left. intros k t Hk Hok. apply attempt_body_return in Hok.
        destruct (Nat.eq_dec k n) as [->|Hne]; [congruence|].
        apply attempt_body_return in Hok. eapply Hnone; [|exact Hok]. lia.
    + right. exists k, t. split; [lia|]. split; assumption.
Qed.

(** X1.  Whatever the model does, [generate_content_with_gemini] returns.
    A text it returns is non-empty, is accepted by [json.loads], and is
    exactly what the last call made returned, no earlier call having given
    such a text; at least one call and at most [retries] calls were made.
    When it returns [None] every one of the [retries] attempts was made and
    none gave such a text (no call at all when [retries] is not positive). *)
Theorem generate_content_with_gemini_sound (retries : Z) :
  match generate_content_with_gemini json_loads model retries with
  | (Some t, calls) =>
      t <> EmptyString /\ json_loads t <> None
      /\ (1 <= calls <= Z.to_nat retries)%nat
      /\ model (calls - 1)%nat = GenResp (Some t)
      /\ forall j t', (j < calls - 1)%nat ->
                      ~ attempt_succeeds json_loads (model j) t'
  | (None, calls) =>
      calls = Z.to_nat retries
      /\ forall k t, (k < calls)%nat -> ~ attempt_succeeds json_loads (model k) t
  end.
Proof.
  unfold generate_content_with_gemini.
  destruct (first_success (Z.to_nat retries))
    as [Hnone|(k & t & Hk & Hok & Hfirst)].
  - rewrite (gemini_loop_exhausted json_loads model retries
               (Z.to_nat retries) 0 0%nat).
    + split; [reflexivity|exact Hnone].
    + rewrite Z.sub_0_r. reflexivity.
    + intros j t Hj. apply Hnone. lia.
  - rewrite (gemini_loop_first json_loads model retries k 0 0%nat t).
    + simpl. rewrite Nat.sub_0_r. destruct Hok as (Hm & Hne & Hj).
      repeat split; try assumption; lia.
    + rewrite Z.sub_0_r. exact Hk.
    + exact Hok.
    + intros j t' Hj. apply Hfirst. exact Hj.
Qed.

End ClientSound.

(** ** The API key the application starts with *)

(** X2.  The application starts with the key [k] exactly when [k] is not
    blank and is the value of GEMINI_API_KEY, or that variable is unset or
    empty and [k] is the value of GOOGLE_API_KEY.  In every other case the
    start fails with the [ValueError] of line 47; in particular a
    GEMINI_API_KEY made of whitespace stops the start even when
    GOOGLE_API_KEY holds a key. *)
Theorem api_key_spec (gemini google : option string) :
  (forall k,
      api_key gemini google = Ok k <->
      Str.strip k <> EmptyString
      /\ (gemini = Some k
          \/ ((gemini = None \/ gemini = Some EmptyString) /\ google = Some k)))
  /\ (forall ex, api_key gemini google = Raise ex ->
                 ex = AppValueError no_api_key)
  /\ (forall g, gemini = Some g -> g <> EmptyString ->
                Str.strip g = EmptyString ->
                api_key gemini google = Raise (AppValueError no_api_key)).
Proof.
  repeat apply conj.
  - intros k. unfold api_key. split.
    + destruct gemini as [g|].
      * destruct (Str.nonempty g) eqn:Hg.
        -- rewrite Hg. simpl.
           destruct (String.eqb_spec (Str.strip g) EmptyString); [discriminate|].
           intros [= <-]. split; [assumption|left; reflexivity].
        -- destruct g; [|discriminate].
           destruct google as [o|]; [|discriminate].
           destruct (Str.nonempty o); simpl; [|discriminate].
           destruct (String.eqb_spec (Str.strip o) EmptyString); [discriminate|].
           intros [= <-]. split; [assumption|].
           right. split; [right|]; reflexivity.
      * destruct google as [o|]; [|discriminate].
        destruct (Str.nonempty o); simpl; [|discriminate].
        destruct (String.eqb_spec (Str.strip o) EmptyString); [discriminate|].
        intros [= <-]. split; [assumption|].
        right. split; [left|]; reflexivity.
    + intros [Hk H].
      assert (Hne : Str.nonempty k = true).
      { destruct k; [exfalso; apply Hk; reflexivity|reflexivity]. }
      assert (Hs : String.eqb (Str.strip k) EmptyString = false).
      { apply String.eqb_neq. exact Hk. }
      destruct H as [->|[[->| ->] ->]]; simpl; rewrite ?Hne; simpl; rewrite Hs;
        reflexivity.
  - intros ex. unfold api_key. repeat case_match; congruence.
  - intros g -> Hne Hs. unfold api_key. apply nonempty_true in Hne.
    rewrite Hne. simpl. rewrite Hne, Hs. reflexivity.
Qed.

(** ** Integers written and read back *)

Lemma digits_uint (d : Decimal.uint) : forall acc,
  IntLiteral.digits acc (NilEmpty.string_of_uint d) = Some (uint_value d acc).
Proof.
  induction d; intros acc; simpl; try reflexivity; rewrite IHd;
    do 2 f_equal; lia.
Qed.

Lemma uint_value_acc (d : Decimal.uint) : forall acc,
  uint_value d (Zpos acc) = Zpos (Pos.of_uint_acc d acc).
Proof.
  induction d; intros acc; simpl; try reflexivity;
    rewrite <- IHd; f_equal; lia.
Qed.

Lemma uint_value_0 (d : Decimal.uint) :
  uint_value d 0 = Z.of_N (Pos.of_uint d).
Proof.
  induction d; simpl; try reflexivity; try exact IHd;
    match goal with
    | |- uint_value d ?n = _ =>
        change n with (Zpos (Z.to_pos n)); apply uint_value_acc
    end.
Qed.

Lemma unsigned_uint (p : positive) :
  IntLiteral.unsigned (NilZero.string_of_uint (Pos.to_uint p)) = Some (Zpos p).
Proof.
  pose proof (DecimalPos.Unsigned.of_to p) as Hp.
  apply (f_equal Z.of_N) in Hp. rewrite <- uint_value_0 in Hp. simpl in Hp.
  rewrite <- Hp.
  destruct (Pos.to_uint p) eqn:E;
    [exfalso; revert E; apply DecimalPos.Unsigned.to_uint_nonnil| ..];
    cbn [NilZero.string_of_uint NilEmpty.string_of_uint IntLiteral.unsigned];
    match goal with
    | |- context [IntLiteral.digit ?c] =>
        let v := eval vm_compute in (IntLiteral.digit c) in
        change (IntLiteral.digit c) with v
    end;
    cbv iota beta; rewrite digits_uint; reflexivity.
Qed.

Lemma string_of_uint_head (p : positive) :
  exists c s, NilZero.string_of_uint (Pos.to_uint p) = String c s
              /\ IntLiteral.digit c <> None.
Proof.
  destruct (Pos.to_uint p) eqn:E;
    [exfalso; revert E; apply DecimalPos.Unsigned.to_uint_nonnil| ..];
    eexists _, _; (split; [reflexivity|discriminate]).
Qed.

Lemma parse_str_int (z : Z) : IntLiteral.parse (decimal z) = Some z.
Proof.
  unfold decimal. destruct z as [|p|p]; [reflexivity| |].
  - cbn [Z.to_int NilZero.string_of_int].
    pose proof (unsigned_uint p) as Hu.
    destruct (string_of_uint_head p) as (c & s & Hs & Hc).
    rewrite Hs in Hu |- *. unfold IntLiteral.parse.
    assert (Hsp : IntLiteral.skip_space (String c s) = String c s
                  /\ Ascii.eqb c "+" = false /\ Ascii.eqb c "-" = false).
    { destruct c as [[|] [|] [|] [|] [|] [|] [|] [|]];
        try (exfalso; apply Hc; reflexivity); repeat split; reflexivity. }
    destruct Hsp as (-> & -> & ->). exact Hu.
  - cbn [Z.to_int NilZero.string_of_int]. unfold IntLiteral.parse.
    cbn [IntLiteral.skip_space IntLiteral.is_space].
    simpl. rewrite unsigned_uint. reflexivity.
Qed.

Lemma has_char_uint c (d : Decimal.uint) :
  IntLiteral.digit c = None ->
  has_char c (NilEmpty.string_of_uint d) = false.
Proof.
  intros Hc.
  induction d; cbn [has_char NilEmpty.string_of_uint]; try reflexivity;
    rewrite IHd, orb_false_r; apply Ascii.eqb_neq; intros <-; discriminate.
Qed.

Lemma has_char_str_int c z :
  IntLiteral.digit c = None -> c <> "-"%char ->
  has_char c (decimal z) = false.
Proof.
  intros Hc Hm. unfold decimal.
  assert (Hu : forall d, has_char c (NilZero.string_of_uint d) = false).
  { intros d. pose proof (has_char_uint c d Hc) as H.
    destruct d; try exact H.
    cbn [has_char NilZero.string_of_uint]. rewrite orb_false_r.
    apply Ascii.eqb_neq. intros <-. discriminate. }
  destruct z; cbn [Z.to_int NilZero.string_of_int]; try apply Hu.
  cbn [has_char]. rewrite Hu, orb_false_r. apply Ascii.eqb_neq. congruence.
Qed.

(** X3.  Whenever [str] writes an integer [n], [int] reads the text back as
    [n].  [str(n)] raises, a [ValueError], only when [n] has more digits than
    the interpreter converts (over 640 and over the configured limit), and
    then [int] refuses the decimal text of [n] as well.  So a response whose
    duration is the decimal text of two integers around one colon, [m:s],
    gives [60 m + s] seconds in the inner [try] of [get_assessment], whatever
    the integers (negative ones and seconds above 59 included), unless one
    of them has more digits than the limit: then the [try] ends in a
    [ValueError]. *)
Theorem duration_of_integers (limit m s : Z) (r : dict) :
  let too_long z :=
    exceeds_limit limit (IntLiteral.count_digits (decimal z)) in
  (forall text, py_str_int limit m = Ok text ->
                text = decimal m /\ py_int limit text = Ok m)
  /\ (too_long m = false ->
      py_str_int limit m = Ok (decimal m)
      /\ py_int limit (decimal m) = Ok m)
  /\ (too_long m = true ->
      py_str_int limit m = Raise (PyError ValueError)
      /\ py_int limit (decimal m) = Raise (PyError ValueError)
      /\ 640 < IntLiteral.count_digits (decimal m)
      /\ 0 < limit < IntLiteral.count_digits (decimal m))
  /\ (dict_get "duration" r = Some (VStr (decimal m +:+ ":" +:+ decimal s)) ->
      duration_seconds limit (VDict r)
      = if too_long m || too_long s then Raise (PyError ValueError)
        else Ok (m * 60 + s)).
Proof.
  intros too_long. subst too_long. cbv beta.
  split; [|split; [|split]].
  - unfold py_str_int, py_int. intros text.
    destruct (exceeds_limit limit _) eqn:E; [discriminate|].
    intros [= <-]. rewrite parse_str_int, E. split; reflexivity.
  - intros E. unfold py_str_int, py_int. rewrite parse_str_int, E.
    split; reflexivity.
  - intros E. unfold py_str_int, py_int. rewrite parse_str_int, E.
    split; [reflexivity|]. split; [reflexivity|].
    unfold exceeds_limit in E.
    apply andb_true_iff in E as [E E3]. apply andb_true_iff in E as [E1 E2].
    apply Z.ltb_lt in E1, E2, E3. lia.
  - intros Hd. unfold duration_seconds. cbn [py_get mbind result_bind].
    rewrite Hd.
    change (":" +:+ decimal s) with (String ":" (decimal s)).
    assert (Ht : py_truthy (VStr (decimal m +:+ String ":" (decimal s)))
                 = true).
    { pose proof (parse_str_int m) as H.
      destruct (decimal m); [discriminate H|reflexivity]. }
    rewrite Ht.
    rewrite (split_two ":" (decimal m) (decimal s))
      by (apply has_char_str_int; [reflexivity|discriminate]).
    unfold py_int. rewrite !parse_str_int.
    destruct (exceeds_limit limit (IntLiteral.count_digits (decimal m)));
      [reflexivity|].
    destruct (exceeds_limit limit (IntLiteral.count_digits (decimal s)));
      reflexivity.
Qed.

Lemma duration_of_integers_witness :
  py_int 4300 "-12" = Ok (-12)
  /\ duration_seconds 4300 (VDict [("duration", VStr "2:75")]) = Ok 195.
Proof.
  destruct (duration_of_integers 4300 (-12) 0 []) as (_ & Hint & _).
  destruct (duration_of_integers 4300 2 75 [("duration", VStr "2:75")])
    as (_ & _ & _ & Hd).
  split.
  - apply Hint. reflexivity.
  - rewrite Hd; reflexivity.
Defined.

(** ** Skills split and joined *)

Lemma split_app sep a b :
  has_char sep a = false ->
  Str.split sep (a +:+ String sep b) = a :: Str.split sep b.
Proof.
  intros Ha. induction a as [|c a IH].
  - rewrite str_app_nil_l. simpl. rewrite Ascii.eqb_refl. reflexivity.
  - rewrite str_app_cons. simpl in *.
    destruct (Ascii.eqb c sep); simpl in Ha; [discriminate|].
    rewrite (IH Ha). reflexivity.
Qed.

Lemma split_concat (rest : list string) : forall x,
  has_char "," x = false ->
  Forall (fun y => has_char "," y = false) rest ->
  Str.split "," (String.concat ", " (x :: rest))
  = x :: map (fun y => String " " y) rest.
Proof.
  induction rest as [|y rest IH]; intros x Hx Hrest.
  - simpl. apply split_one. exact Hx.
  - inversion Hrest as [|? ? Hy Hrest']; subst.
    change (String.concat ", " (x :: y :: rest))
      with (x +:+ String "," (String " " (String.concat ", " (y :: rest)))).
    rewrite (split_app _ _ _ Hx). f_equal.
    assert (Hc : String " " (String.concat ", " (y :: rest))
                 = String.concat ", " (String " " y :: rest)).
    { destruct rest; reflexivity. }
    rewrite Hc. apply IH; [exact Hy|exact Hrest'].
Qed.

(** X4.  The way [setup_interview] writes the skills into its prompt
    ([", ".join]) and the way [upload_resume] reads a skills string (split at
    commas, trim, drop the empty pieces) are inverse to each other on skills
    that are non-empty, carry no whitespace at either end and hold no
    comma. *)
Theorem comma_items_join (items : list string) :
  Forall (fun x => x <> EmptyString /\ trimmed x /\ has_char "," x = false)
    items ->
  comma_items (Str.join ", " items) = items.
Proof.
  intros H. unfold comma_items, Str.join.
  destruct items as [|x rest]; [reflexivity|].
  inversion H as [|? ? (Hx & [Hxl Hxr] & Hxc) Hrest]; subst.
  rewrite split_concat;
    [|exact Hxc
     |eapply List.Forall_impl; [|exact Hrest]; intros ? (_ & _ & ?); assumption].
  assert (Hsx : Str.strip x = x) by (unfold Str.strip; rewrite Hxl; exact Hxr).
  cbn [List.filter]. rewrite Hsx. apply nonempty_true in Hx. rewrite Hx.
  cbn [map]. rewrite Hsx. f_equal.
  clear -Hrest. induction rest as [|y rest IH]; [reflexivity|].
  inversion Hrest as [|? ? (Hy & [Hyl Hyr] & _) Hrest']; subst.
  assert (Hsy : Str.strip (String " " y) = y).
  { unfold Str.strip. change (Str.lstrip (String " " y)) with (Str.lstrip y).
    rewrite Hyl. exact Hyr. }
  cbn [map List.filter]. rewrite Hsy. apply nonempty_true in Hy. rewrite Hy.
  cbn [map]. rewrite Hsy. f_equal. apply IH. exact Hrest'.
Qed.

Lemma comma_items_join_witness :
  comma_items "Python, machine learning, Go"
  = ["Python"; "machine learning"; "Go"].
Proof.
  apply (comma_items_join ["Python"; "machine learning"; "Go"]).
  repeat constructor; discriminate.
Defined.

(** ** The JSON fragment, extracted twice *)









(** ** The question an answer names *)



(** ** Text extraction: DOCX files and the choice by file name *)



Lemma rev_acc_app s : forall acc,
  Str.rev_acc s acc = Str.rev_acc s EmptyString +:+ acc.
Proof.
  induction s as [|c s IH]; intros acc; simpl; [reflexivity|].
  rewrite (IH (String c acc)), (IH (String c EmptyString)).
  rewrite str_app_assoc. reflexivity.
Qed.

Lemma rev_acc_append a b :
  Str.rev_acc (a +:+ b) EmptyString
  = Str.rev_acc b EmptyString +:+ Str.rev_acc a EmptyString.
Proof.
  induction a as [|c a IH].
  - rewrite str_app_nil_l, str_app_nil_r. reflexivity.
  - rewrite str_app_cons. simpl.
    rewrite (rev_acc_app (a +:+ b)), (rev_acc_app a), IH, str_app_assoc.
    reflexivity.
Qed.

Lemma rev_acc_involutive s :
  Str.rev_acc (Str.rev_acc s EmptyString) EmptyString = s.
Proof.
  induction s as [|c s IH]; [reflexivity|]. simpl.
  rewrite (rev_acc_app s (String c EmptyString)), rev_acc_append, IH.
  reflexivity.
Qed.

Lemma prefix_spec a : forall b,
  String.prefix a b = true <-> exists r, b = a +:+ r.
Proof.
  induction a as [|c a IH]; intros b.
  - split; [intros _; exists b; reflexivity|destruct b; reflexivity].
  - destruct b as [|c' b]; simpl;
      [split; [discriminate|intros [r Hr]; discriminate]|].
    destruct (ascii_dec c c') as [->|Hne].
    + rewrite IH. split; intros [r Hr]; exists r.
      * rewrite str_app_cons, <- Hr. reflexivity.
      * rewrite str_app_cons in Hr. congruence.
    + split; [discriminate|]. intros [r Hr]. rewrite str_app_cons in Hr.
      congruence.
Qed.

(** [s.endswith(suffix)]: [s] is some text followed by [suffix]. *)
Lemma endswith_spec s suffix :
  Str.endswith s suffix = true <-> exists p, s = p +:+ suffix.
Proof.
  unfold Str.endswith. rewrite prefix_spec. split.
  - intros [r Hr]. exists (Str.rev_acc r EmptyString).
    rewrite <- (rev_acc_involutive s), Hr, rev_acc_append, rev_acc_involutive.
    reflexivity.
  - intros [p ->]. exists (Str.rev_acc p EmptyString). apply rev_acc_append.
Qed.

(** X8.  [extract_text_smart] chooses by the file name in lower case: a
    name that ends in [.pdf] is read as a PDF, one that ends in [.docx] as a
    DOCX, and any other name (a missing one included) is refused with the
    [ValueError] "Unsupported file type"; the content of the file has no
    say. *)
Theorem extract_text_smart_dispatch (available : bool) (file : upload) :
  let name := Str.lower match filename file with
                        | Some f => f
                        | None => EmptyString
                        end in
  ((exists p, name = p +:+ ".pdf") ->
   extract_text_smart available file
   = Ok (extract_text_from_pdf (as_pdf file)))
  /\ ((exists p, name = p +:+ ".docx") ->
      extract_text_smart available file
      = Ok (extract_text_from_docx available (as_docx file)))
  /\ ((forall p, name <> p +:+ ".pdf") -> (forall p, name <> p +:+ ".docx") ->
      extract_text_smart available file
      = Raise (AppValueError unsupported_file_type)).
Proof.
  intros name. unfold extract_text_smart. fold name.
  repeat apply conj.
  - intros H. apply endswith_spec in H. rewrite H. reflexivity.
  - intros H. assert (Hpdf : Str.endswith name ".pdf" = false).
    { destruct (Str.endswith name ".pdf") eqn:E; [|reflexivity].
      apply endswith_spec in E as [p' Hp']. destruct H as [p Hp].
      apply (f_equal (fun s => Str.rev_acc s EmptyString)) in Hp, Hp'.
      rewrite rev_acc_append in Hp, Hp'. rewrite Hp in Hp'. discriminate. }
    rewrite Hpdf. apply endswith_spec in H. rewrite H. reflexivity.
  - intros Hpdf Hdocx.
    destruct (Str.endswith name ".pdf") eqn:E1;
      [apply endswith_spec in E1 as [p Hp]; exfalso; exact (Hpdf p Hp)|].
    destruct (Str.endswith name ".docx") eqn:E2;
      [apply endswith_spec in E2 as [p Hp]; exfalso; exact (Hdocx p Hp)|].
    reflexivity.
Qed.

Lemma extract_text_smart_dispatch_witness :
  extract_text_smart true
    {| filename := Some "CV.final.PDF";
       as_pdf := PdfPages [PageText (Some " Ada ")];
       as_docx := DocxParagraphs ["never read"] |}
  = Ok "Ada".
Proof.
  apply (extract_text_smart_dispatch true
           {| filename := Some "CV.final.PDF";
              as_pdf := PdfPages [PageText (Some " Ada ")];
              as_docx := DocxParagraphs ["never read"] |}).
  exists "cv.final". reflexivity.
Defined.

Lemma lstrip_blank_app a b :
  Str.lstrip a = EmptyString -> Str.lstrip (a +:+ b) = Str.lstrip b.
Proof.
  induction a as [|c a IH]; intros Ha; [reflexivity|].
  rewrite str_app_cons. simpl in *.
  destruct (Str.isspace c); [exact (IH Ha)|discriminate].
Qed.

Lemma strip_blank s : Str.strip s = EmptyString <-> Str.lstrip s = EmptyString.
Proof.
  unfold Str.strip. split; [|intros ->; reflexivity].
  destruct (lstrip_head s) as [->|(c & u & -> & Hc)]; [reflexivity|].
  destruct (rstrip_head c u Hc) as [u' ->]. discriminate.
Qed.

(** Pages without text, or with whitespace only, give the empty string. *)
Lemma blank_pages pages :
  Forall (fun page => Str.strip (page_text page) = EmptyString) pages ->
  Str.strip (pdf_pages_loop pages EmptyString) = EmptyString.
Proof.
  intros Hall. apply strip_blank.
  assert (Hgen : forall text, Str.lstrip text = EmptyString ->
                              Str.lstrip (pdf_pages_loop pages text)
                              = EmptyString).
  { induction Hall as [|page pages Hpage Hall IH]; intros text Htext;
      [exact Htext|].
    destruct page as [|t]; [exact Htext|].
    cbn [pdf_pages_loop]. apply IH. rewrite (lstrip_blank_app _ _ Htext).
    apply strip_blank in Hpage. destruct t; [exact Hpage|reflexivity]. }
  apply Hgen. reflexivity.
Qed.

(** ** The handlers: what every request keeps *)

Section HandlerFacts.

Variable json_loads : string -> option value.
Variable py_error_text : exn_kind -> string.
Variable DOCX_AVAILABLE : bool.
Variable models_loaded : bool.

Lemma lookup_session_none (sessions : gmap string dict) header :
  lookup_session sessions header = None <->
  forall id, header = Some id -> id = EmptyString \/ sessions !! id = None.
Proof.
  unfold lookup_session. split.
  - intros H id ->. destruct id as [|c id]; [left; reflexivity|].
    simpl in H. right. destruct (sessions !! String c id); [discriminate|reflexivity].
  - intros H. destruct header as [id|]; [|reflexivity].
    destruct (H id eq_refl) as [->|Hn]; [reflexivity|].
    rewrite Hn. destruct (Str.nonempty id); reflexivity.
Qed.

Lemma lookup_session_inv (sessions : gmap string dict) header id session :
  lookup_session sessions header = Some (id, session) ->
  header = Some id /\ id <> EmptyString /\ sessions !! id = Some session.
Proof.
  unfold lookup_session. destruct header as [h|]; [|discriminate].
  destruct h as [|c h]; [discriminate|]. simpl.
  destruct (sessions !! String c h) eqn:E; [|discriminate].
  intros [= <- <-]. repeat split; [discriminate|exact E].
Qed.

(** X9.  [setup_interview], [submit_answer] and [get_assessment] answer
    "Invalid or missing session ID" exactly when the header is missing, is
    empty or names no session of the store, whatever else the request holds;
    then the store is left as it was and the model is not called. *)
Theorem invalid_session_rejected (sessions : gmap string dict)
    (req : request) (e : env) :
  (forall header resume, req <> UploadResume header resume) ->
  (reply (handle json_loads py_error_text DOCX_AVAILABLE models_loaded
            sessions req e) = invalid_session
   <-> forall id, request_session req e = Some id ->
                  id = EmptyString \/ sessions !! id = None)
  /\ (reply (handle json_loads py_error_text DOCX_AVAILABLE models_loaded
               sessions req e) = invalid_session ->
      store (handle json_loads py_error_text DOCX_AVAILABLE models_loaded
               sessions req e) = sessions
      /\ ai_calls (handle json_loads py_error_text DOCX_AVAILABLE
                     models_loaded sessions req e) = 0%nat).
Proof.
  intros Hreq.
  destruct req as [header resume|header body|header body|header];
    [exfalso; eapply Hreq; reflexivity| | |]; simpl;
    rewrite <- lookup_session_none.
  - unfold setup_interview, setup_interview_try, reply_200, jsonify.
    destruct (lookup_session sessions header) as [[id session]|];
      [|split; [split; reflexivity|split; reflexivity]].
    split; [split; [|discriminate]|];
      repeat case_match; simpl; discriminate.
  - unfold submit_answer, submit_answer_try, reply_200, jsonify.
    destruct (lookup_session sessions header) as [[id session]|];
      [|split; [split; reflexivity|split; reflexivity]].
    split; [split; [|discriminate]|];
      repeat case_match; simpl; discriminate.
  - unfold get_assessment, get_assessment_try, reply_200, jsonify.
    destruct (lookup_session sessions header) as [[id session]|];
      [|split; [split; reflexivity|split; reflexivity]].
    split; [split; [|discriminate]|];
      repeat case_match; simpl; discriminate.
Qed.

Lemma gemini_loop_calls (model : nat -> gen_outcome) (retries : Z) (n : nat) :
  forall attempt calls,
  Z.to_nat (retries - attempt) = n ->
  (calls <= snd (gemini_loop json_loads model retries attempt calls)
   <= calls + n)%nat
  /\ (forall t, fst (gemini_loop json_loads model retries attempt calls) = Some t ->
                (calls < snd (gemini_loop json_loads model retries attempt calls))%nat).
Proof.
  induction n as [|n IH]; intros attempt calls Hn; rewrite gemini_loop_step.
  - destruct (Z.ltb_spec attempt retries); [lia|]. simpl.
    split; [lia|discriminate].
  - destruct (Z.ltb_spec attempt retries); [|lia].
    destruct (IH (attempt + 1) (S calls) ltac:(lia)) as [Hb Hs].
    destruct (attempt_body json_loads (model calls)); simpl.
    + split; [lia|]. intros; lia.
    + split; [lia|]. intros t Ht. specialize (Hs t Ht). lia.
    + destruct (attempt + 1 >=? retries); simpl.
      * split; [lia|discriminate].
      * split; [lia|]. intros t Ht. specialize (Hs t Ht). lia.
Qed.

Lemma call_gemini_calls (e : env) :
  (snd (call_gemini json_loads models_loaded e) <= 3)%nat
  /\ (forall t, fst (call_gemini json_loads models_loaded e) = Ok (Some t) ->
                (1 <= snd (call_gemini json_loads models_loaded e))%nat).
Proof.
  unfold call_gemini. destruct models_loaded; [|simpl; split; [lia|discriminate]].
  unfold generate_content_with_gemini.
  pose proof (gemini_loop_calls (ai e) 3 3%nat 0 0%nat eq_refl) as [Hb Hs].
  destruct (gemini_loop json_loads (ai e) 3 0 0) as [r n]. simpl in *.
  split; [lia|]. intros t [= ->]. specialize (Hs t eq_refl). lia.
Qed.

(** X10.  No request makes more than three calls to the model.  A reply
    with status 200 took at least one call, and a reply that is neither a
    200 nor a 500 (a 400, a 404, or an exception that escaped the handler)
    took none. *)
Theorem model_call_budget (sessions : gmap string dict) (req : request)
    (e : env) :
  let out := handle json_loads py_error_text DOCX_AVAILABLE models_loaded
               sessions req e in
  (ai_calls out <= 3)%nat
  /\ (status (reply out) = Some 200 -> (1 <= ai_calls out)%nat)
  /\ (status (reply out) <> Some 200 -> status (reply out) <> Some 500 ->
      ai_calls out = 0%nat).
Proof.
  destruct (call_gemini_calls e) as [Hb Hs].
  destruct req as [header resume|header body|header body|header]; simpl;
    unfold upload_resume, setup_interview, setup_interview_try, submit_answer,
      submit_answer_try, get_assessment, get_assessment_try,
      reply_200, jsonify;
    destruct (call_gemini json_loads models_loaded e) as [[[t|]|ex] calls];
    simpl in Hb, Hs; try specialize (Hs _ eq_refl);
    repeat case_match; simpl;
    (split; [lia|split; [try discriminate; intros; lia|]]);
    intros H200 H500; try reflexivity; exfalso;
    first [apply H200; reflexivity | apply H500; reflexivity].
Qed.

(** X11.  A request touches no session but the one it names: every other
    session of the store is the same record afterwards. *)
Theorem handle_frame (sessions : gmap string dict) (req : request) (e : env)
    (other : string) :
  request_session req e <> Some other ->
  store (handle json_loads py_error_text DOCX_AVAILABLE models_loaded
           sessions req e) !! other
  = sessions !! other.
Proof.
  intros Hother.
  destruct req as [header resume|header body|header body|header]; simpl in *.
  - apply upload_resume_store. congruence.
  - unfold setup_interview, setup_interview_try, reply_200, jsonify.
    destruct (lookup_session sessions header) as [[id session]|] eqn:El;
      [|reflexivity].
    apply lookup_session_inv in El as (-> & _ & _).
    repeat case_match; simpl; rewrite ?lookup_insert_ne by congruence;
      reflexivity.
  - unfold submit_answer, submit_answer_try, reply_200, jsonify.
    destruct (lookup_session sessions header) as [[id session]|] eqn:El;
      [|reflexivity].
    apply lookup_session_inv in El as (-> & _ & _).
    repeat case_match; simpl; rewrite ?lookup_insert_ne by congruence;
      reflexivity.
  - unfold get_assessment, get_assessment_try, reply_200, jsonify.
    destruct (lookup_session sessions header) as [[id session]|] eqn:El;
      [|reflexivity].
    apply lookup_session_inv in El as (-> & _ & _).
    repeat case_match; simpl; rewrite ?lookup_insert_ne by congruence;
      reflexivity.
Qed.

Lemma insert_same_dom (sessions : gmap string dict) id v id' :
  is_Some (sessions !! id) ->
  (is_Some (<[id := v]> sessions !! id') <-> is_Some (sessions !! id')).
Proof.
  intros H. destruct (decide (id = id')) as [->|Hne].
  - rewrite lookup_insert_eq. split; [intros _; exact H|eauto].
  - rewrite lookup_insert_ne by exact Hne. reflexivity.
Qed.

(** X12.  Only a resume upload creates a session: after any other request
    the store holds exactly the session identifiers it held before. *)
Theorem only_upload_creates (sessions : gmap string dict) (req : request)
    (e : env) (id : string) :
  (forall header resume, req <> UploadResume header resume) ->
  (is_Some (store (handle json_loads py_error_text DOCX_AVAILABLE
                     models_loaded sessions req e) !! id)
   <-> is_Some (sessions !! id)).
Proof.
  intros Hreq.
  destruct req as [header resume|header body|header body|header];
    [exfalso; eapply Hreq; reflexivity| | |]; simpl;
    unfold setup_interview, setup_interview_try, submit_answer,
      submit_answer_try, get_assessment, get_assessment_try,
      reply_200, jsonify;
    (destruct (lookup_session sessions header) as [[sid session]|] eqn:El;
       [|reflexivity]);
    apply lookup_session_inv in El as (_ & _ & Hin);
    assert (Hs : is_Some (sessions !! sid)) by eauto;
    repeat case_match; simpl; rewrite ?insert_same_dom; try reflexivity;
    try exact Hs; rewrite ?insert_same_dom; exact Hs.
Qed.




Lemma well_formed_new : well_formed new_session.
Proof.
  intros k Hk. simpl in Hk.
  destruct Hk as [<-|[<-|[<-|[<-|[<-|[]]]]]]; eexists; (split; [reflexivity|]);
    unfold field_ok; repeat apply conj; intros Hk; try discriminate;
    try (left; reflexivity); try (destruct Hk; discriminate).
  exists []. split; [reflexivity|constructor].
Qed.

Lemma well_formed_set k v session :
  well_formed session -> field_ok k v -> well_formed (dict_set k v session).
Proof.
  intros Hs Hv k' Hk'. destruct (String.eqb_spec k k') as [->|Hne].
  - exists v. split; [apply dict_get_set_eq|exact Hv].
  - rewrite dict_get_set_ne by exact Hne. apply Hs. exact Hk'.
Qed.

Lemma field_ok_other k v :
  ~ In k (map fst new_session) \/ k = "interview_questions" -> field_ok k v.
Proof.
  intros Hk. unfold field_ok.
  repeat apply conj; intros Hk'; try destruct Hk' as [Hk'|Hk']; subst k;
    destruct Hk as [Hk|Hk]; try discriminate; exfalso; apply Hk; simpl; tauto.
Qed.

Lemma well_formed_profile session d :
  well_formed session ->
  dict_get "candidate_profile" session = Some (VDict d) ->
  exists l, dict_get "key_skills" d = Some (VList l).
Proof.
  intros Hs Hp. destruct (Hs "candidate_profile") as (v & Hv & Hok & _);
    [simpl; tauto|].
  rewrite Hp in Hv. injection Hv as <-.
  destruct (Hok eq_refl) as [|(d' & l & [= <-] & Hl)]; [discriminate|].
  exists l. exact Hl.
Qed.

Lemma well_formed_responses session :
  well_formed session ->
  exists l, dict_get "interview_responses" session = Some (VList l)
            /\ Forall scored_record l.
Proof.
  intros Hs. destruct (Hs "interview_responses") as (v & Hv & _ & Hok & _);
    [simpl; tauto|].
  destruct (Hok eq_refl) as (l & -> & Hl). exists l. split; assumption.
Qed.

Lemma field_ok_profile profile returned :
  normalize_key_skills returned = Ok profile ->
  field_ok "candidate_profile" profile.
Proof.
  intros H. apply normalize_key_skills_spec in H
    as (d & d' & -> & -> & _ & Hks).
  unfold field_ok. repeat apply conj; try discriminate.
  - intros _. right. exists d'.
    destruct (dict_get "key_skills" d) as [[| | | | | |]|]; eauto.
    destruct Hks as [_ Hks]. eauto.
  - intros [|]; discriminate.
Qed.

Lemma field_ok_time k t :
  k = "interview_start_time" \/ k = "interview_end_time" ->
  field_ok k (VStr t).
Proof.
  intros Hk. unfold field_ok.
  repeat apply conj; intros Hk'; [| |right; exists t; reflexivity];
    subst k; destruct Hk; discriminate.
Qed.

Lemma field_ok_responses l :
  Forall scored_record l -> field_ok "interview_responses" (VList l).
Proof.
  intros Hl. unfold field_ok. repeat apply conj; try discriminate.
  - intros _. exists l. split; [reflexivity|exact Hl].
  - intros [|]; discriminate.
Qed.

Lemma field_ok_position session profile position_role :
  well_formed session ->
  dict_get "candidate_profile" session = Some (VDict profile) ->
  field_ok "candidate_profile" (VDict (dict_set "position" position_role profile)).
Proof.
  intros Hs Hp. destruct (well_formed_profile _ _ Hs Hp) as [l Hl].
  unfold field_ok. repeat apply conj; try discriminate.
  - intros _. right. exists (dict_set "position" position_role profile), l.
    split; [reflexivity|]. rewrite dict_get_set_ne by discriminate. exact Hl.
  - intros [|]; discriminate.
Qed.

Lemma record_answer_well_formed session question_id question_obj response_text
    data ai_text evaluation session' :
  well_formed session ->
  record_answer json_loads session question_id question_obj response_text
    data ai_text = Ok (evaluation, session') ->
  well_formed session'.
Proof.
  intros Hs H.
  apply record_answer_ok in H
    as (returned & score & l & question & tags & duration & _ & Hscore & Hset
        & Hl & ->).
  apply overall_score_ok in Hscore as (d & _ & k & -> & _ & _ & ->).
  injection Hset as <-.
  destruct (well_formed_responses _ Hs) as (l' & Hl' & Hall).
  rewrite Hl in Hl'. injection Hl' as <-.
  apply well_formed_set; [exact Hs|]. apply field_ok_responses.
  apply Forall_app. split; [exact Hall|]. constructor; [|constructor].
  exists question_id, question, tags, response_text, duration,
    (dict_set "score" (VInt k) d), k.
  split; [reflexivity|apply dict_get_set_eq].
Qed.

Lemma handle_well_formed (sessions : gmap string dict) (req : request)
    (e : env) :
  store_ok sessions ->
  store_ok (store (handle json_loads py_error_text DOCX_AVAILABLE
                     models_loaded sessions req e)).
Proof.
  unfold store_ok. intros Hs.
  destruct req as [header resume|header body|header body|header]; simpl.
  - unfold upload_resume, reply_200, jsonify.
    set (session_id := match header with Some h => h | None => uuid4 e end).
    assert (Hg : well_formed (fst (get_or_create_session sessions session_id))
                 /\ map_Forall (fun _ session => well_formed session)
                      (snd (get_or_create_session sessions session_id))).
    { unfold get_or_create_session.
      destruct (sessions !! session_id) as [s|] eqn:E; simpl.
      - split; [exact (Hs _ _ E)|exact Hs].
      - split; [apply well_formed_new|].
        apply map_Forall_insert_2; [apply well_formed_new|exact Hs]. }
    destruct (get_or_create_session sessions session_id) as [session sessions'].
    simpl in Hg. destruct Hg as [Hsession Hs'].
    repeat case_match; simpl; try exact Hs'.
    all: apply map_Forall_insert_2; [|exact Hs'].
    all: apply well_formed_set; [exact Hsession|].
    all: match goal with
    | H : parse_profile _ _ = Ok _ |- _ =>
        apply parse_profile_ok in H as (cleaned & returned & _ & _ & H);
        exact (field_ok_profile _ _ H)
    end.
  - unfold setup_interview, setup_interview_try, reply_200, jsonify.
    destruct (lookup_session sessions header) as [[id session]|] eqn:El;
      [|exact Hs].
    apply lookup_session_inv in El as (_ & _ & Hin).
    pose proof (Hs _ _ Hin) as Hsession.
    destruct (py_get (json_body body) "position_role" VNone)
      as [position_role|]; [|exact Hs].
    destruct (dict_get "candidate_profile" session) as [candidate_profile|] eqn:Ep;
      [|rewrite orb_true_r; exact Hs].
    destruct (negb (py_truthy position_role) || negb (py_truthy candidate_profile));
      [exact Hs|].
    destruct candidate_profile as [| | | | | |profile]; try exact Hs.
    cbn [py_setitem].
    assert (Hs1 : well_formed
                    (dict_set "candidate_profile"
                       (VDict (dict_set "position" position_role profile))
                       session)).
    { apply well_formed_set; [exact Hsession|].
      exact (field_ok_position _ _ _ Hsession Ep). }
    repeat case_match; simpl; try exact Hs;
      repeat (apply map_Forall_insert_2; [|try exact Hs]); try exact Hs1.
    all: apply well_formed_set; [|apply field_ok_time; left; reflexivity].
    all: apply well_formed_set; [|apply field_ok_responses; constructor].
    all: apply well_formed_set; [exact Hs1|].
    all: apply field_ok_other; right; reflexivity.
  - unfold submit_answer, submit_answer_try, reply_200, jsonify.
    destruct (lookup_session sessions header) as [[id session]|] eqn:El;
      [|exact Hs].
    apply lookup_session_inv in El as (_ & _ & Hin).
    pose proof (Hs _ _ Hin) as Hsession.
    repeat case_match; simpl; try exact Hs.
    all: apply map_Forall_insert_2; [|exact Hs].
    all: eapply record_answer_well_formed; [exact Hsession|eassumption].
  - unfold get_assessment, get_assessment_try, reply_200, jsonify.
    destruct (lookup_session sessions header) as [[id session]|] eqn:El;
      [|exact Hs].
    apply lookup_session_inv in El as (_ & _ & Hin).
    pose proof (Hs _ _ Hin) as Hsession.
    assert (Hs1 : well_formed
                    (dict_set "interview_end_time" (VStr (now e)) session)).
    { apply well_formed_set; [exact Hsession|].
      apply field_ok_time. right. reflexivity. }
    repeat case_match; simpl; try exact Hs;
      repeat (apply map_Forall_insert_2; [|try exact Hs]); try exact Hs1.
    all: apply well_formed_set; [exact Hs1|].
    all: apply field_ok_other; left; simpl; intros H';
      repeat (destruct H' as [H'|H']; [discriminate|]); exact H'.
Qed.

Lemma serve_well_formed (reqs : list (request * env)) :
  forall sessions,
    store_ok sessions ->
    store_ok (serve json_loads py_error_text DOCX_AVAILABLE models_loaded
                sessions reqs).
Proof.
  induction reqs as [|[req e] reqs IH]; intros sessions Hs; simpl.
  - exact Hs.
  - apply IH. apply handle_well_formed. exact Hs.
Qed.

(** X16.  Starting from the empty store, after any sequence of requests
    handled one after the other every session has the five entries of a new
    session; its profile is null or an object whose [key_skills] is a list;
    its responses are a list of records with the six fields [submit_answer]
    writes, each evaluation an object with an integer [score]; its start and
    end times are null or text. *)
Theorem sessions_well_formed (reqs : list (request * env)) (id : string)
    (session : dict) :
  serve json_loads py_error_text DOCX_AVAILABLE models_loaded ∅ reqs !! id
  = Some session ->
  well_formed session.
Proof.
  intros H. eapply (serve_well_formed reqs ∅); [|exact H].
  apply map_Forall_empty.
Qed.

Lemma summary_entry_scored r :
  scored_record r ->
  summary_entry r
  = if summarisable r then Ok tt else Raise (PyError KeyError).
Proof.
  intros (question_id & question & tags & response_text & duration & ev
          & score & -> & _).
  unfold summary_entry, summarisable, has_keys, summary_keys, response_record.
  cbn [py_getitem dict_get String.eqb Ascii.eqb Bool.eqb mbind result_bind
       evaluation_of forallb].
  destruct (dict_get "technicalScore" ev); [|reflexivity].
  destruct (dict_get "communicationScore" ev); [|reflexivity].
  destruct (dict_get "relevanceScore" ev); [|reflexivity].
  destruct (dict_get "feedback" ev); reflexivity.
Qed.

Lemma sum_durations_scored limit l : forall acc,
  Forall scored_record l ->
  sum_durations limit l acc
  = if forallb summarisable l then Ok (acc + total_seconds limit l)
    else Raise (PyError KeyError).
Proof.
  induction l as [|r l IH]; intros acc Hl.
  - simpl. f_equal. unfold total_seconds. simpl. lia.
  - inversion Hl as [|? ? Hr Hl']; subst.
    cbn [sum_durations forallb]. rewrite (summary_entry_scored r Hr).
    destruct (summarisable r); [|reflexivity].
    cbn [mbind result_bind andb]. rewrite (IH _ Hl').
    destruct (forallb summarisable l); [|reflexivity].
    change (total_seconds limit (r :: l))
      with (response_seconds limit r + total_seconds limit l).
    rewrite <- (duration_seconds_spec limit r).
    destruct (duration_seconds limit r); f_equal; lia.
Qed.

(** The seconds of a total are written with at most two digits. *)
Lemma decimal_seconds limit z :
  0 <= z < 60 ->
  exceeds_limit limit (IntLiteral.count_digits (decimal z)) = false.
Proof.
  intros Hz. unfold exceeds_limit.
  assert (Hd : IntLiteral.count_digits (decimal z) <= 640).
  { assert (Hn : (Z.to_nat z < 60)%nat) by lia.
    rewrite <- (Z2Nat.id z) by lia.
    generalize dependent (Z.to_nat z). clear z Hz. intros n Hn.
    do 60 (destruct n as [|n]; [vm_compute; discriminate|]). lia. }
  destruct (Z.ltb_spec 640 (IntLiteral.count_digits (decimal z)));
    [lia|reflexivity].
Qed.

(** Only the minutes of a total can have too many digits to be written. *)
Lemma format_duration_spec limit total :
  format_duration limit total
  = if exceeds_limit limit (IntLiteral.count_digits (decimal (total / 60)))
    then Raise (PyError ValueError)
    else Ok (decimal (total / 60) +:+ "m " +:+ decimal (total mod 60)
             +:+ "s").
Proof.
  unfold format_duration, py_str_int.
  rewrite (decimal_seconds limit (total mod 60))
    by (apply Z.mod_pos_bound; lia).
  destruct (exceeds_limit limit _); reflexivity.
Qed.

Lemma get_assessment_well_formed (sessions : gmap string dict)
    (session_id : string) (session : dict) (e : env) :
  let out := get_assessment json_loads py_error_text models_loaded sessions
               (Some session_id) e in
  let stamped := dict_set "interview_end_time" (VStr (now e)) session in
  let limit := max_str_digits e in
  let escaped k := {| reply := Unhandled (PyError k);
                      store := <[session_id := stamped]> sessions;
                      ai_calls := 0 |} in
  session_id <> EmptyString ->
  sessions !! session_id = Some session ->
  well_formed session ->
  exists l profile,
    let total := total_seconds limit l in
    let too_long :=
      exceeds_limit limit (IntLiteral.count_digits (decimal (total / 60))) in
    dict_get "interview_responses" session = Some (VList l)
    /\ dict_get "candidate_profile" session = Some profile
    /\ (l = [] -> reply out = error_reply 400 "No interview responses to assess")
    /\ (l <> [] -> forallb summarisable l = false -> out = escaped KeyError)
    /\ (l <> [] -> forallb summarisable l = true -> too_long = true ->
        out = escaped ValueError)
    /\ (l <> [] -> forallb summarisable l = true -> too_long = false ->
        forall k, dumps_raises e profile = Some k -> out = escaped k)
    /\ (l <> [] -> forallb summarisable l = true -> too_long = false ->
        dumps_raises e profile = None ->
        out = get_assessment_try json_loads py_error_text models_loaded
                (<[session_id := stamped]> sessions) session_id stamped
                (decimal (total / 60) +:+ "m " +:+ decimal (total mod 60)
                 +:+ "s") e
        /\ exists code body, reply out = Response code body).
Proof.
  intros out stamped limit escaped Hid Hin Hs.
  destruct (well_formed_responses _ Hs) as (l & Hl & Hall).
  destruct (Hs "candidate_profile") as (p & Hp & _); [simpl; tauto|].
  exists l, p. cbv zeta. split; [exact Hl|]. split; [exact Hp|].
  assert (Hp' : dict_get "candidate_profile" stamped = Some p).
  { unfold stamped. rewrite dict_get_set_ne by discriminate. exact Hp. }
  split.
  { intros ->. subst out. unfold get_assessment.
    rewrite (lookup_session_some _ _ _ Hid Hin). cbn [py_getitem].
    rewrite Hl. reflexivity. }
  assert (Hout : l <> [] ->
            out
            = if forallb summarisable l then
                if exceeds_limit limit
                     (IntLiteral.count_digits
                        (decimal (total_seconds limit l / 60)))
                then escaped ValueError
                else
                  match dumps_raises e p with
                  | Some k => escaped k
                  | None =>
                      get_assessment_try json_loads py_error_text
                        models_loaded (<[session_id := stamped]> sessions)
                        session_id stamped
                        (decimal (total_seconds limit l / 60) +:+ "m "
                         +:+ decimal (total_seconds limit l mod 60) +:+ "s")
                        e
                  end
              else escaped KeyError).
  { intros Hne. destruct l as [|r l']; [congruence|].
    subst out escaped. unfold get_assessment.
    rewrite (lookup_session_some _ _ _ Hid Hin). cbn [py_getitem].
    rewrite Hl.
    cbn [py_truthy negb py_iter mbind result_bind]. fold stamped limit.
    rewrite (sum_durations_scored limit _ 0 Hall).
    destruct (forallb summarisable (r :: l')); [|reflexivity].
    cbn [mbind result_bind]. rewrite Z.add_0_l, format_duration_spec.
    destruct (exceeds_limit limit _); [reflexivity|].
    cbn [mbind result_bind py_getitem]. rewrite Hp'.
    cbn [mbind result_bind]. unfold json_dumps.
    destruct (dumps_raises e p); reflexivity. }
  repeat apply conj; intros Hne; rewrite (Hout Hne).
  - intros ->. reflexivity.
  - intros -> ->. reflexivity.
  - intros -> -> k ->. reflexivity.
  - intros -> -> ->. split; [reflexivity|].
    unfold get_assessment_try, reply_200, jsonify.
    repeat case_match; simpl; eauto.
Qed.

(** X17.  On a store built by requests from the empty store,
    [get_assessment] for an existing session either is refused for want of
    responses, or lets an exception escape, or goes on to ask the model.
    Three exceptions can escape, tried in this order: a [KeyError] when the
    evaluation of some recorded response lacks one of [technicalScore],
    [communicationScore], [relevanceScore] and [feedback] (lines 312-316); a
    [ValueError] when the minutes of the total have more digits than the
    interpreter writes (line 324); and whatever [json.dumps] raises on the
    stored profile (line 337).  Each time the model is not called and the
    end time has been set.  Otherwise the reply is a proper response and the
    duration handed on is that of the total of the recorded durations. *)
Theorem get_assessment_crash (reqs : list (request * env))
    (session_id : string) (session : dict) (e : env) :
  let sessions := serve json_loads py_error_text DOCX_AVAILABLE models_loaded
                    ∅ reqs in
  let out := get_assessment json_loads py_error_text models_loaded sessions
               (Some session_id) e in
  let stamped := dict_set "interview_end_time" (VStr (now e)) session in
  let limit := max_str_digits e in
  let escaped k := {| reply := Unhandled (PyError k);
                      store := <[session_id := stamped]> sessions;
                      ai_calls := 0 |} in
  session_id <> EmptyString ->
  sessions !! session_id = Some session ->
  exists l profile,
    let total := total_seconds limit l in
    let too_long :=
      exceeds_limit limit (IntLiteral.count_digits (decimal (total / 60))) in
    dict_get "interview_responses" session = Some (VList l)
    /\ dict_get "candidate_profile" session = Some profile
    /\ (l = [] -> reply out = error_reply 400 "No interview responses to assess")
    /\ (l <> [] -> forallb summarisable l = false -> out = escaped KeyError)
    /\ (l <> [] -> forallb summarisable l = true -> too_long = true ->
        out = escaped ValueError)
    /\ (l <> [] -> forallb summarisable l = true -> too_long = false ->
        forall k, dumps_raises e profile = Some k -> out = escaped k)
    /\ (l <> [] -> forallb summarisable l = true -> too_long = false ->
        dumps_raises e profile = None ->
        out = get_assessment_try json_loads py_error_text models_loaded
                (<[session_id := stamped]> sessions) session_id stamped
                (decimal (total / 60) +:+ "m " +:+ decimal (total mod 60)
                 +:+ "s") e
        /\ exists code body, reply out = Response code body).
Proof.
  intros sessions out stamped limit escaped Hid Hin.
  apply get_assessment_well_formed; [exact Hid|exact Hin|].
  eapply (serve_well_formed reqs ∅); [apply map_Forall_empty|exact Hin].
Qed.

(** X18.  [submit_answer] accepts an evaluation that lacks one of the four
    keys the assessment summary reads (the score counts a missing sub-score
    as 0), and from then on every [get_assessment] for that session fails:
    the exception [KeyError] escapes the handler before the model is called,
    and the end time is set all the same. *)
Theorem incomplete_evaluation_breaks_assessment (reqs : list (request * env))
    (header : option string) (body : option value) (e e' : env)
    (evaluation : dict) :
  let sessions := serve json_loads py_error_text DOCX_AVAILABLE models_loaded
                    ∅ reqs in
  let out := submit_answer json_loads py_error_text models_loaded sessions
               header body e in
  let later := get_assessment json_loads py_error_text models_loaded
                 (store out) header e' in
  reply out = Response 200 (VDict [("message", VStr "Answer evaluated");
                                     ("evaluation", VDict evaluation)]) ->
  has_keys summary_keys evaluation = false ->
  reply later = Unhandled (PyError KeyError)
  /\ ai_calls later = 0%nat
  /\ exists session_id session',
       header = Some session_id
       /\ store out !! session_id = Some session'
       /\ store later
          = <[session_id := dict_set "interview_end_time" (VStr (now e'))
                              session']> (store out).
Proof.
  intros sessions out later Hreply Hkeys. subst later.
  pose proof (submit_answer_ok json_loads py_error_text models_loaded sessions
                header body e _ Hreply)
    as (session_id & session & question_id & question_obj & response_text
        & ai_text & calls & evaluation' & session' & Hlook & _ & Hrec & Hout).
  fold out in Hout. rewrite Hout in Hreply |- *. simpl in Hreply |- *.
  injection Hreply as ->.
  apply lookup_session_inv in Hlook as (-> & Hid & Hin).
  assert (Hs : well_formed session).
  { eapply (serve_well_formed reqs ∅); [apply map_Forall_empty|exact Hin]. }
  pose proof (record_answer_well_formed _ _ _ _ _ _ _ _ Hs Hrec) as Hs'.
  apply record_answer_ok in Hrec
    as (returned & score & l & question & tags & duration & _ & _ & _ & Hl
        & Hsession').
  destruct (get_assessment_well_formed (<[session_id := session']> sessions)
              session_id session' e' Hid (lookup_insert_eq _ _ _) Hs')
    as (l' & p & Hl' & _ & _ & Hcrash & _).
  rewrite Hsession', dict_get_set_eq in Hl'. injection Hl' as <-.
  rewrite Hcrash.
  - simpl. split; [reflexivity|]. split; [reflexivity|].
    exists session_id, session'.
    split; [reflexivity|]. split; [apply lookup_insert_eq|reflexivity].
  - destruct l; discriminate.
  - rewrite forallb_app. apply andb_false_iff. right.
    cbn [forallb]. rewrite andb_true_r. exact Hkeys.
Qed.

Lemma join_items_raise items :
  Exists (fun v => forall s, v <> VStr s) items ->
  join_items items = Raise (PyError TypeError).
Proof.
  induction items as [|v items IH]; intros H; [inversion H|].
  destruct v; try reflexivity.
  inversion H as [? ? Hv|? ? Hrest]; subst.
  - exfalso. eapply Hv. reflexivity.
  - cbn [join_items]. rewrite (IH Hrest). reflexivity.
Qed.

(** X19.  When the stored profile has a skill that is not text (the list
    the model returned is stored as it is), [setup_interview] lets the
    [TypeError] of [", ".join] escape: no reply is built and the model is not
    called, yet the position has already been written into the profile. *)
Theorem setup_interview_skill_not_text (sessions : gmap string dict)
    (session_id : string) (session profile : dict) (body : dict)
    (position_role : value) (skills : list value) (e : env) :
  let out := setup_interview json_loads py_error_text models_loaded sessions
               (Some session_id) (Some (VDict body)) e in
  session_id <> EmptyString ->
  sessions !! session_id = Some session ->
  dict_get "candidate_profile" session = Some (VDict profile) ->
  dict_get "key_skills" profile = Some (VList skills) ->
  Exists (fun v => forall s, v <> VStr s) skills ->
  dict_get "position_role" body = Some position_role ->
  py_truthy position_role = true ->
  out = {| reply := Unhandled (PyError TypeError);
           store := <[session_id :=
                        dict_set "candidate_profile"
                          (VDict (dict_set "position" position_role profile))
                          session]> sessions;
           ai_calls := 0 |}.
Proof.
  intros out Hid Hin Hp Hks Hbad Hpos Htruthy. subst out.
  unfold setup_interview.
  rewrite (lookup_session_some _ _ _ Hid Hin).
  assert (Hbody : json_body (Some (VDict body)) = VDict body).
  { unfold json_body. destruct body; [discriminate|reflexivity]. }
  rewrite Hbody. cbn [py_get]. rewrite Hpos, Hp, Htruthy.
  assert (Hprofile : py_truthy (VDict profile) = true).
  { destruct profile; [discriminate|reflexivity]. }
  rewrite Hprofile. cbn [negb orb py_setitem py_get].
  rewrite dict_get_set_ne by discriminate. rewrite Hks.
  cbn [mbind result_bind py_join py_iter].
  rewrite (join_items_raise _ Hbad). reflexivity.
Qed.

(** X20.  [setup_interview] stores whatever JSON the model returned as the
    questions.  When that is not an array, an answer cannot be submitted: for
    a non-empty object or text [submit_answer] lets an [AttributeError]
    escape, for a number, a boolean or null a [TypeError], and for an empty
    object or text it replies 404; the store is unchanged and the model is
    not called. *)
Theorem submit_answer_questions_not_array (sessions : gmap string dict)
    (session_id : string) (session body : dict)
    (question_id response_text questions : value) (e : env) :
  let out := submit_answer json_loads py_error_text models_loaded sessions
               (Some session_id) (Some (VDict body)) e in
  session_id <> EmptyString ->
  sessions !! session_id = Some session ->
  dict_get "question_id" body = Some question_id ->
  dict_get "response_text" body = Some response_text ->
  py_truthy question_id = true ->
  py_truthy response_text = true ->
  dict_get "interview_questions" session = Some questions ->
  (forall l, questions <> VList l) ->
  store out = sessions /\ ai_calls out = 0%nat
  /\ reply out
     = match questions with
       | VDict _ | VStr _ =>
           if py_truthy questions then Unhandled (PyError AttributeError)
           else error_reply 404 "Question not found"
       | _ => Unhandled (PyError TypeError)
       end.
Proof.
  intros out Hid Hin Hq Hr Htq Htr Hqs Hnot. subst out.
  unfold submit_answer.
  rewrite (lookup_session_some _ _ _ Hid Hin).
  assert (Hbody : json_body (Some (VDict body)) = VDict body).
  { unfold json_body. destruct body; [discriminate|reflexivity]. }
  rewrite Hbody. unfold answer_fields. cbn [py_get mbind result_bind].
  rewrite Hq, Hr, Htq, Htr. cbn [negb orb].
  unfold lookup_question. cbn [py_getitem]. rewrite Hqs.
  cbn [mbind result_bind].
  destruct questions as [|b|z|f|s|l|d];
    try (repeat split; reflexivity).
  - destruct s; repeat split; reflexivity.
  - exfalso. eapply Hnot. reflexivity.
  - destruct d as [|[k v] d]; repeat split; reflexivity.
Qed.

Lemma mean_of_three_numbers t c r v :
  mean_of_three t c r = Ok v ->
  Num.as_num t <> None /\ Num.as_num c <> None /\ Num.as_num r <> None.
Proof.
  unfold mean_of_three. intros H.
  apply bind_ok in H as (tc & Htc & H).
  apply bind_ok in H as (total & Htotal & H).
  assert (Hnum : forall a b x, py_add a b = Ok x -> Num.as_num x <> None ->
                               Num.as_num a <> None /\ Num.as_num b <> None).
  { intros a b x Hadd Hx. unfold py_add in Hadd.
    destruct a, b; cbn [Num.as_num] in Hadd |- *;
      try (split; discriminate); try discriminate;
      injection Hadd as <-; exfalso; apply Hx; reflexivity. }
  assert (Htot : Num.as_num total <> None).
  { unfold py_truediv in H. destruct (Num.as_num total); [discriminate|].
    discriminate. }
  destruct (Hnum _ _ _ Htotal Htot) as [Htc' Hr].
  destruct (Hnum _ _ _ Htc Htc') as [Ht Hc].
  repeat split; assumption.
Qed.

(** X21.  An evaluation is recorded only when its three sub-scores (0
    where one is missing) are numbers: in the evaluation of a 200 reply each
    of them is an [int], a [bool] or a [float], and [score] is an integer. *)
Theorem recorded_scores_numeric (sessions : gmap string dict)
    (header : option string) (body : option value) (e : env)
    (evaluation : value) :
  let out := submit_answer json_loads py_error_text models_loaded sessions
               header body e in
  reply out = Response 200 (VDict [("message", VStr "Answer evaluated");
                                     ("evaluation", evaluation)]) ->
  exists d score,
    evaluation = VDict d
    /\ dict_get "score" d = Some (VInt score)
    /\ forall k, In k ["technicalScore"; "communicationScore"; "relevanceScore"] ->
                 Num.as_num (sub_score d k) <> None.
Proof.
  intros out Hreply.
  pose proof (submit_answer_ok json_loads py_error_text models_loaded sessions
                header body e _ Hreply)
    as (session_id & session & question_id & question_obj & response_text
        & ai_text & calls & evaluation' & session' & _ & _ & Hrec & Hout).
  fold out in Hout. rewrite Hout in Hreply. simpl in Hreply.
  injection Hreply as ->.
  apply record_answer_ok in Hrec
    as (returned & score & l & question & tags & duration & _ & Hscore & Hset
        & _ & _).
  apply overall_score_ok in Hscore as (d & mean & k & -> & Hmean & _ & ->).
  injection Hset as <-.
  apply mean_of_three_numbers in Hmean as (Ht & Hc & Hr).
  exists (dict_set "score" (VInt k) d), k.
  split; [reflexivity|]. split; [apply dict_get_set_eq|].
  intros key Hkey. unfold sub_score.
  simpl in Hkey. destruct Hkey as [<-|[<-|[<-|[]]]];
    rewrite dict_get_set_ne by discriminate; assumption.
Qed.

(** X22.  [upload_resume] always replies: no exception escapes it, the
    status is 200, 400 or 500, and a 400 is sent without calling the
    model. *)
Theorem upload_resume_always_replies (sessions : gmap string dict)
    (header : option string) (resume : option upload) (e : env) :
  let out := upload_resume json_loads py_error_text DOCX_AVAILABLE
               models_loaded sessions header resume e in
  exists code body,
    reply out = Response code body
    /\ (code = 200 \/ code = 400 \/ code = 500)
    /\ (code = 400 -> ai_calls out = 0%nat).
Proof.
  unfold upload_resume, reply_200, jsonify.
  destruct (get_or_create_session _ _) as [session sessions'].
  repeat case_match; simpl; eexists _, _;
    (split; [reflexivity|split; [tauto|]]);
    try reflexivity; discriminate.
Qed.

Lemma upload_resume_no_text (sessions : gmap string dict)
    (header : option string) (file : upload) (name : string) (e : env) :
  let session_id := match header with Some h => h | None => uuid4 e end in
  let out := upload_resume json_loads py_error_text DOCX_AVAILABLE
               models_loaded sessions header (Some file) e in
  filename file = Some name ->
  name <> EmptyString ->
  extract_text_smart DOCX_AVAILABLE file = Ok EmptyString ->
  out = {| reply := error_reply 400
             "Could not extract text. Ensure the PDF/DOCX contains selectable text.";
           store := snd (get_or_create_session sessions session_id);
           ai_calls := 0 |}.
Proof.
  intros session_id out Hname Hne Htext. subst out. unfold upload_resume, reply_200, jsonify.
  fold session_id.
  destruct (get_or_create_session sessions session_id) as [session sessions'].
  rewrite Hname, Htext. apply nonempty_true in Hne. rewrite Hne. reflexivity.
Qed.

End HandlerFacts.

(** X23.  A resume from which no text comes out is refused with the 400
    "Could not extract text", without a call to the model and with nothing
    stored but the session itself.  This is what happens to a PDF whose pages
    give no text or only whitespace (a scan), to a PDF that cannot be opened,
    and to every DOCX file when the [docx] library is not installed. *)
Theorem upload_resume_without_text (json_loads : string -> option value)
    (py_error_text : exn_kind -> string) (DOCX_AVAILABLE models_loaded : bool)
    (sessions : gmap string dict) (header : option string) (file : upload)
    (name p : string) (e : env) :
  let session_id := match header with Some h => h | None => uuid4 e end in
  let out := upload_resume json_loads py_error_text DOCX_AVAILABLE
               models_loaded sessions header (Some file) e in
  filename file = Some name ->
  (Str.lower name = p +:+ ".pdf"
   /\ match as_pdf file with
      | PdfOpenRaises => True
      | PdfPages pages =>
          Forall (fun page => Str.strip (page_text page) = EmptyString) pages
      end)
  \/ (Str.lower name = p +:+ ".docx" /\ DOCX_AVAILABLE = false) ->
  out = {| reply := error_reply 400
             "Could not extract text. Ensure the PDF/DOCX contains selectable text.";
           store := snd (get_or_create_session sessions session_id);
           ai_calls := 0 |}.
Proof.
  intros session_id out Hname Hcase.
  assert (Hne : name <> EmptyString).
  { intros ->. destruct Hcase as [[Hl _]|[Hl _]]; destruct p; discriminate. }
  apply (upload_resume_no_text json_loads py_error_text DOCX_AVAILABLE
           models_loaded sessions header file name e Hname Hne).
  unfold extract_text_smart. rewrite Hname.
  destruct Hcase as [[Hl Hpdf]|[Hl ->]].
  - assert (E : Str.endswith (Str.lower name) ".pdf" = true)
      by (apply endswith_spec; exists p; exact Hl).
    rewrite E. f_equal. unfold extract_text_from_pdf.
    destruct (as_pdf file) as [|pages]; [reflexivity|].
    apply blank_pages. exact Hpdf.
  - assert (E : Str.endswith (Str.lower name) ".pdf" = false).
    { destruct (Str.endswith (Str.lower name) ".pdf") eqn:E; [|reflexivity].
      apply endswith_spec in E as [p' Hp'].
      apply (f_equal (fun s => Str.rev_acc s EmptyString)) in Hl, Hp'.
      rewrite rev_acc_append in Hl, Hp'. rewrite Hl in Hp'. discriminate. }
    assert (E' : Str.endswith (Str.lower name) ".docx" = true)
      by (apply endswith_spec; exists p; exact Hl).
    rewrite E, E'. reflexivity.
Qed.

(** ** The handlers: examples *)

Lemma invalid_session_rejected_witness :
  let out := get_assessment json_loads_interview error_text_sample true
               interview_store (Some "nobody") (sample_env []) in
  reply out = invalid_session /\ store out = interview_store
  /\ ai_calls out = 0%nat.
Proof.
  intros out.
  destruct (invalid_session_rejected json_loads_interview error_text_sample
              true true interview_store (GetAssessment (Some "nobody"))
              (sample_env []))
    as [Hiff Hkeep]; [discriminate|].
  assert (Hreply : reply out = invalid_session).
  { apply Hiff. intros id [= <-]. right. reflexivity. }
  split; [exact Hreply|]. exact (Hkeep Hreply).
Defined.

Lemma handle_frame_witness :
  store (handle json_loads_interview error_text_sample true true
           (<["s2" := new_session]> interview_store)
           (SubmitAnswer (Some "s1") sample_answer)
           (sample_env [complete_evaluation_text])) !! "s2"
  = Some new_session.
Proof.
  rewrite (handle_frame json_loads_interview error_text_sample true true
             (<["s2" := new_session]> interview_store)
             (SubmitAnswer (Some "s1") sample_answer)
             (sample_env [complete_evaluation_text]) "s2").
  - apply lookup_insert_eq.
  - discriminate.
Defined.

Lemma only_upload_creates_witness :
  store (handle json_loads_interview error_text_sample true true
           interview_store
           (SetupInterview (Some "s9")
              (Some (VDict [("position_role", VStr "Backend Engineer")])))
           (sample_env [])) !! "s9" = None.
Proof.
  apply eq_None_not_Some. intros H.
  apply (only_upload_creates json_loads_interview error_text_sample true true
           interview_store
           (SetupInterview (Some "s9")
              (Some (VDict [("position_role", VStr "Backend Engineer")])))
           (sample_env []) "s9") in H; [|discriminate].
  destruct H as [session H]. discriminate H.
Defined.




Lemma sessions_well_formed_witness : well_formed interview_session.
Proof.
  apply (sessions_well_formed json_loads_interview error_text_sample true true
           interview_requests "s1" interview_session).
  reflexivity.
Defined.

Lemma get_assessment_crash_witness :
  let sessions := serve json_loads_interview error_text_sample true true ∅
                    flawed_requests in
  let sessions' := serve json_loads_interview error_text_sample true true ∅
                     long_requests in
  get_assessment json_loads_interview error_text_sample true sessions
    (Some "s1") (sample_env [])
  = {| reply := Unhandled (PyError KeyError);
       store := <["s1" := dict_set "interview_end_time" (VStr "t")
                            flawed_session]> sessions;
       ai_calls := 0 |}
  /\ get_assessment json_loads_interview error_text_sample true sessions'
       (Some "s1") (strict_env [])
     = {| reply := Unhandled (PyError ValueError);
          store := <["s1" := dict_set "interview_end_time" (VStr "t")
                               long_session]> sessions';
          ai_calls := 0 |}.
Proof.
  intros sessions sessions'. split.
  - destruct (get_assessment_crash json_loads_interview error_text_sample true
                true flawed_requests "s1" flawed_session (sample_env []))
      as (l & profile & Hl & _ & _ & Hcrash & _).
    + discriminate.
    + reflexivity.
    + injection Hl as <-. apply Hcrash; [discriminate|reflexivity].
  - destruct (get_assessment_crash json_loads_interview error_text_sample true
                true long_requests "s1" long_session (strict_env []))
      as (l & profile & Hl & _ & _ & _ & Hlong & _).
    + discriminate.
    + reflexivity.
    + injection Hl as <-.
      apply Hlong; [discriminate|reflexivity|vm_compute; reflexivity].
Defined.

Lemma incomplete_evaluation_breaks_assessment_witness :
  let out := submit_answer json_loads_interview error_text_sample true
               interview_store (Some "s1") sample_answer
               (sample_env [incomplete_evaluation_text]) in
  status (reply out) = Some 200
  /\ reply (get_assessment json_loads_interview error_text_sample true
              (store out) (Some "s1")
              (sample_env [complete_evaluation_text]))
     = Unhandled (PyError KeyError).
Proof.
  intros out. split; [reflexivity|].
  apply (incomplete_evaluation_breaks_assessment json_loads_interview
           error_text_sample true true interview_requests (Some "s1")
           sample_answer (sample_env [incomplete_evaluation_text])
           (sample_env [complete_evaluation_text])
           [("technicalScore", VInt 80); ("communicationScore", VInt 70);
            ("relevanceScore", VInt 90); ("score", VInt 80)]).
  - reflexivity.
  - reflexivity.
Defined.

Lemma setup_interview_skill_not_text_witness :
  let sessions : gmap string dict :=
    <["s1" := dict_set "candidate_profile"
                (VDict [("key_skills", VList [VStr "Go"; VInt 3])])
                new_session]> ∅ in
  setup_interview json_loads_interview error_text_sample true sessions
    (Some "s1") (Some (VDict [("position_role", VStr "Backend Engineer")]))
    (sample_env [])
  = {| reply := Unhandled (PyError TypeError);
       store := <["s1" := dict_set "candidate_profile"
                            (VDict [("key_skills", VList [VStr "Go"; VInt 3]);
                                    ("position", VStr "Backend Engineer")])
                            new_session]> sessions;
       ai_calls := 0 |}.
Proof.
  intros sessions.
  apply (setup_interview_skill_not_text json_loads_interview error_text_sample
           true sessions "s1"
           (dict_set "candidate_profile"
              (VDict [("key_skills", VList [VStr "Go"; VInt 3])]) new_session)
           [("key_skills", VList [VStr "Go"; VInt 3])]
           [("position_role", VStr "Backend Engineer")]
           (VStr "Backend Engineer") [VStr "Go"; VInt 3] (sample_env [])).
  - discriminate.
  - apply lookup_insert_eq.
  - reflexivity.
  - reflexivity.
  - right. left. discriminate.
  - reflexivity.
  - reflexivity.
Defined.

Lemma submit_answer_questions_not_array_witness :
  let sessions : gmap string dict :=
    <["s1" := dict_set "interview_questions"
                (VDict [("questions", VList [])]) new_session]> ∅ in
  let out := submit_answer json_loads_interview error_text_sample true
               sessions (Some "s1") sample_answer
               (sample_env [complete_evaluation_text]) in
  store out = sessions /\ ai_calls out = 0%nat
  /\ reply out = Unhandled (PyError AttributeError).
Proof.
  intros sessions out.
  apply (submit_answer_questions_not_array json_loads_interview
           error_text_sample true sessions "s1"
           (dict_set "interview_questions"
              (VDict [("questions", VList [])]) new_session)
           [("question_id", VStr "q1"); ("response_text", VStr "Because.");
            ("duration", VStr "1:30")]
           (VStr "q1") (VStr "Because.") (VDict [("questions", VList [])])
           (sample_env [complete_evaluation_text])).
  - discriminate.
  - apply lookup_insert_eq.
  - reflexivity.
  - reflexivity.
  - reflexivity.
  - reflexivity.
  - reflexivity.
  - discriminate.
Defined.

Lemma recorded_scores_numeric_witness :
  exists d,
    reply (submit_answer json_loads_interview error_text_sample true
             interview_store (Some "s1") sample_answer
             (sample_env [complete_evaluation_text]))
    = Response 200 (VDict [("message", VStr "Answer evaluated");
                             ("evaluation", VDict d)])
    /\ dict_get "score" d = Some (VInt 80)
    /\ Num.as_num (sub_score d "relevanceScore") <> None.
Proof.
  exists [("technicalScore", VInt 80); ("communicationScore", VInt 70);
          ("relevanceScore", VInt 90); ("feedback", VStr "ok");
          ("score", VInt 80)].
  assert (Hreply :
            reply (submit_answer json_loads_interview error_text_sample true
                     interview_store (Some "s1") sample_answer
                     (sample_env [complete_evaluation_text]))
            = Response 200
                (VDict [("message", VStr "Answer evaluated");
                          ("evaluation",
                           VDict [("technicalScore", VInt 80);
                                  ("communicationScore", VInt 70);
                                  ("relevanceScore", VInt 90);
                                  ("feedback", VStr "ok");
                                  ("score", VInt 80)])]))
    by reflexivity.
  split; [exact Hreply|]. split; [reflexivity|].
  destruct (recorded_scores_numeric json_loads_interview error_text_sample
              true interview_store (Some "s1") sample_answer
              (sample_env [complete_evaluation_text]) _ Hreply)
    as (d & score & Hd & _ & Hnum).
  injection Hd as <-. apply Hnum. simpl. tauto.
Defined.

Lemma upload_resume_without_text_witness :
  upload_resume json_loads_interview error_text_sample false true ∅
    (Some "s1")
    (Some {| filename := Some "CV.docx";
             as_pdf := PdfOpenRaises;
             as_docx := DocxParagraphs ["Ada, engineer"] |})
    (sample_env [profile_text])
  = {| reply := error_reply 400
         "Could not extract text. Ensure the PDF/DOCX contains selectable text.";
       store := <["s1" := new_session]> ∅;
       ai_calls := 0 |}.
Proof.
  rewrite (upload_resume_without_text json_loads_interview error_text_sample
             false true ∅ (Some "s1")
             {| filename := Some "CV.docx";
                as_pdf := PdfOpenRaises;
                as_docx := DocxParagraphs ["Ada, engineer"] |}
             "CV.docx" "cv"
             (sample_env [profile_text])).
  - reflexivity.
  - reflexivity.
  - right. split; reflexivity.
Defined.
